(** * Jeonse risk assessment: the feature calculators, the scoring fallback,
      the risk-factor analyzer and the insurance-eligibility check

    Shallow embedding of
    - [app/services/risk_calculator.py]  (module [RiskCalculator]),
    - [app/services/feature_service.py]  (module [FeatureService]),
    - [app/services/address_service.py], functions [parse_pnu],
      [pnu_to_raw_format] and [create_address_key]
      (module [AddressService]),
    - [app/services/price_service.py], functions [calculate_hug_eligibility]
      and [estimate_market_price]  (module [PriceService]),
    - [app/services/ocr_parser_service.py]  (module [OcrParserService]),
    - [app/services/result_service.py], function [save_prediction_result]
      (module [ResultService]),
    - [app/services/predict_service.py], functions [predict_risk_with_ocr]
      and [_error_response]  (module [PredictService]).

    Conventions of the embedding.
    - Python numbers ([int], [float], [bool] used as a number) are exact
      rationals [Q]; decimal constants of the source ([0.8], [1.26],
      [365.25]) are the rationals they denote.  Rounding, infinities and
      NaN of binary64 are therefore outside the model.
    - A Python [str] is a [string] holding its UTF-8 encoding.  UTF-8 is
      self-synchronising, so the substring test [x in s] on code points and
      the one on the encodings agree.
    - A Python [dict] from feature names to numbers is a [gmap string Q];
      [d.get(k, v)] is [get k v d].
    - An exception raised by an expression is [None] in an [option] result.
    - [datetime.now()] and [pandas.to_datetime] are external: they are the
      section variables [now] and [to_datetime].  Instants are counted in
      days (a rational); [to_datetime s = None] stands for a failed parse
      (an exception, or [NaT] under [errors='coerce']). *)

From Stdlib Require Import QArith Qround Lqa ZArith Lia List Ascii String.
From stdpp Require Import gmap strings.
Import ListNotations.

Local Open Scope string_scope.
Local Open Scope Q_scope.

(** ** Python and numpy primitives used by the embedded files *)

Module Py.

(** [a < b] and [a <= b] on numbers, as booleans. *)
Definition ltb (a b : Q) : bool := (Qnum a * QDen b <? Qnum b * QDen a)%Z.
Definition leb (a b : Q) : bool := Qle_bool a b.

Definition gtb (a b : Q) : bool := ltb b a.
Definition geb (a b : Q) : bool := leb b a.

(** Truth value of a number: every number but zero is true. *)
Definition truthy (a : Q) : bool := negb (Qeq_bool a 0).

(** Truth value of an optional string: [None] and [''] are false. *)
Definition truthy_str (o : option string) : bool :=
  match o with
  | Some (String _ _) => true
  | _ => false
  end.

(** [a or b] on numbers and on optional strings. *)
Definition or_num (a b : Q) : Q := if truthy a then a else b.
Definition or_str (a b : option string) : option string :=
  if truthy_str a then a else b.

(** [a or b] on strings. *)
Definition or_s (a b : string) : string :=
  match a with
  | EmptyString => b
  | String _ _ => a
  end.

(** [str(x)] of an optional string: [str(None)] is ['None']. *)
Definition str (o : option string) : string := default "None" o.

(** True division; [None] is [ZeroDivisionError]. *)
Definition div (a b : Q) : option Q :=
  if Qeq_bool b 0 then None else Some (a / b).

(** The builtin [max(a, b)]: the first argument unless the second is
    strictly greater. *)
Definition max (a b : Q) : Q := if ltb a b then b else a.
Definition min (a b : Q) : Q := if ltb b a then b else a.

(** [numpy.clip(x, lo, hi)], which is [minimum(maximum(x, lo), hi)]. *)
Definition clip (x lo hi : Q) : Q := min (max x lo) hi.

(** [needle in hay] on strings. *)
Fixpoint contains (needle hay : string) : bool :=
  String.prefix needle hay ||
  match hay with
  | EmptyString => false
  | String _ rest => contains needle rest
  end.

(** [any(k in s for k in keys)]. *)
Definition any_in (keys : list string) (s : string) : bool :=
  existsb (fun k => contains k s) keys.

(** [s.replace(a, b)] for one-character [a] and [b]. *)
Fixpoint replace (a b : ascii) (s : string) : string :=
  match s with
  | EmptyString => EmptyString
  | String c rest =>
      String (if Ascii.eqb c a then b else c) (replace a b rest)
  end.

(** Characters removed by [str.strip()], each as its UTF-8 encoding:
    U+0009..U+000D, U+001C..U+0020, U+0085, U+00A0, U+1680,
    U+2000..U+200A, U+2028, U+2029, U+202F, U+205F and U+3000. *)
Definition of_bytes (l : list N) : string :=
  string_of_list_ascii (map ascii_of_N l).

Definition whitespace_bytes : list (list N) :=
  List.app
    [[9]; [10]; [11]; [12]; [13]; [28]; [29]; [30]; [31]; [32];
     [194; 133]; [194; 160]; [225; 154; 128]]%N
    (List.app
       (map (fun b => [226; 128; b]%N)
          [128; 129; 130; 131; 132; 133; 134; 135; 136; 137; 138;
           168; 169; 175]%N)
       [[226; 129; 159]; [227; 128; 128]]%N).

Definition whitespace : list string := map of_bytes whitespace_bytes.

(** Removes one leading element of [chars], when there is one. *)
Fixpoint drop_one (chars : list string) (s : string) : option string :=
  match chars with
  | [] => None
  | c :: chars' =>
      if String.prefix c s
      then Some (String.substring (String.length c)
                   (String.length s - String.length c) s)
      else drop_one chars' s
  end.

Fixpoint lstrip_fuel (fuel : nat) (chars : list string) (s : string) : string :=
  match fuel with
  | O => s
  | S fuel' =>
      match s with
      | EmptyString => s
      | String _ _ =>
          match drop_one chars s with
          | Some s' => lstrip_fuel fuel' chars s'
          | None => s
          end
      end
  end.

(** [s.lstrip(chars)], [s.rstrip(chars)] and [s.strip(chars)]; every
    element of [chars] is the encoding of one character. *)
Definition lstrip_chars (chars : list string) (s : string) : string :=
  lstrip_fuel (String.length s) (filter (fun c => negb (String.eqb c "")) chars) s.
Definition rstrip_chars (chars : list string) (s : string) : string :=
  String.rev (lstrip_chars (map String.rev chars) (String.rev s)).
Definition strip_chars (chars : list string) (s : string) : string :=
  rstrip_chars chars (lstrip_chars chars s).

(** [s.strip()]. *)
Definition strip (s : string) : string := strip_chars whitespace s.

(** [l.append(x)], as the new list. *)
Definition append {A : Type} (l : list A) (x : A) : list A := List.app l [x].

(** [d.get(k, v)] on a dictionary of numbers. *)
Definition get (k : string) (v : Q) (d : gmap string Q) : Q := default v (d !! k).

(** [td.days] of a time difference counted in days: [timedelta] keeps the
    floor in [days] and a non-negative remainder in the other fields. *)
Definition days (td : Q) : Z := Qfloor td.

(** Truth value of a string: only [''] is false. *)
Definition truthy_s (s : string) : bool :=
  match s with
  | EmptyString => false
  | String _ _ => true
  end.

(** [s.replace(a, '')] for a one-character [a]. *)
Fixpoint remove_char (a : ascii) (s : string) : string :=
  match s with
  | EmptyString => EmptyString
  | String c rest =>
      if Ascii.eqb c a then remove_char a rest
      else String c (remove_char a rest)
  end.

(** [s.split(sep)] for a one-character [sep]: never the empty list. *)
Fixpoint split_char (sep : ascii) (s : string) : list string :=
  match s with
  | EmptyString => [EmptyString]
  | String c rest =>
      if Ascii.eqb c sep then EmptyString :: split_char sep rest
      else
        match split_char sep rest with
        | part :: parts => String c part :: parts
        | [] => [String c EmptyString]
        end
  end.

(** [sep.join(parts)]. *)
Fixpoint join (sep : string) (parts : list string) : string :=
  match parts with
  | [] => EmptyString
  | [part] => part
  | part :: parts' => String.app part (String.app sep (join sep parts'))
  end.

(** [parts[i]] for an index known to be in range; [''] stands for the
    [IndexError] that the callers exclude by testing [len(parts)]. *)
Definition item (i : nat) (parts : list string) : string :=
  nth i parts EmptyString.

(** Indexing and slicing count code points.  In UTF-8 the bytes
    [10xxxxxx] continue a character and every other byte starts one. *)
Definition is_cont (c : ascii) : bool :=
  ((128 <=? N_of_ascii c) && (N_of_ascii c <? 192))%N.

Fixpoint skip_cont (s : string) : string :=
  match s with
  | EmptyString => EmptyString
  | String c rest => if is_cont c then skip_cont rest else s
  end.

Fixpoint take_cont (s : string) : string :=
  match s with
  | EmptyString => EmptyString
  | String c rest => if is_cont c then String c (take_cont rest) else EmptyString
  end.

(** [len(s)]. *)
Fixpoint len (s : string) : nat :=
  match s with
  | EmptyString => O
  | String c rest => if is_cont c then len rest else S (len rest)
  end.

(** [s[:n]] and [s[n:]] for [n >= 0]. *)
Fixpoint slice_to (n : nat) (s : string) : string :=
  match n with
  | O => EmptyString
  | S n' =>
      match s with
      | EmptyString => EmptyString
      | String c rest =>
          String c (String.app (take_cont rest) (slice_to n' (skip_cont rest)))
      end
  end.

Fixpoint slice_from (n : nat) (s : string) : string :=
  match n with
  | O => s
  | S n' =>
      match s with
      | EmptyString => EmptyString
      | String c rest => slice_from n' (skip_cont rest)
      end
  end.

(** [s[a:b]] for [0 <= a <= b]. *)
Definition slice (a b : nat) (s : string) : string :=
  slice_to (b - a) (slice_from a s).

(** [int(x)] of a number: truncation towards zero. *)
Definition int (x : Q) : Z := Z.quot (Qnum x) (Zpos (Qden x)).

(** [bool(x)] of a number is [truthy x]. *)

End Py.

Infix "<?" := Py.ltb (at level 70, no associativity) : Q_scope.
Infix "<=?" := Py.leb (at level 70, no associativity) : Q_scope.
Infix ">?" := Py.gtb (at level 70, no associativity) : Q_scope.
Infix ">=?" := Py.geb (at level 70, no associativity) : Q_scope.

(** ** app/services/risk_calculator.py *)

Module RiskCalculator.

Definition USE_COLS : list string :=
  ["type_APT"; "type_OFFICETEL"; "type_VILLA"; "type_ETC"].

(** The keys of [building_info] that the calculator reads.  A field is
    [None] when [building_info.get(key)] is [None] (key missing, or NULL in
    the row). *)
Record BuildingInfo : Type := {
  bi_owner_name : option string;
  bi_ownership_changed_date : option string;
  bi_main_use : option string;
  bi_use_apr_day : option string;
  bi_household_cnt : option Q;
  bi_parking_cnt : option Q;
  bi_is_violating_building : option string
}.

(** The keys of [ocr_features] that the calculator reads. *)
Record OcrFeatures : Type := {
  ocr_real_debt_manwon : option Q;
  ocr_is_trust_owner : option Q;
  ocr_short_term_weight : option Q;
  ocr_main_use : option string;
  ocr_usage_approval_date : option string;
  ocr_is_illegal : option Q
}.

(** The empty dictionary [{}] of either kind. *)
Definition no_building_info : BuildingInfo :=
  {| bi_owner_name := None; bi_ownership_changed_date := None;
     bi_main_use := None; bi_use_apr_day := None; bi_household_cnt := None;
     bi_parking_cnt := None; bi_is_violating_building := None |}.

Definition no_ocr_features : OcrFeatures :=
  {| ocr_real_debt_manwon := None; ocr_is_trust_owner := None;
     ocr_short_term_weight := None; ocr_main_use := None;
     ocr_usage_approval_date := None; ocr_is_illegal := None |}.

Section Clock.

(** [datetime.now()] and [pd.to_datetime], in days. *)
Variable now : Q.
Variable to_datetime : string -> option Q.

Definition calculate_risk_features
    (deposit_manwon market_price_manwon public_price_won : Q)
    (building_info : option BuildingInfo)
    (ocr_features : option OcrFeatures) : gmap string Q :=
  let building_info := default no_building_info building_info in
  let ocr_features := default no_ocr_features ocr_features in
  (* 1 *)
  let jeonse_ratio :=
    if market_price_manwon >? 0 then deposit_manwon / market_price_manwon
    else 0 in
  (* 2 *)
  let hug_limit :=
    if public_price_won >? 0 then public_price_won * 1.26 / 10000
    else market_price_manwon in
  let hug_risk_ratio :=
    if hug_limit >? 0 then deposit_manwon / hug_limit else 0 in
  (* 3 *)
  let real_debt := default 0 (ocr_real_debt_manwon ocr_features) in
  let total_risk_ratio :=
    if market_price_manwon >? 0
    then (deposit_manwon + real_debt) / market_price_manwon
    else 0 in
  (* 4 *)
  let owner_name := default "" (bi_owner_name building_info) in
  let is_trust :=
    Py.or_num (default 0 (ocr_is_trust_owner ocr_features))
      (if Py.contains "신탁" owner_name then 1 else 0) in
  (* 5 *)
  let short_term_weight := default 0 (ocr_short_term_weight ocr_features) in
  let short_term_weight :=
    if Qeq_bool short_term_weight 0
       && Py.truthy_str (bi_ownership_changed_date building_info)
    then
      match to_datetime (default "" (bi_ownership_changed_date building_info)) with
      | Some own_date =>
          let days_diff := Py.days (now - own_date) in
          if (days_diff <? 90)%Z then 0.3
          else if (days_diff <? 730)%Z then 0.1
          else short_term_weight
      | None => short_term_weight
      end
    else short_term_weight in
  (* 6 *)
  let main_use :=
    Py.or_s (default "" (bi_main_use building_info))
      (default "" (ocr_main_use ocr_features)) in
  let type_weight :=
    if Py.contains "근린" main_use then 0.4
    else if Py.any_in ["다세대"; "오피스텔"; "연립"] main_use then 0.1
    else 0 in
  (* 7 *)
  let risk_score_val :=
    Py.clip (type_weight + short_term_weight
             + (if Py.truthy is_trust then 0.5 else 0)) 0 1 in
  (* 8 *)
  let use_apr_day :=
    Py.or_str (bi_use_apr_day building_info)
      (ocr_usage_approval_date ocr_features) in
  let building_age :=
    if Py.truthy_str use_apr_day then
      match to_datetime (default "" use_apr_day) with
      | Some apr_date => inject_Z (Py.days (now - apr_date)) / 365.25
      | None => 10
      end
    else 10 in
  (* 9 *)
  let household_cnt := Py.or_num (default 0 (bi_household_cnt building_info)) 1 in
  let household_cnt := if household_cnt <? 1 then 1 else household_cnt in
  let parking_per_household :=
    Py.or_num (default 0 (bi_parking_cnt building_info)) 0 / household_cnt in
  let is_micro_complex := if household_cnt <? 100 then 1 else 0 in
  let is_illegal :=
    Py.or_num (default 0 (ocr_is_illegal ocr_features))
      (if String.eqb
            (Py.strip (default "" (bi_is_violating_building building_info)))
            "Y"
       then 1 else 0) in
  (* 10 *)
  let type_dict : gmap string Q :=
    list_to_map (map (fun col => (col, 0)) USE_COLS) in
  let type_dict :=
    if Py.contains "아파트" main_use then <["type_APT" := 1]> type_dict
    else if Py.contains "오피스텔" main_use then <["type_OFFICETEL" := 1]> type_dict
    else if Py.contains "다세대" main_use || Py.contains "연립" main_use
    then <["type_VILLA" := 1]> type_dict
    else <["type_ETC" := 1]> type_dict in
  let features : gmap string Q :=
    list_to_map
      [("jeonse_ratio", jeonse_ratio);
       ("hug_risk_ratio", hug_risk_ratio);
       ("total_risk_ratio", total_risk_ratio);
       ("estimated_loan_ratio", risk_score_val);
       ("building_age", building_age);
       ("is_illegal", is_illegal);
       ("parking_per_household", parking_per_household);
       ("is_micro_complex", is_micro_complex);
       ("is_trust_owner", is_trust);
       ("short_term_weight", short_term_weight);
       ("real_debt", real_debt)] in
  (* the entries of [**type_dict] come last and win *)
  type_dict ∪ features.

End Clock.

(** The rule cascade used when the classifier is missing or fails. *)
Definition _rule_based_prediction (features : gmap string Q) : Q :=
  let prob := 0 in
  let prob :=
    if Py.get "jeonse_ratio" 0 features >=? 0.8 then Py.max prob 0.8
    else if Py.get "jeonse_ratio" 0 features >=? 0.7 then Py.max prob 0.5
    else prob in
  let prob :=
    if Py.get "total_risk_ratio" 0 features >=? 0.9 then Py.max prob 0.9
    else if Py.get "total_risk_ratio" 0 features >=? 0.8 then Py.max prob 0.7
    else prob in
  let prob :=
    if Py.truthy (Py.get "is_trust_owner" 0 features)
       && (Py.get "short_term_weight" 0 features >? 0)
    then Py.max prob 0.6
    else prob in
  prob.

(** The classifier is external.  [get_model()] is [None] when no model
    file can be loaded; a loaded model is the function from the feature
    dictionary to the positive-class probability computed by the [try]
    block of the source (reindexing, then [predict_proba]), [None] when
    that block raises. *)
Definition Model : Type := gmap string Q -> option Q.

Definition predict_with_model (get_model : option Model)
    (features : gmap string Q) : Q :=
  match get_model with
  | None => _rule_based_prediction features
  | Some model =>
      match model features with
      | Some prob => prob
      | None => _rule_based_prediction features
      end
  end.

Definition determine_risk_level (prob : Q) : string :=
  if prob <? 0.4 then "SAFE"
  else if prob <? 0.7 then "CAUTION"
  else "RISKY".

(** The text of a risk factor: a literal, or an f-string with one
    formatted number ([pre], the number, its format specification, [post]). *)
Inductive Message : Type :=
| Text (s : string)
| Fmt (pre : string) (value : Q) (spec : string) (post : string).

(** One entry of the list of risk factors; [type] is a keyword of Rocq, so
    the key ["type"] is the field [type_]. *)
Record RiskFactor : Type := {
  type_ : string;
  severity : string;
  message : Message
}.

Definition analyze_risk_factors (features : gmap string Q)
    (is_hug_safe : bool) : list RiskFactor :=
  let risk_factors : list RiskFactor := [] in
  (* 1 *)
  let risk_factors :=
    if negb is_hug_safe
    then Py.append risk_factors
           {| type_ := "HUG_INELIGIBLE"; severity := "CRITICAL";
             message := Text "HUG 전세보증금 반환보증 가입 불가" |}
    else risk_factors in
  (* 2 *)
  let jeonse_ratio := Py.get "jeonse_ratio" 0 features in
  let risk_factors :=
    if jeonse_ratio >? 0.8
    then Py.append risk_factors
           {| type_ := "HIGH_LTV"; severity := "HIGH";
             message := Fmt "전세가율이 " (jeonse_ratio * 100) ".1f"
                          "%로 매우 높음 (깡통전세 위험)" |}
    else if jeonse_ratio >? 0.7
    then Py.append risk_factors
           {| type_ := "HIGH_LTV"; severity := "MEDIUM";
             message := Fmt "전세가율이 " (jeonse_ratio * 100) ".1f"
                          "%로 다소 높음" |}
    else risk_factors in
  (* 3 *)
  let real_debt := Py.get "real_debt" 0 features in
  let risk_factors :=
    if real_debt >? 0
    then Py.append risk_factors
           {| type_ := "SENIOR_DEBT"; severity := "HIGH";
             message := Fmt "선순위 채권 " real_debt ",.0f"
                          "만원 존재 (보증금 회수 우선순위 낮음)" |}
    else risk_factors in
  (* 4 *)
  let risk_factors :=
    if Py.truthy (Py.get "is_illegal" 0 features)
    then Py.append risk_factors
           {| type_ := "ILLEGAL_BUILDING"; severity := "HIGH";
             message := Text "위반 건축물로 등재됨 (법적 제재 가능)" |}
    else risk_factors in
  (* 5 *)
  let risk_factors :=
    if Py.truthy (Py.get "is_trust_owner" 0 features)
    then Py.append risk_factors
           {| type_ := "TRUST_PROPERTY"; severity := "MEDIUM";
             message := Text "신탁 부동산으로 권리 관계가 복잡할 수 있음" |}
    else risk_factors in
  (* 6 *)
  let risk_factors :=
    if Py.get "short_term_weight" 0 features >? 0
    then
      let severity :=
        if Py.get "short_term_weight" 0 features >=? 0.3
        then "HIGH" else "MEDIUM" in
      Py.append risk_factors
        {| type_ := "SHORT_OWNERSHIP"; severity := severity;
          message := Text "건물 소유 기간이 짧음 (투기 의심)" |}
    else risk_factors in
  (* 7 *)
  let building_age := Py.get "building_age" 0 features in
  let risk_factors :=
    if building_age >? 30
    then Py.append risk_factors
           {| type_ := "OLD_BUILDING"; severity := "LOW";
             message := Fmt "건물 연식 " building_age ".0f"
                          "년으로 노후화됨" |}
    else risk_factors in
  (* no factor at all *)
  let risk_factors :=
    match risk_factors with
    | [] => Py.append risk_factors
              {| type_ := "NONE"; severity := "LOW";
                message := Text "특이한 위험 요인이 발견되지 않았습니다" |}
    | _ :: _ => risk_factors
    end in
  risk_factors.

(** [get_model()] with its surroundings made explicit: the module global
    [_rf_model] is passed in and returned; [file_exists] is
    [os.path.exists(model_path)] and [load] the outcome of
    [joblib.load(model_path)], [None] when it raises.  The result is the
    returned model and the new value of the global. *)
Definition get_model (_rf_model : option Model) (file_exists : bool)
    (load : option Model) : option Model * option Model :=
  match _rf_model with
  | Some model => (Some model, _rf_model)
  | None =>
      if negb file_exists then (None, _rf_model)
      else
        match load with
        | Some model => (Some model, Some model)
        | None => (None, _rf_model)
        end
  end.

Definition generate_recommendations (risk_level : string)
    (is_hug_safe : bool) (jeonse_ratio : Q) : list string :=
  let recommendations : list string := [] in
  let recommendations :=
    if is_hug_safe
    then Py.append recommendations "HUG 보증보험 가입을 권장합니다"
    else Py.append recommendations
           "HUG 보증보험 가입이 불가하므로 계약 재검토를 권장합니다" in
  let recommendations :=
    if existsb (String.eqb risk_level) ["CAUTION"; "RISKY"]
    then Py.append
           (Py.append recommendations
              "등기부등본 재확인 권장 (최근 3개월 이내)")
           "임대인의 재정 상태 및 다른 채무 여부 확인 필요"
    else recommendations in
  let recommendations :=
    if jeonse_ratio >? 0.75
    then Py.append recommendations
           "전세가율이 높으므로 월세 전환 또는 보증금 인하 협상 검토"
    else recommendations in
  Py.append recommendations
    "계약 전 법무사 자문을 통한 권리 관계 검토 권장".

End RiskCalculator.

(** ** app/services/feature_service.py *)

Module FeatureService.

Section Clock.

Variable now : Q.
Variable to_datetime : string -> option Q.

(** The [try] block that computes [building_age].  [building_age] is 0
    before the block; the block leaves it untouched when the date is
    false, and its handler sets it to 10. *)
Definition building_age_of (usage_approval_date : option string) : Q :=
  let building_age := 0 in
  if Py.truthy_str usage_approval_date then
    let raw_date := Py.strip (Py.str usage_approval_date) in
    let clean_date :=
      Py.strip_chars ["-"] (Py.replace "/" "-" (Py.replace "." "-" raw_date)) in
    match to_datetime clean_date with
    | Some dt => inject_Z (Py.days (now - dt)) / 365.25
    | None => 10
    end
  else building_age.

(** [None] is the [ZeroDivisionError] of one of the two unguarded
    divisions by [market_price]. *)
Definition calculate_risk_features
    (deposit_amount market_price real_debt : Q)
    (main_use : option string)
    (usage_approval_date : option string)
    (is_illegal is_trust_owner short_term_weight : Q)
    (parking_count household_count : Q) : option (gmap string Q) :=
  (* 1 *)
  let market_price :=
    if market_price <=? 0 then deposit_amount * 1.25 else market_price in
  (* 2 *)
  jeonse_ratio ← Py.div deposit_amount market_price;
  total_risk_ratio ← Py.div (deposit_amount + real_debt) market_price;
  let est_public_price := market_price * 0.7 in
  let hug_limit := est_public_price * 1.26 in
  let hug_risk_ratio :=
    if hug_limit >? 0 then deposit_amount / hug_limit else 0 in
  (* 3 *)
  let type_w := 0 in
  let main_use_str := Py.str main_use in
  let type_w :=
    if Py.contains "근린" main_use_str then 0.4
    else if Py.any_in ["다세대"; "연립"; "오피스텔"; "빌라"] main_use_str then 0.1
    else type_w in
  let risk_score_val :=
    Py.clip (type_w + short_term_weight
             + (if Py.truthy is_trust_owner then 0.5 else 0)) 0 1 in
  (* 4 *)
  let building_age := building_age_of usage_approval_date in
  (* 5 *)
  let type_dict : gmap string Q :=
    list_to_map [("type_APT", 0); ("type_OFFICETEL", 0);
                 ("type_VILLA", 0); ("type_ETC", 0)] in
  let type_dict :=
    if Py.contains "아파트" main_use_str then <["type_APT" := 1]> type_dict
    else if Py.contains "오피스텔" main_use_str
    then <["type_OFFICETEL" := 1]> type_dict
    else if Py.any_in ["다세대"; "연립"; "빌라"] main_use_str
    then <["type_VILLA" := 1]> type_dict
    else <["type_ETC" := 1]> type_dict in
  let parking_per_household :=
    if household_count >? 0 then parking_count / household_count else 0 in
  let is_micro_complex := if household_count <? 100 then 1 else 0 in
  (* 6 *)
  let features : gmap string Q :=
    list_to_map
      [("jeonse_ratio", jeonse_ratio);
       ("hug_risk_ratio", hug_risk_ratio);
       ("total_risk_ratio", total_risk_ratio);
       ("estimated_loan_ratio", risk_score_val);
       ("building_age", building_age);
       ("is_illegal", is_illegal);
       ("parking_per_household", parking_per_household);
       ("is_micro_complex", is_micro_complex);
       ("is_trust_owner", is_trust_owner);
       ("short_term_weight", short_term_weight)] in
  (* [features.update(type_dict)] *)
  Some (type_dict ∪ features).

End Clock.

(** The column order the classifier was trained with. *)
Definition TRAIN_FEATURES : list string :=
  ["jeonse_ratio"; "hug_risk_ratio"; "total_risk_ratio";
   "estimated_loan_ratio"; "building_age"; "is_illegal";
   "parking_per_household"; "is_micro_complex"; "is_trust_owner";
   "short_term_weight";
   "type_APT"; "type_OFFICETEL"; "type_VILLA"; "type_ETC"].

(** The one-row data frame is the list of its columns, each with the value
    of the row: a column missing from [features] is added with 0, then the
    columns of [TRAIN_FEATURES] are selected in that order. *)
Definition convert_to_model_input (features : gmap string Q)
    : list (string * Q) :=
  map (fun col => (col, Py.get col 0 features)) TRAIN_FEATURES.

End FeatureService.

(** ** app/services/address_service.py *)

Module AddressService.

(** The dictionary returned by [parse_pnu]. *)
Record ParsedPnu : Type := {
  sigungu_code : string;
  bjdong_code : string;
  land_type : string;
  bonbun : string;
  bubun : string;
  full_pnu : string
}.

Definition parse_pnu (pnu : string) : option ParsedPnu :=
  if negb (Py.truthy_s pnu) then None
  else
    let parts := Py.split_char "-" pnu in
    if (length parts <? 3)%nat then None
    else
      let sgg_bjd := Py.item 0 parts in
      let land_type := Py.item 1 parts in
      let bunji := Py.item 2 parts in
      Some {| sigungu_code := Py.slice_to 5 sgg_bjd;
              bjdong_code := Py.slice 5 10 sgg_bjd;
              land_type := land_type;
              bonbun := Py.slice_to 4 bunji;
              bubun := if (8 <=? Py.len bunji)%nat
                       then Py.slice 4 8 bunji else "0000";
              full_pnu := pnu |}.

Definition pnu_to_raw_format (pnu : string) : string :=
  let parts := Py.split_char "-" pnu in
  if (3 <=? length parts)%nat
  then String.app (Py.item 0 parts) (String.app "0" (Py.item 2 parts))
  else Py.remove_char "-" pnu.

Definition create_address_key (pnu : string) : string :=
  if negb (Py.truthy_s pnu) || negb (Py.contains "-" pnu) then "UNKNOWN"
  else
    let parts := Py.split_char "-" pnu in
    if (length parts <? 3)%nat then "UNKNOWN"
    else
      let sgg_bjd := Py.item 0 parts in
      let bon_bu := Py.item 2 parts in
      Py.join "-"
        [Py.slice_to 5 sgg_bjd; Py.slice_from 5 sgg_bjd;
         Py.slice_to 4 bon_bu; Py.slice_from 4 bon_bu].

End AddressService.

(** ** app/services/price_service.py *)

Module PriceService.

(** [public_price] is in won, [deposit_manwon] and the returned limit in
    units of 10000 won. *)
Definition calculate_hug_eligibility (public_price deposit_manwon : Q)
    : bool * Q * string :=
  if public_price <=? 0 then (false, 0, "공시가 없음 (판단 불가)")
  else
    let hug_limit_won := public_price * 1.26 in
    let hug_limit_manwon := hug_limit_won / 10000 in
    if deposit_manwon <=? hug_limit_manwon
    then (true, hug_limit_manwon, "가입 가능 (안전 ✅)")
    else (false, hug_limit_manwon, "가입 불가 (위험 ❌)").

(** A lookup that reaches the database either returns or raises
    [DatabaseConnectionError]; every other exception is caught inside the
    lookup. *)
Inductive Raises (A : Type) : Type :=
| Return (a : A)
| DatabaseConnectionError.
Arguments Return {A} a.
Arguments DatabaseConnectionError {A}.

(** How the call of [fetch_real_price_from_api] ends. *)
Inductive FetchOutcome : Type :=
| Fetched (success : bool)
| FetchConnectionError
| FetchOtherError.

Section Database.

(** The database and the collection API are external.  [DB] is the state
    they are in; the lookups read it and the collection changes it. *)
Variable DB : Type.
Variable get_trade_price : DB -> string -> option Q -> Raises (Q * string).
Variable get_public_price : DB -> string -> option Q -> Raises Q.
Variable is_db_available : DB -> bool.
Variable fetch_real_price_from_api : DB -> string -> string -> DB * FetchOutcome.

Definition estimate_market_price (db : DB) (pnu : string)
    (area_size : option Q) (fetch_if_missing : bool)
    : DB * Raises (Q * string) :=
  let parsed := AddressService.parse_pnu pnu in
  (* 1 *)
  match get_trade_price db pnu area_size with
  | DatabaseConnectionError => (db, DatabaseConnectionError)
  | Return (trade_price, source) =>
      if trade_price >? 0 then (db, Return (trade_price, source))
      else
        (* 3 *)
        let from_public_price (db : DB) : DB * Raises (Q * string) :=
          match get_public_price db pnu area_size with
          | DatabaseConnectionError => (db, DatabaseConnectionError)
          | Return public_price =>
              if public_price >? 0
              then (db, Return (public_price / 10000 * 1.26,
                                "Public_Price_Estimate"))
              else (db, Return (0, "Unknown"))
          end in
        (* 2 *)
        match parsed with
        | Some parsed =>
            if fetch_if_missing && is_db_available db then
              match fetch_real_price_from_api db
                      (AddressService.sigungu_code parsed)
                      (AddressService.bjdong_code parsed) with
              | (db, FetchConnectionError) => (db, DatabaseConnectionError)
              | (db, FetchOtherError) => from_public_price db
              | (db, Fetched _) =>
                  match get_trade_price db pnu area_size with
                  | DatabaseConnectionError => (db, DatabaseConnectionError)
                  | Return (trade_price, source) =>
                      if trade_price >? 0
                      then (db, Return (trade_price, source))
                      else from_public_price db
                  end
              end
            else from_public_price db
        | None => from_public_price db
        end
  end.

End Database.

End PriceService.


(** ** app/services/ocr_parser_service.py *)

Module OcrParserService.

(** The OCR result, with the keys that the parser reads.  A field is
    [None] when the key is missing.  [Ledger] gathers the keys read from
    [building_status] ([main_usage], [usage_approval_date], [area]),
    [document_info] ([unique_number]) and [safety_check] ([is_violator],
    as its truth value); [Registry] those read from [basic_info] ([owner],
    [ownership_date]), [risk_factors] ([trust_content]) and [debts]. *)
Record Debt : Type := {
  status : option string;
  amount : option string
}.

Record Ledger : Type := {
  main_usage : option string;
  ledger_usage_approval_date : option string;
  area : option string;
  ledger_unique_number : option string;
  is_violator : bool
}.

Record Registry : Type := {
  owner : option string;
  ownership_date : option string;
  trust_content : option string;
  debts : list Debt
}.

Record OcrData : Type := {
  ledger : option Ledger;
  registry : option Registry
}.

Definition no_ledger : Ledger :=
  {| main_usage := None; ledger_usage_approval_date := None; area := None;
     ledger_unique_number := None; is_violator := false |}.

Definition no_registry : Registry :=
  {| owner := None; ownership_date := None; trust_content := None;
     debts := [] |}.

(** The dictionary returned by [extract_ocr_features]. *)
Record Features : Type := {
  unique_number : string;
  main_use : string;
  area_size : option Q;
  usage_approval_date : string;
  is_illegal : Q;
  is_trust_owner : Q;
  short_term_weight : Q;
  real_debt_manwon : Q;
  ownership_duration_months : option Z
}.

Section Runtime.

(** The Python runtime: [datetime.now()] in days, [re.findall(pattern, s)],
    [float(s)] and [datetime.strptime(s, format)] ([None] when they raise
    [ValueError]; an instant is counted in days), and [s.lower()]. *)
Variable now : Q.
Variable re_findall : string -> string -> list string.
Variable float_of : string -> option Q.
Variable strptime : string -> string -> option Q.
Variable lower : string -> string.

Definition _parse_date_string (date_str : string) : option Q :=
  if negb (Py.truthy_s date_str) then None
  else
    let date_str_clean :=
      Py.remove_char " " (Py.remove_char "." (Py.remove_char "-" date_str)) in
    let dates := re_findall "\d{8}" date_str_clean in
    match dates with
    | first :: _ => strptime first "%Y%m%d"
    | [] => None
    end.

Definition _calculate_total_debt (debts : list Debt) : Q :=
  fold_left
    (fun total item =>
       let status := lower (default "" (status item)) in
       if existsb (String.eqb status) ["cancelled"; "deleted"; "말소"]
       then total
       else
         let raw_amount := default "0" (amount item) in
         let nums := re_findall "\d+" (Py.remove_char "," raw_amount) in
         match nums with
         | [] => total
         | _ :: _ =>
             match float_of (Py.join "" nums) with
             | Some value => total + value
             | None => total
             end
         end)
    debts 0.

Definition _parse_building_ledger (ledger : Ledger)
    : string * string * option Q * string * Q :=
  let unique_number := default "" (ledger_unique_number ledger) in
  let main_use := default "" (main_usage ledger) in
  let usage_approval_date := default "" (ledger_usage_approval_date ledger) in
  let area_size :=
    if Py.truthy_str (area ledger) then
      match re_findall "[\d.]+" (default "" (area ledger)) with
      | first :: _ => float_of first
      | [] => None
      end
    else None in
  let is_illegal := if is_violator ledger then 1 else 0 in
  (unique_number, main_use, area_size, usage_approval_date, is_illegal).

Definition _parse_registry (registry : Registry) : Q * Q * Q * option Z :=
  (* 1 *)
  let owner_name := default "" (owner registry) in
  let trust_content := default "" (trust_content registry) in
  let is_trust_owner :=
    if Py.contains "신탁" owner_name || Py.contains "신탁" trust_content
    then 1 else 0 in
  (* 2 *)
  let ownership_date_str := default "" (ownership_date registry) in
  let '(short_term_weight, ownership_duration_months) :=
    if Py.truthy_s ownership_date_str then
      match _parse_date_string ownership_date_str with
      | Some parsed_date =>
          let days_diff := Py.days (now - parsed_date) in
          (if (days_diff <? 90)%Z then 0.3
           else if (days_diff <? 730)%Z then 0.1
           else 0,
           Some (days_diff / 30)%Z)
      | None => (0, None)
      end
    else (0, None) in
  (* 3 *)
  let real_debt_won := _calculate_total_debt (debts registry) in
  let real_debt_manwon := real_debt_won / 10000 in
  (is_trust_owner, short_term_weight, real_debt_manwon,
   ownership_duration_months).

Definition extract_ocr_features (ocr_data : OcrData) : Features :=
  let ledger := default no_ledger (ledger ocr_data) in
  let registry := default no_registry (registry ocr_data) in
  let '(unique_number, main_use, area_size, usage_approval_date, is_illegal) :=
    _parse_building_ledger ledger in
  let '(is_trust_owner, short_term_weight, real_debt_manwon,
        ownership_duration_months) := _parse_registry registry in
  {| unique_number := unique_number;
     main_use := main_use;
     area_size := area_size;
     usage_approval_date := usage_approval_date;
     is_illegal := is_illegal;
     is_trust_owner := is_trust_owner;
     short_term_weight := short_term_weight;
     real_debt_manwon := real_debt_manwon;
     ownership_duration_months := ownership_duration_months |}.

End Runtime.

(** The extracted dictionary as the risk calculator reads it: every key
    that it looks up is present. *)
Definition as_ocr_features (f : Features) : RiskCalculator.OcrFeatures :=
  {| RiskCalculator.ocr_real_debt_manwon := Some (real_debt_manwon f);
     RiskCalculator.ocr_is_trust_owner := Some (is_trust_owner f);
     RiskCalculator.ocr_short_term_weight := Some (short_term_weight f);
     RiskCalculator.ocr_main_use := Some (main_use f);
     RiskCalculator.ocr_usage_approval_date := Some (usage_approval_date f);
     RiskCalculator.ocr_is_illegal := Some (is_illegal f) |}.

End OcrParserService.

(** ** app/services/result_service.py *)

Module ResultService.

(** A row of the table [risk_analysis_result]. *)
Record Row : Type := {
  building_info_id : Z;
  address_key : string;
  used_rent_price : Q;
  used_market_price : Q;
  jeonse_ratio : Q;
  hug_safe_limit : Q;
  hug_risk_ratio : Q;
  total_risk_ratio : Q;
  estimated_loan_amount : Q;
  risk_level : string;
  risk_score : Z;
  ai_risk_prob : Q;
  analyzed_at : Q
}.

Section Table.

(** The table is the list of its rows.  [sql_eq] is the equality of the
    database on keys, [sql_now] its [NOW()], and [db_fails] tells whether
    the transaction raises, in which case it is rolled back. *)
Variable sql_eq : string -> string -> bool.
Variable sql_now : Q.

Definition save_prediction_result (table : list Row) (db_fails : bool)
    (pnu : string) (building_info_id : Z)
    (deposit_manwon market_price_manwon : Q) (features : gmap string Q)
    (risk_level : string) (risk_score ai_prob : Q) : list Row * bool :=
  let address_key :=
    if Py.truthy_s pnu then AddressService.create_address_key pnu
    else "UNKNOWN" in
  let jeonse_ratio := Py.get "jeonse_ratio" 0 features in
  let hug_risk_ratio := Py.get "hug_risk_ratio" 0 features in
  let total_risk_ratio := Py.get "total_risk_ratio" 0 features in
  let hug_safe_limit :=
    if hug_risk_ratio >? 0 then deposit_manwon / hug_risk_ratio else 0 in
  let params :=
    {| building_info_id := building_info_id;
       address_key := address_key;
       used_rent_price := deposit_manwon;
       used_market_price := market_price_manwon;
       jeonse_ratio := jeonse_ratio;
       hug_safe_limit := hug_safe_limit;
       hug_risk_ratio := hug_risk_ratio;
       total_risk_ratio := total_risk_ratio;
       estimated_loan_amount := 0;
       risk_level := risk_level;
       risk_score := Py.int risk_score;
       ai_risk_prob := ai_prob;
       analyzed_at := sql_now |} in
  if db_fails then (table, false)
  else
    (* DELETE ... WHERE address_key = :address_key, then INSERT *)
    (Py.append
       (filter (fun row => negb (sql_eq (ResultService.address_key row)
                                   address_key)) table)
       params,
     true).

End Table.

End ResultService.

(** ** app/services/predict_service.py *)

Module PredictService.

Import PriceService.

(** The [hug_result] entry of the response; [reason] is present for an
    ineligible deposit only. *)
Record HugResult : Type := {
  is_eligible : bool;
  safe_limit : Z;
  coverage_ratio : Q;
  hug_message : string;
  reason : option RiskCalculator.Message
}.

Record Details : Type := {
  details_jeonse_ratio : Q;
  senior_debt : Z;
  is_illegal_building : bool;
  is_trust : bool;
  building_age : Q;
  ownership_duration_months : option Z
}.

Record Data : Type := {
  address : string;
  deposit : Z;
  market_price : Z;
  price_source : string;
  risk_score : Q;
  risk_level : string;
  major_risk_factors : list RiskCalculator.RiskFactor;
  hug_result : HugResult;
  details : Details;
  recommendations : list string
}.

Record DebugInfo : Type := {
  debug_pnu : string;
  features_used : gmap string Q
}.

(** The two shapes of the returned dictionary: the analysis (code 200) and
    the one built by [_error_response]. *)
Inductive Response : Type :=
| Analysis (timestamp : string) (data : Data) (debug : DebugInfo)
| ErrorResponse (code : Z) (message : string) (timestamp : string)
    (detail : string).

Section Service.

(** The surroundings: the Python runtime of the OCR parser, the parser of
    [pandas], the database, the classifier that [get_model()] returns, the
    builtin [round(x, ndigits)] and [datetime.isoformat]. *)
Variable now : Q.
Variable re_findall : string -> string -> list string.
Variable float_of : string -> option Q.
Variable strptime : string -> string -> option Q.
Variable lower : string -> string.
Variable to_datetime : string -> option Q.
Variable DB : Type.
Variable get_trade_price : DB -> string -> option Q -> Raises (Q * string).
Variable get_public_price : DB -> string -> option Q -> Raises Q.
Variable is_db_available : DB -> bool.
Variable fetch_real_price_from_api : DB -> string -> string -> DB * FetchOutcome.
Variable get_model : option RiskCalculator.Model.
Variable round : Q -> Z -> Q.
Variable isoformat : Q -> string.

Definition _error_response (code : Z) (message detail : string) : Response :=
  ErrorResponse code message (isoformat now) detail.

(** With an OCR result of the shape of [OcrData], the body raises nothing
    but [DatabaseConnectionError], which is passed on. *)
Definition predict_risk_with_ocr (db : DB) (address : string)
    (deposit_manwon : Q) (ocr_data : OcrParserService.OcrData)
    : DB * Raises Response :=
  (* 1 *)
  let ocr_features :=
    OcrParserService.extract_ocr_features now re_findall float_of strptime
      lower ocr_data in
  let pnu := OcrParserService.unique_number ocr_features in
  let area_size := OcrParserService.area_size ocr_features in
  (* 2 *)
  match estimate_market_price DB get_trade_price get_public_price
          is_db_available fetch_real_price_from_api db pnu area_size true with
  | (db, DatabaseConnectionError) => (db, DatabaseConnectionError)
  | (db, Return (market_price, price_source)) =>
      (* 3 *)
      match get_public_price db pnu area_size with
      | DatabaseConnectionError => (db, DatabaseConnectionError)
      | Return public_price =>
          let '(is_hug_safe, hug_limit, hug_msg) :=
            calculate_hug_eligibility public_price deposit_manwon in
          let '(market_price, price_source) :=
            if (market_price <=? 0) && (hug_limit >? 0)
            then (hug_limit, "Public_Price_Estimate")
            else (market_price, price_source) in
          if market_price <=? 0 then
            (db, Return (_error_response 422 "시세 데이터 없음"
                           "공시지가 또는 실거래가 데이터를 찾을 수 없어 분석할 수 없습니다"))
          else
            (* 4 *)
            let features :=
              RiskCalculator.calculate_risk_features now to_datetime
                deposit_manwon market_price public_price None
                (Some (OcrParserService.as_ocr_features ocr_features)) in
            let features :=
              if public_price >? 0
              then <["hug_risk_ratio" :=
                       deposit_manwon * 10000 / (public_price * 1.26)]> features
              else features in
            (* 5 *)
            let prob := RiskCalculator.predict_with_model get_model features in
            let risk_level := RiskCalculator.determine_risk_level prob in
            (* 6 *)
            let risk_factors :=
              RiskCalculator.analyze_risk_factors features is_hug_safe in
            (* 7 *)
            let recommendations :=
              RiskCalculator.generate_recommendations risk_level is_hug_safe
                (Py.get "jeonse_ratio" 0 features) in
            (* 8 *)
            let actual_coverage := Py.min hug_limit deposit_manwon in
            let reason :=
              if negb is_hug_safe then
                let jeonse_ratio := Py.get "jeonse_ratio" 0 features in
                if jeonse_ratio >? 0.8
                then Some (RiskCalculator.Fmt "전세가율 " (jeonse_ratio * 100)
                             ".1f" "% 초과 (기준: 80%)")
                else Some (RiskCalculator.Text "기타 심사 기준 미달")
              else None in
            let hug_result :=
              {| is_eligible := is_hug_safe;
                 safe_limit := Py.int (hug_limit * 10000);
                 coverage_ratio :=
                   if deposit_manwon >? 0
                   then round (actual_coverage / deposit_manwon * 100) 1
                   else 0;
                 hug_message := hug_msg;
                 reason := reason |} in
            (* 9 *)
            (db,
             Return
               (Analysis (isoformat now)
                  {| address := address;
                     deposit := Py.int (deposit_manwon * 10000);
                     market_price := Py.int (market_price * 10000);
                     price_source := price_source;
                     risk_score := round (prob * 100) 1;
                     risk_level := risk_level;
                     major_risk_factors := risk_factors;
                     hug_result := hug_result;
                     details :=
                       {| details_jeonse_ratio :=
                            round (Py.get "jeonse_ratio" 0 features * 100) 1;
                          senior_debt :=
                            Py.int (OcrParserService.real_debt_manwon
                                      ocr_features * 10000);
                          is_illegal_building :=
                            Py.truthy (OcrParserService.is_illegal ocr_features);
                          is_trust :=
                            Py.truthy
                              (OcrParserService.is_trust_owner ocr_features);
                          building_age :=
                            round (Py.get "building_age" 0 features) 1;
                          ownership_duration_months :=
                            OcrParserService.ownership_duration_months
                              ocr_features |};
                     recommendations := recommendations |}
                  {| debug_pnu := pnu;
                     features_used :=
                       delete "parking_per_household"
                         (delete "estimated_loan_ratio" features) |}))
      end
  end.

End Service.

End PredictService.

(** ** Definitions used to state and prove the properties *)

(** The four type columns, all zero. *)
Definition zeros : gmap string Q :=
  list_to_map (map (fun col => (col, 0)) RiskCalculator.USE_COLS).

(** The shape of [type_dict] in both calculators, by the outcome of the
    three keyword tests. *)
Definition one_hot (b1 b2 b3 : bool) : gmap string Q :=
  if b1 then <["type_APT" := 1]> zeros
  else if b2 then <["type_OFFICETEL" := 1]> zeros
  else if b3 then <["type_VILLA" := 1]> zeros
  else <["type_ETC" := 1]> zeros.

(** The four type columns of the dictionary [f] hold the given values. *)
Definition type_columns (f : gmap string Q) (apt officetel villa etc : Q) : Prop :=
  f !! "type_APT" = Some apt /\ f !! "type_OFFICETEL" = Some officetel /\
  f !! "type_VILLA" = Some villa /\ f !! "type_ETC" = Some etc.

(** Exactly one of the four type columns is 1 and the other three are 0. *)
Definition exactly_one_type (f : gmap string Q) : Prop :=
  type_columns f 1 0 0 0 \/ type_columns f 0 1 0 0 \/
  type_columns f 0 0 1 0 \/ type_columns f 0 0 0 1.

(** [main_use] as the risk calculator reads it from its two dictionaries. *)
Definition rc_main_use (building_info : option RiskCalculator.BuildingInfo)
    (ocr_features : option RiskCalculator.OcrFeatures) : string :=
  Py.or_s
    (default "" (RiskCalculator.bi_main_use
                   (default RiskCalculator.no_building_info building_info)))
    (default "" (RiskCalculator.ocr_main_use
                   (default RiskCalculator.no_ocr_features ocr_features))).

(** The senior debt that the risk calculator reads from [ocr_features]. *)
Definition rc_real_debt (ocr_features : option RiskCalculator.OcrFeatures) : Q :=
  default 0 (RiskCalculator.ocr_real_debt_manwon
               (default RiskCalculator.no_ocr_features ocr_features)).

(** The market price that the feature service divides by. *)
Definition fs_market_price (deposit_amount market_price : Q) : Q :=
  if market_price <=? 0 then deposit_amount * 1.25 else market_price.

(** The fallback probability in the words of the specification: every
    triggered rule proposes a floor, and the probability is the greatest
    proposed floor, 0 when none is proposed. *)
Definition spec_floors (features : gmap string Q) : list Q :=
  let jeonse_ratio := Py.get "jeonse_ratio" 0 features in
  let total_risk_ratio := Py.get "total_risk_ratio" 0 features in
  let trust := Py.truthy (Py.get "is_trust_owner" 0 features) in
  let short_term_weight := Py.get "short_term_weight" 0 features in
  List.app
    (if jeonse_ratio >=? 0.8 then [0.8]
     else if jeonse_ratio >=? 0.7 then [0.5] else [])
    (List.app
       (if total_risk_ratio >=? 0.9 then [0.9]
        else if total_risk_ratio >=? 0.8 then [0.7] else [])
       (if trust && (short_term_weight >? 0) then [0.6] else [])).

Fixpoint greatest (l : list Q) : Q :=
  match l with
  | [] => 0
  | x :: l' => if greatest l' <? x then x else greatest l'
  end.

Definition spec_fallback_probability (features : gmap string Q) : Q :=
  greatest (spec_floors features).

(** The order SAFE < CAUTION < RISKY of the risk levels. *)
Definition level_rank (level : string) : nat :=
  if String.eqb level "SAFE" then 0
  else if String.eqb level "CAUTION" then 1 else 2.

(** A parser that rejects every string, and a building whose only known
    attribute is its main use: inputs for the concrete instances. *)
Definition no_parse (s : string) : option Q := None.

Definition building_of_use (main_use : string) : RiskCalculator.BuildingInfo :=
  {| RiskCalculator.bi_owner_name := None;
     RiskCalculator.bi_ownership_changed_date := None;
     RiskCalculator.bi_main_use := Some main_use;
     RiskCalculator.bi_use_apr_day := None;
     RiskCalculator.bi_household_cnt := None;
     RiskCalculator.bi_parking_cnt := None;
     RiskCalculator.bi_is_violating_building := None |}.

(** The pair of a risk factor's type and severity. *)
Definition factor_label (x : RiskCalculator.RiskFactor) : string * string :=
  (RiskCalculator.type_ x, RiskCalculator.severity x).

(** The order in which the analyzer reports the types of factors. *)
Definition factor_order : list string :=
  ["HUG_INELIGIBLE"; "HIGH_LTV"; "SENIOR_DEBT"; "ILLEGAL_BUILDING";
   "TRUST_PROPERTY"; "SHORT_OWNERSHIP"; "OLD_BUILDING"; "NONE"].

(** The labels of the reported factors in closed form: one optional label
    per test, in the order of the tests, and the lone NONE label when no
    test succeeds. *)
Definition labels_of (features : gmap string Q) (is_hug_safe : bool)
    : list (string * string) :=
  let one (c : bool) (l : string * string) := if c then [l] else [] in
  let short := Py.get "short_term_weight" 0 features in
  let triggered :=
    List.app (List.app (List.app (List.app (List.app (List.app
      (one (negb is_hug_safe) ("HUG_INELIGIBLE", "CRITICAL"))
      (if Py.get "jeonse_ratio" 0 features >? 0.8 then [("HIGH_LTV", "HIGH")]
       else one (Py.get "jeonse_ratio" 0 features >? 0.7)
              ("HIGH_LTV", "MEDIUM")))
      (one (Py.get "real_debt" 0 features >? 0) ("SENIOR_DEBT", "HIGH")))
      (one (Py.truthy (Py.get "is_illegal" 0 features))
         ("ILLEGAL_BUILDING", "HIGH")))
      (one (Py.truthy (Py.get "is_trust_owner" 0 features))
         ("TRUST_PROPERTY", "MEDIUM")))
      (one (short >? 0)
         ("SHORT_OWNERSHIP", if short >=? 0.3 then "HIGH" else "MEDIUM")))
      (one (Py.get "building_age" 0 features >? 30) ("OLD_BUILDING", "LOW")) in
  match triggered with
  | [] => [("NONE", "LOW")]
  | _ :: _ => triggered
  end.

(** The household count that the risk calculator divides by, and the
    short-term weight and the ownership date it reads. *)
Definition rc_household_cnt (bi : option RiskCalculator.BuildingInfo) : Q :=
  let household_cnt :=
    Py.or_num
      (default 0 (RiskCalculator.bi_household_cnt
                    (default RiskCalculator.no_building_info bi))) 1 in
  if household_cnt <? 1 then 1 else household_cnt.

Definition rc_parking_cnt (bi : option RiskCalculator.BuildingInfo) : Q :=
  Py.or_num
    (default 0 (RiskCalculator.bi_parking_cnt
                  (default RiskCalculator.no_building_info bi))) 0.

Definition rc_ocr_weight (ocr : option RiskCalculator.OcrFeatures) : Q :=
  default 0 (RiskCalculator.ocr_short_term_weight
               (default RiskCalculator.no_ocr_features ocr)).

Definition rc_ownership_date (bi : option RiskCalculator.BuildingInfo)
    : option string :=
  RiskCalculator.bi_ownership_changed_date
    (default RiskCalculator.no_building_info bi).

(** A parser that reads every string as the instant [d], and a building
    whose only known attribute is the date its owner changed. *)
Definition parse_as (d : Q) (s : string) : option Q := Some d.

Definition building_of_ownership (date : string) : RiskCalculator.BuildingInfo :=
  {| RiskCalculator.bi_owner_name := None;
     RiskCalculator.bi_ownership_changed_date := Some date;
     RiskCalculator.bi_main_use := None;
     RiskCalculator.bi_use_apr_day := None;
     RiskCalculator.bi_household_cnt := None;
     RiskCalculator.bi_parking_cnt := None;
     RiskCalculator.bi_is_violating_building := None |}.


(** The feature dictionary that the OCR-based analysis works with: the one
    of the risk calculator, with the entry [hug_risk_ratio] assigned again
    when the public price is positive. *)
Definition analysis_features (now : Q) (to_datetime : string -> option Q)
    (ocr_features : OcrParserService.Features)
    (deposit_manwon market_price public_price : Q) : gmap string Q :=
  let features :=
    RiskCalculator.calculate_risk_features now to_datetime
      deposit_manwon market_price public_price None
      (Some (OcrParserService.as_ocr_features ocr_features)) in
  if public_price >? 0
  then <["hug_risk_ratio" :=
           deposit_manwon * 10000 / (public_price * 1.26)]> features
  else features.

(** The number of occurrences of a character. *)
Fixpoint count_char (a : ascii) (s : string) : nat :=
  match s with
  | EmptyString => O
  | String c rest =>
      if Ascii.eqb c a then S (count_char a rest) else count_char a rest
  end.

(** Inputs for the concrete instances.  The runtime: a matcher that finds
    the whole of a non-empty string, a [float] and a [strptime] that know
    one string each, and a [lower] that leaves its argument as it is. *)
Definition sample_findall (pattern s : string) : list string :=
  if Py.truthy_s s then [s] else [].

Definition sample_float (s : string) : option Q :=
  if String.eqb s "150000000" then Some 150000000 else None.

Definition sample_strptime (s format : string) : option Q :=
  if String.eqb s "20260801" then Some 950 else None.

Definition sample_lower (s : string) : string := s.

(** The database: its state tells whether the transactions were collected;
    there is no transaction before, and one of 30000 after. *)
Definition sample_trade (collected : bool) (pnu : string) (area : option Q)
    : PriceService.Raises (Q * string) :=
  PriceService.Return
    (if collected then (30000, "DB_Trade") else (0, "Unknown")).

Definition sample_public (collected : bool) (pnu : string) (area : option Q)
    : PriceService.Raises Q :=
  PriceService.Return 200000000.

Definition sample_available (collected : bool) : bool := true.

Definition sample_fetch (collected : bool) (sigungu bjdong : string)
    : bool * PriceService.FetchOutcome :=
  (true, PriceService.Fetched true).

Definition sample_round (x : Q) (ndigits : Z) : Q := x.

Definition sample_isoformat (t : Q) : string := "2026-11-03T00:00:00".

(** An OCR result: a multi-household house listed as violating, bought 50
    days before the instant 1000, with a trust entry and one active debt. *)
Definition sample_ocr : OcrParserService.OcrData :=
  {| OcrParserService.ledger :=
       Some {| OcrParserService.main_usage := Some "다세대주택";
               OcrParserService.ledger_usage_approval_date := None;
               OcrParserService.area := None;
               OcrParserService.ledger_unique_number :=
                 Some "1111010100-3-00010002";
               OcrParserService.is_violator := true |};
     OcrParserService.registry :=
       Some {| OcrParserService.owner := Some "홍길동";
               OcrParserService.ownership_date := Some "20260801";
               OcrParserService.trust_content := Some "신탁";
               OcrParserService.debts :=
                 [{| OcrParserService.status := Some "active";
                     OcrParserService.amount := Some "150000000" |};
                  {| OcrParserService.status := Some "말소";
                     OcrParserService.amount := Some "150000000" |}] |} |}.

(** The OCR-based analysis in these surroundings, without a classifier. *)
Definition sample_service (collected : bool) (address : string)
    (deposit_manwon : Q) (ocr_data : OcrParserService.OcrData)
    : bool * PriceService.Raises PredictService.Response :=
  PredictService.predict_risk_with_ocr 1000 sample_findall sample_float
    sample_strptime sample_lower no_parse bool sample_trade sample_public
    sample_available sample_fetch None sample_round sample_isoformat
    collected address deposit_manwon ocr_data.

(** Two records of debt, one active and one cancelled. *)
Definition sample_active_debt : OcrParserService.Debt :=
  {| OcrParserService.status := Some "active";
     OcrParserService.amount := Some "150000000" |}.

Definition sample_cancelled_debt : OcrParserService.Debt :=
  {| OcrParserService.status := Some "말소";
     OcrParserService.amount := Some "150000000" |}.

(** ** Facts about the primitives *)

Lemma ltb_lt (a b : Q) : (a <? b) = true <-> a < b.
Proof. unfold Py.ltb, Qlt. apply Z.ltb_lt. Qed.

Lemma ltb_ge (a b : Q) : (a <? b) = false <-> b <= a.
Proof. unfold Py.ltb, Qle. apply Z.ltb_ge. Qed.

Lemma leb_le (a b : Q) : (a <=? b) = true <-> a <= b.
Proof. apply Qle_bool_iff. Qed.

Lemma leb_gt (a b : Q) : (a <=? b) = false <-> b < a.
Proof.
  unfold Py.leb. split; intros H.
  - apply Qnot_le_lt. intros Hle. apply Qle_bool_iff in Hle. congruence.
  - destruct (Qle_bool a b) eqn:E; [|reflexivity].
    apply Qle_bool_iff in E. exfalso. exact (Qlt_not_le _ _ H E).
Qed.

Lemma gtb_lt (a b : Q) : (a >? b) = true <-> b < a.
Proof. apply ltb_lt. Qed.

Lemma gtb_le (a b : Q) : (a >? b) = false <-> a <= b.
Proof. apply ltb_ge. Qed.

Lemma geb_le (a b : Q) : (a >=? b) = true <-> b <= a.
Proof. apply leb_le. Qed.

Lemma truthy_false (a : Q) : Py.truthy a = false <-> a == 0.
Proof.
  unfold Py.truthy. rewrite negb_false_iff. apply Qeq_bool_iff.
Qed.

Lemma truthy_true (a : Q) : Py.truthy a = true <-> ~ a == 0.
Proof.
  unfold Py.truthy. rewrite negb_true_iff. split.
  - intros H E. apply Qeq_bool_iff in E. congruence.
  - intros H. destruct (Qeq_bool a 0) eqn:E; [|reflexivity].
    apply Qeq_bool_iff in E. contradiction.
Qed.

Lemma div_Some (a b : Q) : ~ b == 0 -> Py.div a b = Some (a / b).
Proof.
  intros H. unfold Py.div. destruct (Qeq_bool b 0) eqn:E; [|reflexivity].
  apply Qeq_bool_iff in E. contradiction.
Qed.

Lemma div_None (a b : Q) : b == 0 -> Py.div a b = None.
Proof.
  intros H. unfold Py.div. apply Qeq_bool_iff in H. now rewrite H.
Qed.

Lemma max_cases (a b : Q) :
  (a < b /\ Py.max a b = b) \/ (b <= a /\ Py.max a b = a).
Proof.
  unfold Py.max. destruct (a <? b) eqn:E.
  - left. split; [now apply ltb_lt | reflexivity].
  - right. split; [now apply ltb_ge | reflexivity].
Qed.

Lemma min_cases (a b : Q) :
  (b < a /\ Py.min a b = b) \/ (a <= b /\ Py.min a b = a).
Proof.
  unfold Py.min. destruct (b <? a) eqn:E.
  - left. split; [now apply ltb_lt | reflexivity].
  - right. split; [now apply ltb_ge | reflexivity].
Qed.

(** [numpy.clip] lands between its bounds, whatever it is given. *)
Lemma clip_bounds (x lo hi : Q) : lo <= hi -> lo <= Py.clip x lo hi <= hi.
Proof.
  intros Hb. unfold Py.clip.
  destruct (max_cases x lo) as [[H1 E1]|[H1 E1]];
    destruct (min_cases (Py.max x lo) hi) as [[H2 E2]|[H2 E2]];
    rewrite E2; rewrite ?E1 in *; split; lra.
Qed.

(** [String.prefix] and [Py.contains] decide the usual notions. *)
Lemma prefix_app (p s : string) :
  String.prefix p s = true <-> exists t, s = String.app p t.
Proof.
  revert s. induction p as [|c p IH]; intros s.
  - split; [intros _; now exists s | intros _; now destruct s].
  - destruct s as [|d s]; simpl;
      [split; [discriminate | intros [t Ht]; discriminate]|].
    destruct (Ascii.ascii_dec c d) as [->|Hne].
    + rewrite IH. split; intros [t Ht]; exists t.
      * simpl. now rewrite Ht.
      * simpl in Ht. now injection Ht.
    + split; [discriminate|]. intros [t Ht]. simpl in Ht.
      injection Ht as E _. now subst.
Qed.

Lemma contains_nil (needle : string) :
  Py.contains needle "" = String.prefix needle "" || false.
Proof. reflexivity. Qed.

Lemma contains_cons (needle : string) (c : ascii) (hay : string) :
  Py.contains needle (String c hay) =
  String.prefix needle (String c hay) || Py.contains needle hay.
Proof. reflexivity. Qed.

Lemma contains_substring (needle hay : string) :
  Py.contains needle hay = true <->
  exists pre post, hay = String.app pre (String.app needle post).
Proof.
  induction hay as [|c hay IH].
  - rewrite contains_nil, orb_true_iff, prefix_app. split.
    + intros [[t Ht]|H]; [|discriminate]. exists EmptyString, t. exact Ht.
    + intros [pre [post H]]. left.
      destruct pre; simpl in H; [now exists post|discriminate].
  - rewrite contains_cons, orb_true_iff, prefix_app, IH. split.
    + intros [[t Ht]|[pre [post H]]].
      * exists EmptyString, t. exact Ht.
      * exists (String c pre), post. simpl. now rewrite H.
    + intros [pre [post H]]. destruct pre as [|d pre]; simpl in H.
      * left. now exists post.
      * right. exists pre, post. now injection H.
Qed.

(** ** The type columns *)

Ltac not_type_col :=
  let H := fresh in
  unfold RiskCalculator.USE_COLS; intros H;
  repeat (apply elem_of_cons in H as [H|H]; [discriminate|]);
  by apply elem_of_nil in H.

Lemma zeros_other (k : string) :
  k ∉ RiskCalculator.USE_COLS -> zeros !! k = None.
Proof.
  intros Hk. unfold zeros. apply not_elem_of_list_to_map_1.
  rewrite <- list_fmap_compose. exact Hk.
Qed.

Lemma one_hot_other (b1 b2 b3 : bool) (F : gmap string Q) (k : string) :
  k ∉ RiskCalculator.USE_COLS -> (one_hot b1 b2 b3 ∪ F) !! k = F !! k.
Proof.
  intros Hk. apply lookup_union_r.
  pose proof (zeros_other k Hk) as E.
  unfold RiskCalculator.USE_COLS in Hk.
  unfold one_hot; destruct b1; [|destruct b2; [|destruct b3]];
    (rewrite lookup_insert_ne; [exact E|]); intros <-; apply Hk; set_solver.
Qed.

Lemma one_hot_columns (b1 b2 b3 : bool) (F : gmap string Q) :
  type_columns (one_hot b1 b2 b3 ∪ F)
    (if b1 then 1 else 0)
    (if b1 then 0 else if b2 then 1 else 0)
    (if b1 then 0 else if b2 then 0 else if b3 then 1 else 0)
    (if b1 then 0 else if b2 then 0 else if b3 then 0 else 1).
Proof.
  unfold type_columns.
  destruct b1; [|destruct b2; [|destruct b3]];
    repeat split; apply lookup_union_Some_l; reflexivity.
Qed.

Lemma one_hot_exactly_one (b1 b2 b3 : bool) (F : gmap string Q) :
  exactly_one_type (one_hot b1 b2 b3 ∪ F).
Proof.
  pose proof (one_hot_columns b1 b2 b3 F) as H. unfold exactly_one_type.
  destruct b1; [|destruct b2; [|destruct b3]]; auto.
Qed.

(** ** The shape of the two feature dictionaries *)

Section Shape.

Variable now : Q.
Variable to_datetime : string -> option Q.

(** The risk calculator always returns; its dictionary is the one-hot
    type columns laid over the other eleven entries. *)
Lemma rc_shape (deposit market public : Q)
    (bi : option RiskCalculator.BuildingInfo)
    (ocr : option RiskCalculator.OcrFeatures) :
  let main_use := rc_main_use bi ocr in
  let hug_limit := if public >? 0 then public * 1.26 / 10000 else market in
  let use_apr_day :=
    Py.or_str
      (RiskCalculator.bi_use_apr_day (default RiskCalculator.no_building_info bi))
      (RiskCalculator.ocr_usage_approval_date
         (default RiskCalculator.no_ocr_features ocr)) in
  exists (F : gmap string Q) (x : Q),
    RiskCalculator.calculate_risk_features now to_datetime
      deposit market public bi ocr =
    one_hot (Py.contains "아파트" main_use) (Py.contains "오피스텔" main_use)
      (Py.contains "다세대" main_use || Py.contains "연립" main_use) ∪ F /\
    F !! "jeonse_ratio" = Some (if market >? 0 then deposit / market else 0) /\
    F !! "total_risk_ratio" =
      Some (if market >? 0 then (deposit + rc_real_debt ocr) / market else 0) /\
    F !! "hug_risk_ratio" =
      Some (if hug_limit >? 0 then deposit / hug_limit else 0) /\
    F !! "estimated_loan_ratio" = Some (Py.clip x 0 1) /\
    F !! "building_age" =
      Some (if Py.truthy_str use_apr_day then
              match to_datetime (default "" use_apr_day) with
              | Some apr_date => inject_Z (Py.days (now - apr_date)) / 365.25
              | None => 10
              end
            else 10) /\
    F !! "real_debt" = Some (rc_real_debt ocr).
Proof.
  intros main_use hug_limit use_apr_day.
  unfold RiskCalculator.calculate_risk_features. cbv zeta.
  eexists. eexists. split; [reflexivity|].
  repeat split; reflexivity.
Qed.

(** The feature service returns unless the market price it divides by is
    zero; its dictionary has the same shape. *)
Lemma fs_shape (deposit market debt : Q) (main_use date : option string)
    (is_illegal is_trust_owner short_term_weight parking households : Q) :
  let market' := fs_market_price deposit market in
  let hug_limit := market' * 0.7 * 1.26 in
  let s := Py.str main_use in
  ~ market' == 0 ->
  exists (F : gmap string Q) (x : Q),
    FeatureService.calculate_risk_features now to_datetime
      deposit market debt main_use date is_illegal is_trust_owner
      short_term_weight parking households =
    Some (one_hot (Py.contains "아파트" s) (Py.contains "오피스텔" s)
            (Py.any_in ["다세대"; "연립"; "빌라"] s) ∪ F) /\
    F !! "jeonse_ratio" = Some (deposit / market') /\
    F !! "total_risk_ratio" = Some ((deposit + debt) / market') /\
    F !! "hug_risk_ratio" =
      Some (if hug_limit >? 0 then deposit / hug_limit else 0) /\
    F !! "estimated_loan_ratio" = Some (Py.clip x 0 1) /\
    F !! "building_age" =
      Some (FeatureService.building_age_of now to_datetime date).
Proof.
  intros market' hug_limit s Hm.
  unfold FeatureService.calculate_risk_features. cbv zeta.
  change (if market <=? 0 then deposit * 1.25 else market) with market'.
  rewrite !(div_Some _ market') by exact Hm.
  eexists. eexists. split; [reflexivity|].
  repeat split; reflexivity.
Qed.

Lemma fs_raises (deposit market debt : Q) (main_use date : option string)
    (is_illegal is_trust_owner short_term_weight parking households : Q) :
  fs_market_price deposit market == 0 ->
  FeatureService.calculate_risk_features now to_datetime
    deposit market debt main_use date is_illegal is_trust_owner
    short_term_weight parking households = None.
Proof.
  intros Hm.
  unfold FeatureService.calculate_risk_features. cbv zeta.
  change (if market <=? 0 then deposit * 1.25 else market)
    with (fs_market_price deposit market).
  rewrite !(div_None _ _ Hm). reflexivity.
Qed.

End Shape.

(** ** Ratios *)

Ltac qclosed := vm_compute; first [reflexivity | discriminate].

Lemma div_le_mono (a b m : Q) : 0 < m -> a <= b -> a / m <= b / m.
Proof.
  intros Hm Hab. unfold Qdiv. apply Qmult_le_compat_r; [exact Hab|].
  apply Qlt_le_weak, Qinv_lt_0_compat, Hm.
Qed.

Lemma fs_market_price_pos (deposit market : Q) :
  0 < market -> fs_market_price deposit market = market.
Proof.
  intros Hm. unfold fs_market_price.
  destruct (market <=? 0) eqn:E; [|reflexivity].
  apply leb_le in E. lra.
Qed.

Lemma fs_market_price_nonpos (deposit market : Q) :
  market <= 0 -> fs_market_price deposit market = deposit * 1.25.
Proof.
  intros Hm. unfold fs_market_price. apply leb_le in Hm. now rewrite Hm.
Qed.

(** C1.  With deposit >= 0, market price > 0 and senior debt >= 0, both
    calculators return a feature record, and in it total_risk_ratio is at
    least jeonse_ratio.  The risk calculator reads the senior debt from
    [ocr_features]; the feature service takes it as an argument. *)
Theorem total_risk_ratio_ge_jeonse_ratio
    (now : Q) (to_datetime : string -> option Q) (deposit market debt : Q) :
  0 <= deposit -> 0 < market -> 0 <= debt ->
  (forall public bi ocr,
     rc_real_debt ocr == debt ->
     exists j t,
       RiskCalculator.calculate_risk_features now to_datetime
         deposit market public bi ocr !! "jeonse_ratio" = Some j /\
       RiskCalculator.calculate_risk_features now to_datetime
         deposit market public bi ocr !! "total_risk_ratio" = Some t /\
       j <= t) /\
  (forall main_use date is_illegal is_trust_owner short_term_weight
          parking households,
     exists f j t,
       FeatureService.calculate_risk_features now to_datetime
         deposit market debt main_use date is_illegal is_trust_owner
         short_term_weight parking households = Some f /\
       f !! "jeonse_ratio" = Some j /\
       f !! "total_risk_ratio" = Some t /\
       j <= t).
Proof.
  intros Hd Hm Hdebt. split.
  - intros public bi ocr Hocr.
    destruct (rc_shape now to_datetime deposit market public bi ocr)
      as (F & x & -> & Hj & Ht & _).
    rewrite !one_hot_other by not_type_col.
    apply gtb_lt in Hm as Hb. rewrite Hb in Hj, Ht.
    eexists. eexists. split; [exact Hj|]. split; [exact Ht|].
    apply div_le_mono; [exact Hm | lra].
  - intros main_use date is_illegal is_trust_owner short_term_weight
      parking households.
    destruct (fs_shape now to_datetime deposit market debt main_use date
                is_illegal is_trust_owner short_term_weight parking households)
      as (F & x & E & Hj & Ht & _).
    { rewrite fs_market_price_pos by exact Hm. lra. }
    rewrite fs_market_price_pos in Hj, Ht by exact Hm.
    eexists. eexists. eexists. split; [exact E|].
    rewrite !one_hot_other by not_type_col.
    split; [exact Hj|]. split; [exact Ht|].
    apply div_le_mono; [exact Hm | lra].
Qed.

Lemma total_risk_ratio_ge_jeonse_ratio_witness :
  exists j t,
    RiskCalculator.calculate_risk_features 0 no_parse
      24000 30000 0 None None !! "jeonse_ratio" = Some j /\
    RiskCalculator.calculate_risk_features 0 no_parse
      24000 30000 0 None None !! "total_risk_ratio" = Some t /\
    j <= t.
Proof.
  refine (proj1 (total_risk_ratio_ge_jeonse_ratio 0 no_parse 24000 30000 0
                   _ _ _) 0 None None _).
  - qclosed.
  - qclosed.
  - qclosed.
  - reflexivity.
Defined.

(** ** One-hot building type *)

(** C2.  The record returned by either calculator has exactly one of
    type_APT, type_OFFICETEL, type_VILLA, type_ETC equal to 1 and the other
    three equal to 0. *)
Theorem building_type_is_one_hot (now : Q) (to_datetime : string -> option Q) :
  (forall deposit market public bi ocr,
     exactly_one_type
       (RiskCalculator.calculate_risk_features now to_datetime
          deposit market public bi ocr)) /\
  (forall deposit market debt main_use date is_illegal is_trust_owner
          short_term_weight parking households f,
     FeatureService.calculate_risk_features now to_datetime
       deposit market debt main_use date is_illegal is_trust_owner
       short_term_weight parking households = Some f ->
     exactly_one_type f).
Proof.
  split.
  - intros deposit market public bi ocr.
    destruct (rc_shape now to_datetime deposit market public bi ocr)
      as (F & x & -> & _).
    apply one_hot_exactly_one.
  - intros deposit market debt main_use date is_illegal is_trust_owner
      short_term_weight parking households f Hf.
    destruct (Qeq_dec (fs_market_price deposit market) 0) as [Hz|Hnz].
    + rewrite fs_raises in Hf by exact Hz. discriminate.
    + destruct (fs_shape now to_datetime deposit market debt main_use date
                  is_illegal is_trust_owner short_term_weight parking
                  households Hnz) as (F & x & E & _).
      rewrite E in Hf. injection Hf as <-.
      apply one_hot_exactly_one.
Qed.

Lemma building_type_is_one_hot_witness :
  exists f,
    FeatureService.calculate_risk_features 0 no_parse
      24000 30000 0 (Some "다세대주택") None 0 0 0 0 0 = Some f /\
    exactly_one_type f.
Proof.
  eexists. split; [reflexivity|].
  exact (proj2 (building_type_is_one_hot 0 no_parse)
           24000 30000 0 (Some "다세대주택") None 0 0 0 0 0 _ eq_refl).
Defined.

(** Keyword precedence in the feature service: apartment, then officetel,
    then any of the three villa keywords, else the remaining column. *)
Lemma fs_type_precedence (now : Q) (to_datetime : string -> option Q)
    (deposit market debt : Q) (main_use date : option string)
    (is_illegal is_trust_owner short_term_weight parking households : Q)
    (f : gmap string Q) :
  FeatureService.calculate_risk_features now to_datetime
    deposit market debt main_use date is_illegal is_trust_owner
    short_term_weight parking households = Some f ->
  let s := Py.str main_use in
  (Py.contains "아파트" s = true -> type_columns f 1 0 0 0) /\
  (Py.contains "아파트" s = false -> Py.contains "오피스텔" s = true ->
   type_columns f 0 1 0 0) /\
  (Py.contains "아파트" s = false -> Py.contains "오피스텔" s = false ->
   Py.contains "다세대" s = true \/ Py.contains "연립" s = true \/
   Py.contains "빌라" s = true ->
   type_columns f 0 0 1 0) /\
  (Py.contains "아파트" s = false -> Py.contains "오피스텔" s = false ->
   Py.contains "다세대" s = false -> Py.contains "연립" s = false ->
   Py.contains "빌라" s = false ->
   type_columns f 0 0 0 1).
Proof.
  intros Hf s.
  destruct (Qeq_dec (fs_market_price deposit market) 0) as [Hz|Hnz].
  { rewrite fs_raises in Hf by exact Hz. discriminate. }
  destruct (fs_shape now to_datetime deposit market debt main_use date
              is_illegal is_trust_owner short_term_weight parking
              households Hnz) as (F & x & E & _).
  rewrite E in Hf. injection Hf as <-. fold s.
  pose proof (one_hot_columns (Py.contains "아파트" s)
                (Py.contains "오피스텔" s)
                (Py.any_in ["다세대"; "연립"; "빌라"] s) F) as H.
  assert (Hany : Py.any_in ["다세대"; "연립"; "빌라"] s =
                 Py.contains "다세대" s || Py.contains "연립" s
                 || Py.contains "빌라" s).
  { unfold Py.any_in, existsb. now rewrite orb_false_r, orb_assoc. }
  change (Py.contains "다세대" s
          || (Py.contains "연립" s || (Py.contains "빌라" s || false)))
    with (Py.any_in ["다세대"; "연립"; "빌라"] s).
  rewrite Hany in *.
  split; [|split; [|split]].
  - intros H1. rewrite H1 in *. exact H.
  - intros H1 H2. rewrite H1, H2 in *. exact H.
  - intros H1 H2 H3. rewrite H1, H2 in *.
    rewrite <- !orb_true_iff in H3. rewrite orb_assoc in H3.
    rewrite H3 in *. exact H.
  - intros H1 H2 H3 H4 H5. rewrite H1, H2, H3, H4, H5 in *. exact H.
Qed.

(** Keyword precedence in the risk calculator: the villa column is chosen
    by two keywords only. *)
Lemma rc_type_precedence (now : Q) (to_datetime : string -> option Q)
    (deposit market public : Q)
    (bi : option RiskCalculator.BuildingInfo)
    (ocr : option RiskCalculator.OcrFeatures) :
  let s := rc_main_use bi ocr in
  let f := RiskCalculator.calculate_risk_features now to_datetime
             deposit market public bi ocr in
  (Py.contains "아파트" s = true -> type_columns f 1 0 0 0) /\
  (Py.contains "아파트" s = false -> Py.contains "오피스텔" s = true ->
   type_columns f 0 1 0 0) /\
  (Py.contains "아파트" s = false -> Py.contains "오피스텔" s = false ->
   Py.contains "다세대" s = true \/ Py.contains "연립" s = true ->
   type_columns f 0 0 1 0) /\
  (Py.contains "아파트" s = false -> Py.contains "오피스텔" s = false ->
   Py.contains "다세대" s = false -> Py.contains "연립" s = false ->
   type_columns f 0 0 0 1).
Proof.
  intros s f. subst f.
  destruct (rc_shape now to_datetime deposit market public bi ocr)
    as (F & x & -> & _). fold s.
  pose proof (one_hot_columns (Py.contains "아파트" s)
                (Py.contains "오피스텔" s)
                (Py.contains "다세대" s || Py.contains "연립" s) F) as H.
  split; [|split; [|split]].
  - intros H1. rewrite H1 in *. exact H.
  - intros H1 H2. rewrite H1, H2 in *. exact H.
  - intros H1 H2 H3. rewrite H1, H2 in *.
    rewrite <- orb_true_iff in H3. rewrite H3 in *. exact H.
  - intros H1 H2 H3 H4. rewrite H1, H2, H3, H4 in *. exact H.
Qed.

(** C3.  The risk calculator at main_use = "빌라": the string contains the
    third villa keyword and none of higher precedence, yet type_VILLA is 0
    and type_ETC is 1.  (The feature service gives type_VILLA = 1 there,
    by [fs_type_precedence].) *)
Theorem risk_calculator_misses_villa_keyword
    (now : Q) (to_datetime : string -> option Q) (deposit market public : Q) :
  Py.contains "빌라" "빌라" = true /\
  Py.contains "아파트" "빌라" = false /\
  Py.contains "오피스텔" "빌라" = false /\
  type_columns
    (RiskCalculator.calculate_risk_features now to_datetime
       deposit market public (Some (building_of_use "빌라")) None)
    0 0 0 1.
Proof.
  repeat split; try reflexivity;
    destruct (rc_shape now to_datetime deposit market public
                (Some (building_of_use "빌라")) None) as (F & x & -> & _);
    apply lookup_union_Some_l; reflexivity.
Qed.

(** The feature service on the same main_use. *)
Lemma feature_service_matches_villa_keyword :
  exists f,
    FeatureService.calculate_risk_features 0 no_parse
      24000 30000 0 (Some "빌라") None 0 0 0 0 0 = Some f /\
    type_columns f 0 0 1 0.
Proof.
  eexists. split; [reflexivity|]. repeat split; reflexivity.
Qed.

(** ** The insurance ratio *)

(** C4, as the code has it.  Risk calculator: with a positive public
    price (in won) hug_risk_ratio is the deposit over
    public price * 1.26 / 10000; without one it is the deposit over the
    market price when that is positive, and 0 when it is not.  Feature
    service: it takes no public price, estimates it as 0.7 times the
    market price it divides by, and returns the deposit over
    that price * 0.7 * 1.26 when this limit is positive, else 0. *)
Theorem hug_risk_ratio_by_cases
    (now : Q) (to_datetime : string -> option Q) (deposit market : Q) :
  (forall public bi ocr,
     exists h,
       RiskCalculator.calculate_risk_features now to_datetime
         deposit market public bi ocr !! "hug_risk_ratio" = Some h /\
       (0 < public -> h == deposit / (public * 1.26 / 10000)) /\
       (public <= 0 -> 0 < market -> h == deposit / market) /\
       (public <= 0 -> market <= 0 -> h == 0)) /\
  (forall debt main_use date is_illegal is_trust_owner short_term_weight
          parking households f,
     FeatureService.calculate_risk_features now to_datetime
       deposit market debt main_use date is_illegal is_trust_owner
       short_term_weight parking households = Some f ->
     exists h,
       f !! "hug_risk_ratio" = Some h /\
       (0 < fs_market_price deposit market ->
        h == deposit / (fs_market_price deposit market * 0.7 * 1.26)) /\
       (fs_market_price deposit market <= 0 -> h == 0)).
Proof.
  split.
  - intros public bi ocr.
    destruct (rc_shape now to_datetime deposit market public bi ocr)
      as (F & x & -> & _ & _ & Hh & _).
    rewrite one_hot_other by not_type_col.
    eexists. split; [exact Hh|]. split; [|split].
    + intros Hp. apply gtb_lt in Hp as Hb. rewrite Hb.
      assert (Hl : 0 < public * 1.26 / 10000).
      { apply Qlt_shift_div_l; [qclosed | lra]. }
      apply gtb_lt in Hl. rewrite Hl. reflexivity.
    + intros Hp Hm. apply gtb_le in Hp as Hb. rewrite Hb.
      apply gtb_lt in Hm. rewrite Hm. reflexivity.
    + intros Hp Hm. apply gtb_le in Hp as Hb. rewrite Hb.
      apply gtb_le in Hm. rewrite Hm. reflexivity.
  - intros debt main_use date is_illegal is_trust_owner short_term_weight
      parking households f Hf.
    destruct (Qeq_dec (fs_market_price deposit market) 0) as [Hz|Hnz].
    { rewrite fs_raises in Hf by exact Hz. discriminate. }
    destruct (fs_shape now to_datetime deposit market debt main_use date
                is_illegal is_trust_owner short_term_weight parking
                households Hnz) as (F & x & E & _ & _ & Hh & _).
    rewrite E in Hf. injection Hf as <-.
    rewrite one_hot_other by not_type_col.
    eexists. split; [exact Hh|]. split.
    + intros Hm.
      assert (Hl : 0 < fs_market_price deposit market * 0.7 * 1.26) by lra.
      apply gtb_lt in Hl. rewrite Hl. reflexivity.
    + intros Hm.
      assert (Hl : fs_market_price deposit market * 0.7 * 1.26 <= 0) by lra.
      apply gtb_le in Hl. rewrite Hl. reflexivity.
Qed.

Lemma hug_risk_ratio_by_cases_witness :
  exists f h,
    FeatureService.calculate_risk_features 0 no_parse
      8820 10000 0 None None 0 0 0 0 0 = Some f /\
    f !! "hug_risk_ratio" = Some h /\
    h == 8820 / (10000 * 0.7 * 1.26).
Proof.
  destruct (proj2 (hug_risk_ratio_by_cases 0 no_parse 8820 10000)
              0 None None 0 0 0 0 0 _ eq_refl) as (h & Hh & Hpos & _).
  eexists. exists h. split; [reflexivity|]. split; [exact Hh|].
  apply Hpos. qclosed.
Defined.

(** C4 as stated fails twice.  In the risk calculator, with no public
    price and a market price of 0 there is no quotient of the deposit by
    the market price, and the ratio is 0.  In the feature service, which is
    never given a public price, deposit 8820 against market price 10000
    gives 1, not 8820 / 10000. *)
Lemma hug_risk_ratio_counterexample :
  (exists h,
     RiskCalculator.calculate_risk_features 0 no_parse
       24000 0 0 None None !! "hug_risk_ratio" = Some h /\
     Py.div 24000 0 <> Some h) /\
  (exists f h,
     FeatureService.calculate_risk_features 0 no_parse
       8820 10000 0 None None 0 0 0 0 0 = Some f /\
     f !! "hug_risk_ratio" = Some h /\
     h == 1 /\ ~ h == 8820 / 10000).
Proof.
  split.
  - exists 0. split; [reflexivity | discriminate].
  - eexists. eexists. split; [reflexivity|]. split; [reflexivity|].
    split; qclosed.
Qed.

(** ** The rule-based fallback *)

(** [greatest l] is a bound of [l] and, unless [l] is empty, one of its
    elements. *)
Lemma greatest_upper_bound (l : list Q) (x : Q) : In x l -> x <= greatest l.
Proof.
  induction l as [|y l IH]; simpl; [contradiction|].
  intros [->|Hx]; destruct (greatest l <? x) eqn:E1;
    try (destruct (greatest l <? y) eqn:E2);
    rewrite ?ltb_lt, ?ltb_ge in *; try specialize (IH Hx); lra.
Qed.

(** C5.  Without a classifier the predicted probability is the greatest
    floor among the triggered rules, 0 when none triggers; for deposit
    24000 against market price 30000 with no debt and no flags it is at
    least 0.8 and the risk level is RISKY. *)
Theorem fallback_probability_is_greatest_floor :
  (forall features,
     RiskCalculator.predict_with_model None features =
     spec_fallback_probability features) /\
  (forall now to_datetime public,
     let features :=
       RiskCalculator.calculate_risk_features now to_datetime
         24000 30000 public None None in
     0.8 <= RiskCalculator.predict_with_model None features /\
     RiskCalculator.determine_risk_level
       (RiskCalculator.predict_with_model None features) = "RISKY").
Proof.
  split.
  - intros features.
    unfold RiskCalculator.predict_with_model,
      RiskCalculator._rule_based_prediction,
      spec_fallback_probability, spec_floors.
    cbv zeta.
    destruct (Py.get "jeonse_ratio" 0 features >=? 0.8);
      [|destruct (Py.get "jeonse_ratio" 0 features >=? 0.7)];
      (destruct (Py.get "total_risk_ratio" 0 features >=? 0.9);
       [|destruct (Py.get "total_risk_ratio" 0 features >=? 0.8)]);
      destruct (Py.truthy (Py.get "is_trust_owner" 0 features)
                && (Py.get "short_term_weight" 0 features >? 0));
      reflexivity.
  - intros now to_datetime public features.
    assert (Hj : Py.get "jeonse_ratio" 0 features = 24000 / 30000)
      by reflexivity.
    assert (Ht : Py.get "total_risk_ratio" 0 features = (24000 + 0) / 30000)
      by reflexivity.
    assert (Ho : Py.get "is_trust_owner" 0 features = 0) by reflexivity.
    assert (Hs : Py.get "short_term_weight" 0 features = 0) by reflexivity.
    assert (E : RiskCalculator.predict_with_model None features = 0.8).
    { unfold RiskCalculator.predict_with_model,
        RiskCalculator._rule_based_prediction.
      rewrite Hj, Ht, Ho, Hs. reflexivity. }
    rewrite E. split; [qclosed | reflexivity].
Qed.

(** ** A market price that is not positive *)

(** C6, as the code has it.  The feature service replaces a market price
    that is not positive by deposit * 1.25 and goes on as if it had been
    called with that price; for a deposit other than 0 it returns
    jeonse_ratio = 0.8.  The risk calculator substitutes nothing: it
    returns jeonse_ratio = 0 and total_risk_ratio = 0. *)
Theorem nonpositive_market_price
    (now : Q) (to_datetime : string -> option Q) (deposit market : Q) :
  market <= 0 ->
  (forall debt main_use date is_illegal is_trust_owner short_term_weight
          parking households,
     FeatureService.calculate_risk_features now to_datetime
       deposit market debt main_use date is_illegal is_trust_owner
       short_term_weight parking households =
     FeatureService.calculate_risk_features now to_datetime
       deposit (deposit * 1.25) debt main_use date is_illegal is_trust_owner
       short_term_weight parking households /\
     (~ deposit == 0 ->
      exists f j,
        FeatureService.calculate_risk_features now to_datetime
          deposit market debt main_use date is_illegal is_trust_owner
          short_term_weight parking households = Some f /\
        f !! "jeonse_ratio" = Some j /\ j == 0.8)) /\
  (forall public bi ocr,
     RiskCalculator.calculate_risk_features now to_datetime
       deposit market public bi ocr !! "jeonse_ratio" = Some 0 /\
     RiskCalculator.calculate_risk_features now to_datetime
       deposit market public bi ocr !! "total_risk_ratio" = Some 0).
Proof.
  intros Hm. split.
  - intros debt main_use date is_illegal is_trust_owner short_term_weight
      parking households.
    split.
    + unfold FeatureService.calculate_risk_features. cbv zeta.
      apply leb_le in Hm as Hb. rewrite Hb.
      destruct (deposit * 1.25 <=? 0); reflexivity.
    + intros Hd.
      destruct (fs_shape now to_datetime deposit market debt main_use date
                  is_illegal is_trust_owner short_term_weight parking
                  households) as (F & x & E & Hj & _).
      { rewrite fs_market_price_nonpos by exact Hm. lra. }
      rewrite fs_market_price_nonpos in Hj by exact Hm.
      eexists. eexists. split; [exact E|].
      rewrite one_hot_other by not_type_col. split; [exact Hj|].
      field. exact Hd.
  - intros public bi ocr.
    destruct (rc_shape now to_datetime deposit market public bi ocr)
      as (F & x & -> & Hj & Ht & _).
    rewrite !one_hot_other by not_type_col.
    apply gtb_le in Hm. rewrite Hm in Hj, Ht. split; assumption.
Qed.

Lemma nonpositive_market_price_witness :
  exists f j,
    FeatureService.calculate_risk_features 0 no_parse
      24000 0 0 None None 0 0 0 0 0 = Some f /\
    f !! "jeonse_ratio" = Some j /\ j == 0.8.
Proof.
  refine (proj2 (proj1 (nonpositive_market_price 0 no_parse 24000 0 _)
                   0 None None 0 0 0 0 0) _); qclosed.
Defined.

(** C6 as stated fails in the risk calculator: with deposit 24000 and
    market price 0 the returned jeonse_ratio is 0, which is what the
    unsubstituted price gives, not the 0.8 of a price of 24000 * 1.25. *)
Lemma market_price_substitution_counterexample :
  exists j,
    RiskCalculator.calculate_risk_features 0 no_parse
      24000 0 0 None None !! "jeonse_ratio" = Some j /\
    j == 0 /\ ~ j == 24000 / (24000 * 1.25) /\ ~ j == 0.8.
Proof.
  exists 0. split; [reflexivity|]. repeat split; qclosed.
Qed.

(** ** Building age *)

(** What the risk calculator does with a date that is absent or does not
    parse: the age stays at its initial value of 10. *)
Lemma rc_building_age_default (now : Q) (to_datetime : string -> option Q)
    (deposit market public : Q)
    (bi : option RiskCalculator.BuildingInfo)
    (ocr : option RiskCalculator.OcrFeatures) :
  let use_apr_day :=
    Py.or_str
      (RiskCalculator.bi_use_apr_day (default RiskCalculator.no_building_info bi))
      (RiskCalculator.ocr_usage_approval_date
         (default RiskCalculator.no_ocr_features ocr)) in
  Py.truthy_str use_apr_day = false \/
  to_datetime (default "" use_apr_day) = None ->
  RiskCalculator.calculate_risk_features now to_datetime
    deposit market public bi ocr !! "building_age" = Some 10.
Proof.
  intros use_apr_day H.
  destruct (rc_shape now to_datetime deposit market public bi ocr)
    as (F & x & -> & _ & _ & _ & _ & Ha & _).
  rewrite one_hot_other by not_type_col. rewrite Ha. fold use_apr_day.
  destruct H as [H|H]; rewrite H; [reflexivity|].
  now destruct (Py.truthy_str use_apr_day).
Qed.

(** What the feature service does with a date that is present and does
    not parse after normalisation: the age is 10. *)
Lemma fs_building_age_unparsable (now : Q) (to_datetime : string -> option Q)
    (date : string) :
  date <> "" ->
  to_datetime
    (Py.strip_chars ["-"]
       (Py.replace "/" "-" (Py.replace "." "-" (Py.strip date)))) = None ->
  FeatureService.building_age_of now to_datetime (Some date) = 10.
Proof.
  intros Hne Hp. unfold FeatureService.building_age_of.
  destruct date as [|c date]; [congruence|].
  cbn [Py.truthy_str Py.str default]. unfold Py.str, default in *.
  simpl id. now rewrite Hp.
Qed.

(** C7.  The feature service at an absent usage-approval date ([None] or
    the empty string): the returned building_age is 0, not the default of
    10 years.  (The risk calculator returns 10 there, by
    [rc_building_age_default].) *)
Theorem feature_service_absent_date_gives_age_zero
    (now : Q) (to_datetime : string -> option Q)
    (deposit market debt : Q) (main_use date : option string)
    (is_illegal is_trust_owner short_term_weight parking households : Q)
    (f : gmap string Q) :
  date = None \/ date = Some "" ->
  FeatureService.calculate_risk_features now to_datetime
    deposit market debt main_use date is_illegal is_trust_owner
    short_term_weight parking households = Some f ->
  f !! "building_age" = Some 0.
Proof.
  intros Hdate Hf.
  destruct (Qeq_dec (fs_market_price deposit market) 0) as [Hz|Hnz].
  { rewrite fs_raises in Hf by exact Hz. discriminate. }
  destruct (fs_shape now to_datetime deposit market debt main_use date
              is_illegal is_trust_owner short_term_weight parking
              households Hnz) as (F & x & E & _ & _ & _ & _ & Ha).
  rewrite E in Hf. injection Hf as <-.
  rewrite one_hot_other by not_type_col. rewrite Ha.
  destruct Hdate as [->| ->]; reflexivity.
Qed.

Lemma feature_service_absent_date_gives_age_zero_witness :
  exists f,
    FeatureService.calculate_risk_features 0 no_parse
      24000 30000 0 (Some "아파트") None 0 0 0 0 0 = Some f /\
    f !! "building_age" = Some 0.
Proof.
  eexists. split; [reflexivity|].
  exact (feature_service_absent_date_gives_age_zero 0 no_parse
           24000 30000 0 (Some "아파트") None 0 0 0 0 0 _
           (or_introl eq_refl) eq_refl).
Defined.

(** ** The clipped composite *)

(** C8.  In the record returned by either calculator, for every
    building-type weight, short-term weight and trust flag,
    estimated_loan_ratio lies in [0, 1]. *)
Theorem estimated_loan_ratio_in_unit_interval
    (now : Q) (to_datetime : string -> option Q) :
  (forall deposit market public bi ocr,
     exists e,
       RiskCalculator.calculate_risk_features now to_datetime
         deposit market public bi ocr !! "estimated_loan_ratio" = Some e /\
       0 <= e <= 1) /\
  (forall deposit market debt main_use date is_illegal is_trust_owner
          short_term_weight parking households f,
     FeatureService.calculate_risk_features now to_datetime
       deposit market debt main_use date is_illegal is_trust_owner
       short_term_weight parking households = Some f ->
     exists e, f !! "estimated_loan_ratio" = Some e /\ 0 <= e <= 1).
Proof.
  split.
  - intros deposit market public bi ocr.
    destruct (rc_shape now to_datetime deposit market public bi ocr)
      as (F & x & -> & _ & _ & _ & He & _).
    rewrite one_hot_other by not_type_col.
    eexists. split; [exact He|]. apply clip_bounds. qclosed.
  - intros deposit market debt main_use date is_illegal is_trust_owner
      short_term_weight parking households f Hf.
    destruct (Qeq_dec (fs_market_price deposit market) 0) as [Hz|Hnz].
    { rewrite fs_raises in Hf by exact Hz. discriminate. }
    destruct (fs_shape now to_datetime deposit market debt main_use date
                is_illegal is_trust_owner short_term_weight parking
                households Hnz) as (F & x & E & _ & _ & _ & He & _).
    rewrite E in Hf. injection Hf as <-.
    rewrite one_hot_other by not_type_col.
    eexists. split; [exact He|]. apply clip_bounds. qclosed.
Qed.

(** An instance whose weights add up to 0.4 + 5 + 0.5. *)
Lemma estimated_loan_ratio_in_unit_interval_witness :
  exists f e,
    FeatureService.calculate_risk_features 0 no_parse
      24000 30000 0 (Some "근린생활시설") None 0 1 5 0 0 = Some f /\
    f !! "estimated_loan_ratio" = Some e /\ 0 <= e <= 1.
Proof.
  eexists.
  destruct (proj2 (estimated_loan_ratio_in_unit_interval 0 no_parse)
              24000 30000 0 (Some "근린생활시설") None 0 1 5 0 0 _ eq_refl)
    as (e & He & Hb).
  exists e. split; [reflexivity|]. split; assumption.
Defined.

(** ** Risk factors *)

(** The factor emitted when nothing else is. *)
Lemma analyze_risk_factors_cases (features : gmap string Q) (is_hug_safe : bool) :
  RiskCalculator.analyze_risk_factors features is_hug_safe =
    [{| RiskCalculator.type_ := "NONE"; RiskCalculator.severity := "LOW";
        RiskCalculator.message :=
          RiskCalculator.Text "특이한 위험 요인이 발견되지 않았습니다" |}] \/
  exists x l,
    RiskCalculator.analyze_risk_factors features is_hug_safe = x :: l.
Proof.
  unfold RiskCalculator.analyze_risk_factors. cbv zeta.
  match goal with
  | |- context [match ?X with [] => _ | _ :: _ => _ end] => destruct X as [|x l]
  end.
  - left. reflexivity.
  - right. now exists x, l.
Qed.

(** C9.  The analyzer never returns the empty list; and with the
    insurance available, jeonse_ratio <= 0.7, no senior debt, no
    illegal-building flag, no trust ownership, short_term_weight = 0 and
    building_age <= 30 it returns exactly one factor, of type NONE and
    severity LOW. *)
Theorem risk_factors_never_empty :
  (forall features is_hug_safe,
     RiskCalculator.analyze_risk_factors features is_hug_safe <> []) /\
  (forall features,
     Py.get "jeonse_ratio" 0 features <= 0.7 ->
     Py.get "real_debt" 0 features == 0 ->
     Py.get "is_illegal" 0 features == 0 ->
     Py.get "is_trust_owner" 0 features == 0 ->
     Py.get "short_term_weight" 0 features == 0 ->
     Py.get "building_age" 0 features <= 30 ->
     RiskCalculator.analyze_risk_factors features true =
     [{| RiskCalculator.type_ := "NONE"; RiskCalculator.severity := "LOW";
         RiskCalculator.message :=
           RiskCalculator.Text "특이한 위험 요인이 발견되지 않았습니다" |}]).
Proof.
  split.
  - intros features is_hug_safe.
    destruct (analyze_risk_factors_cases features is_hug_safe)
      as [E|(x & l & E)]; rewrite E; discriminate.
  - intros features Hj Hd Hi Ht Hs Ha.
    assert (B1 : (Py.get "jeonse_ratio" 0 features >? 0.8) = false)
      by (apply gtb_le; lra).
    assert (B2 : (Py.get "jeonse_ratio" 0 features >? 0.7) = false)
      by (apply gtb_le; lra).
    assert (B3 : (Py.get "real_debt" 0 features >? 0) = false)
      by (apply gtb_le; lra).
    assert (B4 : Py.truthy (Py.get "is_illegal" 0 features) = false)
      by (now apply truthy_false).
    assert (B5 : Py.truthy (Py.get "is_trust_owner" 0 features) = false)
      by (now apply truthy_false).
    assert (B6 : (Py.get "short_term_weight" 0 features >? 0) = false)
      by (apply gtb_le; lra).
    assert (B7 : (Py.get "building_age" 0 features >? 30) = false)
      by (apply gtb_le; lra).
    unfold RiskCalculator.analyze_risk_factors. cbv zeta.
    rewrite B1, B2, B3, B4, B5, B6, B7. reflexivity.
Qed.

(** No debt, no trust, jeonse_ratio 0.5 and a building of 5 years. *)
Lemma risk_factors_never_empty_witness :
  exists m,
    RiskCalculator.analyze_risk_factors
      (list_to_map [("jeonse_ratio", 0.5); ("building_age", 5)]) true =
    [{| RiskCalculator.type_ := "NONE"; RiskCalculator.severity := "LOW";
        RiskCalculator.message := m |}].
Proof.
  eexists.
  refine (proj2 risk_factors_never_empty
            (list_to_map [("jeonse_ratio", 0.5); ("building_age", 5)])
            _ _ _ _ _ _); qclosed.
Defined.

(** ** Insurance eligibility *)

(** C10.  The check answers eligible exactly when the public price (in
    won) is positive and the deposit (in units of 10000 won) is at most
    public price * 1.26 / 10000; with a public price that is not positive
    it answers ineligible with a limit of 0; a deposit of 10000 against a
    public price of 20000, both in units of 10000 won, is eligible. *)
Theorem hug_eligibility_rule :
  (forall public_price deposit_manwon,
     fst (fst (PriceService.calculate_hug_eligibility
                 public_price deposit_manwon)) = true <->
     0 < public_price /\ deposit_manwon <= public_price * 1.26 / 10000) /\
  (forall public_price deposit_manwon,
     public_price <= 0 ->
     fst (PriceService.calculate_hug_eligibility public_price deposit_manwon)
     = (false, 0)) /\
  fst (fst (PriceService.calculate_hug_eligibility (20000 * 10000) 10000))
  = true.
Proof.
  split; [|split].
  - intros public_price deposit_manwon.
    unfold PriceService.calculate_hug_eligibility. cbv zeta.
    destruct (public_price <=? 0) eqn:Ep.
    + apply leb_le in Ep. simpl. split; [discriminate|]. intros [H _]. lra.
    + apply leb_gt in Ep.
      destruct (deposit_manwon <=? public_price * 1.26 / 10000) eqn:Ed; simpl.
      * apply leb_le in Ed. split; [intros _; split; assumption | reflexivity].
      * apply leb_gt in Ed. split; [discriminate|]. intros [_ H].
        exfalso. exact (Qlt_not_le _ _ Ed H).
  - intros public_price deposit_manwon Hp.
    unfold PriceService.calculate_hug_eligibility.
    apply leb_le in Hp. rewrite Hp. reflexivity.
  - reflexivity.
Qed.

Lemma hug_eligibility_rule_witness :
  fst (PriceService.calculate_hug_eligibility 0 10000) = (false, 0).
Proof.
  refine (proj1 (proj2 hug_eligibility_rule) 0 10000 _). qclosed.
Defined.

(** ** Scenarios of the specification, evaluated *)

(** Scenario B: deposit 10000 and market price 30000 (units of 10000 won)
    with a public price of 20000 such units: the insurance ratio is
    10000 / 25200, below 1. *)
Example scenario_B :
  exists h,
    RiskCalculator.calculate_risk_features 0 no_parse
      10000 30000 (20000 * 10000) None None !! "hug_risk_ratio" = Some h /\
    h == 10000 / 25200 /\ h < 1.
Proof.
  eexists. split; [reflexivity|]. split; qclosed.
Qed.

(** Scenario C: main_use = "다세대주택" selects the villa column in both
    calculators, and the building-type weight is 0.1. *)
Example scenario_C :
  (let f := RiskCalculator.calculate_risk_features 0 no_parse
              24000 30000 0 (Some (building_of_use "다세대주택")) None in
   type_columns f 0 0 1 0 /\ Py.get "estimated_loan_ratio" 0 f == 0.1) /\
  (exists f,
     FeatureService.calculate_risk_features 0 no_parse
       24000 30000 0 (Some "다세대주택") None 0 0 0 0 0 = Some f /\
     type_columns f 0 0 1 0 /\ Py.get "estimated_loan_ratio" 0 f == 0.1).
Proof.
  split.
  - split; [repeat split; reflexivity | qclosed].
  - eexists. split; [reflexivity|]. split; [repeat split; reflexivity | qclosed].
Qed.

(** Scenario D: a short-term weight of 0.3 yields a SHORT_OWNERSHIP factor
    of severity HIGH. *)
Example scenario_D :
  RiskCalculator.analyze_risk_factors
    (list_to_map [("jeonse_ratio", 0.5); ("short_term_weight", 0.3)]) true =
  [{| RiskCalculator.type_ := "SHORT_OWNERSHIP";
      RiskCalculator.severity := "HIGH";
      RiskCalculator.message :=
        RiskCalculator.Text "건물 소유 기간이 짧음 (투기 의심)" |}].
Proof. vm_compute. reflexivity. Qed.

(** The risk level is monotone in the probability. *)
Lemma determine_risk_level_monotone (p1 p2 : Q) :
  p1 <= p2 ->
  (level_rank (RiskCalculator.determine_risk_level p1)
   <= level_rank (RiskCalculator.determine_risk_level p2))%nat.
Proof.
  intros H. unfold RiskCalculator.determine_risk_level.
  destruct (p1 <? 0.4) eqn:A1; destruct (p2 <? 0.4) eqn:A2;
    destruct (p1 <? 0.7) eqn:B1; destruct (p2 <? 0.7) eqn:B2;
    rewrite ?ltb_lt, ?ltb_ge in *; try (cbv; lia); exfalso; lra.
Qed.

(** * Further properties of the code *)

(** ** The fallback score and the risk level it leads to *)

Lemma geb_lt (a b : Q) : (a >=? b) = false <-> a < b.
Proof. apply leb_gt. Qed.

Ltac rule_cases f :=
  destruct (Py.get "jeonse_ratio" 0 f >=? 0.8) eqn:J8;
    [|destruct (Py.get "jeonse_ratio" 0 f >=? 0.7) eqn:J7];
  (destruct (Py.get "total_risk_ratio" 0 f >=? 0.9) eqn:T9;
    [|destruct (Py.get "total_risk_ratio" 0 f >=? 0.8) eqn:T8]);
  destruct (Py.truthy (Py.get "is_trust_owner" 0 f)) eqn:TR;
  destruct (Py.get "short_term_weight" 0 f >? 0) eqn:ST;
  cbn [andb];
  rewrite ?geb_le, ?geb_lt, ?gtb_lt, ?gtb_le, ?truthy_true, ?truthy_false in *.

Ltac eval_level :=
  match goal with
  | |- context [RiskCalculator.determine_risk_level ?p] =>
      let v := eval vm_compute in (RiskCalculator.determine_risk_level p) in
      change (RiskCalculator.determine_risk_level p) with v
  end.

(** The rule cascade only ever produces one of six values. *)
Lemma rule_based_prediction_values (features : gmap string Q) :
  In (RiskCalculator._rule_based_prediction features)
     [0; 0.5; 0.6; 0.7; 0.8; 0.9].
Proof.
  unfold RiskCalculator._rule_based_prediction. cbv zeta.
  rule_cases features; vm_compute; tauto.
Qed.

(** The risk level that the rule cascade leads to, by the features. *)
Lemma rule_based_level (features : gmap string Q) :
  let jeonse := Py.get "jeonse_ratio" 0 features in
  let total := Py.get "total_risk_ratio" 0 features in
  let trust := Py.get "is_trust_owner" 0 features in
  let short := Py.get "short_term_weight" 0 features in
  let level := RiskCalculator.determine_risk_level
                 (RiskCalculator._rule_based_prediction features) in
  (level = "RISKY" <-> 0.8 <= jeonse \/ 0.8 <= total) /\
  (level = "SAFE" <->
   jeonse < 0.7 /\ total < 0.8 /\ (trust == 0 \/ short <= 0)).
Proof.
  cbv zeta. unfold RiskCalculator._rule_based_prediction. cbv zeta.
  rule_cases features; eval_level;
    (split; split;
     [ intros E; first [discriminate E | left; lra | right; lra | idtac]
     | intros E; first [reflexivity | exfalso; destruct E; lra | idtac]
     | intros E; first [discriminate E
                       | repeat split; first [lra | left; assumption | left; lra
                                             | right; lra | idtac]
                       | idtac]
     | intros E; first [reflexivity
                       | exfalso; destruct E as (E1 & E2 & [E3|E3]);
                         first [lra | contradiction]
                       | idtac] ]).
Qed.

(** X1.  The risk level never decreases when the probability grows. *)
Theorem risk_level_monotone (p1 p2 : Q) :
  p1 <= p2 ->
  (level_rank (RiskCalculator.determine_risk_level p1)
   <= level_rank (RiskCalculator.determine_risk_level p2))%nat.
Proof.
  intros H. unfold RiskCalculator.determine_risk_level.
  destruct (p1 <? 0.4) eqn:A1; destruct (p2 <? 0.4) eqn:A2;
    destruct (p1 <? 0.7) eqn:B1; destruct (p2 <? 0.7) eqn:B2;
    rewrite ?ltb_lt, ?ltb_ge in *; try (cbv; lia); exfalso; lra.
Qed.

Lemma risk_level_monotone_witness :
  (level_rank (RiskCalculator.determine_risk_level 0.3)
   <= level_rank (RiskCalculator.determine_risk_level 0.8))%nat.
Proof. apply (risk_level_monotone 0.3 0.8). qclosed. Defined.

(** X2.  When the classifier is missing or raises, the predicted
    probability is one of 0, 0.5, 0.6, 0.7, 0.8 and 0.9; in particular it
    lies in [0, 0.9]. *)
Theorem degraded_prediction_values
    (get_model : option RiskCalculator.Model) (features : gmap string Q) :
  (forall model, get_model = Some model -> model features = None) ->
  In (RiskCalculator.predict_with_model get_model features)
     [0; 0.5; 0.6; 0.7; 0.8; 0.9] /\
  0 <= RiskCalculator.predict_with_model get_model features <= 0.9.
Proof.
  intros Hm.
  assert (E : RiskCalculator.predict_with_model get_model features =
              RiskCalculator._rule_based_prediction features).
  { unfold RiskCalculator.predict_with_model.
    destruct get_model as [model|]; [|reflexivity].
    now rewrite (Hm model eq_refl). }
  rewrite E.
  pose proof (rule_based_prediction_values features) as H.
  split; [exact H|].
  simpl in H.
  destruct H as [H|[H|[H|[H|[H|[H|[]]]]]]]; rewrite <- H; split; qclosed.
Qed.

Lemma degraded_prediction_values_witness :
  0 <= RiskCalculator.predict_with_model (Some (fun _ => None))
         (list_to_map [("jeonse_ratio", 0.75)]) <= 0.9.
Proof.
  refine (proj2 (degraded_prediction_values (Some (fun _ => None))
                   (list_to_map [("jeonse_ratio", 0.75)]) _)).
  intros model E. injection E as <-. reflexivity.
Defined.

(** X3.  Without a classifier the risk level is RISKY exactly when
    jeonse_ratio or total_risk_ratio reaches 0.8, and SAFE exactly when
    jeonse_ratio is below 0.7, total_risk_ratio is below 0.8 and the
    property is not both trust-owned and recently acquired. *)
Theorem fallback_risk_level (features : gmap string Q) :
  let jeonse := Py.get "jeonse_ratio" 0 features in
  let total := Py.get "total_risk_ratio" 0 features in
  let trust := Py.get "is_trust_owner" 0 features in
  let short := Py.get "short_term_weight" 0 features in
  let level := RiskCalculator.determine_risk_level
                 (RiskCalculator.predict_with_model None features) in
  (level = "RISKY" <-> 0.8 <= jeonse \/ 0.8 <= total) /\
  (level = "SAFE" <->
   jeonse < 0.7 /\ total < 0.8 /\ (trust == 0 \/ short <= 0)).
Proof. exact (rule_based_level features). Qed.



(** ** The list of risk factors *)

Lemma map_append_if {A B : Type} (g : A -> B) (c : bool) (l : list A) (x : A) :
  map g (if c then Py.append l x else l) =
  List.app (map g l) (if c then [g x] else []).
Proof.
  destruct c; unfold Py.append; [apply map_app | now rewrite app_nil_r].
Qed.

Lemma map_append_if2 {A B : Type} (g : A -> B) (c1 c2 : bool) (l : list A)
    (x1 x2 : A) :
  map g (if c1 then Py.append l x1 else if c2 then Py.append l x2 else l) =
  List.app (map g l) (if c1 then [g x1] else if c2 then [g x2] else []).
Proof.
  destruct c1; [|destruct c2]; unfold Py.append;
    [apply map_app | apply map_app | now rewrite app_nil_r].
Qed.

Lemma map_sentinel {A B : Type} (g : A -> B) (l : list A) (s : A) :
  map g (match l with [] => Py.append l s | _ :: _ => l end) =
  match map g l with [] => [g s] | _ :: _ => map g l end.
Proof. now destruct l. Qed.

(** The analyzer reports exactly the labels of the closed form. *)
Lemma analyze_labels (features : gmap string Q) (is_hug_safe : bool) :
  map factor_label (RiskCalculator.analyze_risk_factors features is_hug_safe)
  = labels_of features is_hug_safe.
Proof.
  unfold RiskCalculator.analyze_risk_factors, labels_of. cbv zeta.
  rewrite map_sentinel, !map_append_if, map_append_if2, !map_append_if.
  reflexivity.
Qed.

Lemma analyze_types (features : gmap string Q) (is_hug_safe : bool) :
  map RiskCalculator.type_
    (RiskCalculator.analyze_risk_factors features is_hug_safe)
  = map fst (labels_of features is_hug_safe).
Proof. rewrite <- analyze_labels, map_map. reflexivity. Qed.

Lemma map_one {A B : Type} (g : A -> B) (c : bool) (l : A) :
  map g (if c then [l] else []) = if c then [g l] else [].
Proof. now destruct c. Qed.

Lemma map_one2 {A B : Type} (g : A -> B) (c1 c2 : bool) (l1 l2 : A) :
  map g (if c1 then [l1] else if c2 then [l2] else []) =
  if c1 then [g l1] else if c2 then [g l2] else [].
Proof. now destruct c1, c2. Qed.

Lemma map_or_sentinel {A B : Type} (g : A -> B) (l : list A) (s : A) :
  map g (match l with [] => [s] | _ :: _ => l end) =
  match map g l with [] => [g s] | _ :: _ => map g l end.
Proof. now destruct l. Qed.

Lemma in_one {A : Type} (c : bool) (l x : A) :
  In x (if c then [l] else []) <-> c = true /\ l = x.
Proof. destruct c; simpl; intuition congruence. Qed.

Lemma in_one2 {A : Type} (c1 c2 : bool) (l1 l2 x : A) :
  In x (if c1 then [l1] else if c2 then [l2] else []) <->
  (c1 = true /\ l1 = x) \/ (c1 = false /\ c2 = true /\ l2 = x).
Proof. destruct c1, c2; simpl; intuition congruence. Qed.

Lemma in_or_sentinel {A : Type} (l : list A) (s x : A) :
  In x (match l with [] => [s] | _ :: _ => l end) <->
  In x l \/ (l = [] /\ s = x).
Proof.
  destruct l as [|y l]; simpl; [tauto|].
  split; [tauto|]. intros [H|[H _]]; [exact H | discriminate H].
Qed.

Lemma sublist_one {A : Type} (c : bool) (x : A) :
  sublist (if c then [x] else []) [x].
Proof. destruct c; [reflexivity | apply sublist_nil_l]. Qed.

Lemma sublist_one2 {A : Type} (c1 c2 : bool) (x : A) :
  sublist (if c1 then [x] else if c2 then [x] else []) [x].
Proof. destruct c1, c2; solve [reflexivity | apply sublist_nil_l]. Qed.

(** The types of the triggered factors, before the NONE factor is
    considered. *)
Lemma analyze_types_shape (features : gmap string Q) (is_hug_safe : bool) :
  exists triggered : list string,
    map RiskCalculator.type_
      (RiskCalculator.analyze_risk_factors features is_hug_safe) =
    match triggered with [] => ["NONE"] | _ :: _ => triggered end /\
    sublist triggered
      ["HUG_INELIGIBLE"; "HIGH_LTV"; "SENIOR_DEBT"; "ILLEGAL_BUILDING";
       "TRUST_PROPERTY"; "SHORT_OWNERSHIP"; "OLD_BUILDING"] /\
    (forall t, In t triggered <->
       (is_hug_safe = false /\ "HUG_INELIGIBLE" = t) \/
       (0.7 < Py.get "jeonse_ratio" 0 features /\ "HIGH_LTV" = t) \/
       (0 < Py.get "real_debt" 0 features /\ "SENIOR_DEBT" = t) \/
       (~ Py.get "is_illegal" 0 features == 0 /\ "ILLEGAL_BUILDING" = t) \/
       (~ Py.get "is_trust_owner" 0 features == 0 /\ "TRUST_PROPERTY" = t) \/
       (0 < Py.get "short_term_weight" 0 features /\ "SHORT_OWNERSHIP" = t) \/
       (30 < Py.get "building_age" 0 features /\ "OLD_BUILDING" = t)).
Proof.
  rewrite analyze_types. unfold labels_of. cbv zeta.
  rewrite map_or_sentinel, !map_app, !map_one, map_one2. cbn [fst].
  eexists. split; [reflexivity|]. split.
  - change ["HUG_INELIGIBLE"; "HIGH_LTV"; "SENIOR_DEBT"; "ILLEGAL_BUILDING";
            "TRUST_PROPERTY"; "SHORT_OWNERSHIP"; "OLD_BUILDING"]
      with (List.app (List.app (List.app (List.app (List.app (List.app
              ["HUG_INELIGIBLE"] ["HIGH_LTV"]) ["SENIOR_DEBT"])
              ["ILLEGAL_BUILDING"]) ["TRUST_PROPERTY"]) ["SHORT_OWNERSHIP"])
              ["OLD_BUILDING"]).
    repeat apply sublist_app; first [apply sublist_one | apply sublist_one2].
  - intros t. rewrite !in_app_iff, !in_one, in_one2.
    rewrite negb_true_iff, !gtb_lt, gtb_le, !truthy_true.
    split.
    + intros [[[[[[H|H]|H]|H]|H]|H]|H]; try tauto.
      destruct H as [[H1 H2]|(H1 & H2 & H3)];
        right; left; (split; [lra | assumption]).
    + intros [H|[[H1 H2]|H]]; try tauto.
      do 5 left. right.
      destruct (Qlt_le_dec 0.8 (Py.get "jeonse_ratio" 0 features));
        [left | right]; tauto.
Qed.

(** The labels of the triggered factors, before the NONE factor is
    considered. *)
Lemma analyze_labels_shape (features : gmap string Q) (is_hug_safe : bool) :
  let jeonse := Py.get "jeonse_ratio" 0 features in
  let short := Py.get "short_term_weight" 0 features in
  exists triggered : list (string * string),
    map factor_label
      (RiskCalculator.analyze_risk_factors features is_hug_safe) =
    match triggered with [] => [("NONE", "LOW")] | _ :: _ => triggered end /\
    (forall l, In l triggered <->
       (is_hug_safe = false /\ ("HUG_INELIGIBLE", "CRITICAL") = l) \/
       (0.8 < jeonse /\ ("HIGH_LTV", "HIGH") = l) \/
       ((0.7 < jeonse /\ jeonse <= 0.8) /\ ("HIGH_LTV", "MEDIUM") = l) \/
       (0 < Py.get "real_debt" 0 features /\ ("SENIOR_DEBT", "HIGH") = l) \/
       (~ Py.get "is_illegal" 0 features == 0 /\
        ("ILLEGAL_BUILDING", "HIGH") = l) \/
       (~ Py.get "is_trust_owner" 0 features == 0 /\
        ("TRUST_PROPERTY", "MEDIUM") = l) \/
       (0.3 <= short /\ ("SHORT_OWNERSHIP", "HIGH") = l) \/
       ((0 < short /\ short < 0.3) /\ ("SHORT_OWNERSHIP", "MEDIUM") = l) \/
       (30 < Py.get "building_age" 0 features /\ ("OLD_BUILDING", "LOW") = l)).
Proof.
  cbv zeta. rewrite analyze_labels. unfold labels_of. cbv zeta.
  eexists. split; [reflexivity|].
  intros l. rewrite !in_app_iff, !in_one, in_one2.
  rewrite negb_true_iff, !gtb_lt, gtb_le, !truthy_true.
  destruct (Py.get "short_term_weight" 0 features >=? 0.3) eqn:S3;
    [apply geb_le in S3 | apply geb_lt in S3];
    (split;
     [ intros H; decompose [or and] H; clear H; subst l;
       first [ tauto | intuition lra ]
     | intros H; decompose [or and] H; clear H; subst l;
       first [ tauto | exfalso; lra | intuition lra ] ]).
Qed.

Ltac sublist_closed :=
  repeat first [apply sublist_nil | apply sublist_skip | apply sublist_cons].

Lemma sentinel_nonempty {A : Type} (l : list A) (s : A) :
  match l with [] => [s] | _ :: _ => l end <> [].
Proof. destruct l; discriminate. Qed.

(** X5.  The analyzer reports the factors in one fixed order of types
    (insurance, jeonse ratio, senior debt, illegal building, trust, short
    ownership, old building, none), each type at most once. *)
Theorem risk_factors_follow_fixed_order
    (features : gmap string Q) (is_hug_safe : bool) :
  sublist
    (map RiskCalculator.type_
       (RiskCalculator.analyze_risk_factors features is_hug_safe))
    factor_order.
Proof.
  destruct (analyze_types_shape features is_hug_safe) as (tr & -> & Hs & _).
  unfold factor_order. destruct tr as [|t tr].
  - sublist_closed.
  - change ["HUG_INELIGIBLE"; "HIGH_LTV"; "SENIOR_DEBT"; "ILLEGAL_BUILDING";
            "TRUST_PROPERTY"; "SHORT_OWNERSHIP"; "OLD_BUILDING"; "NONE"]
      with (List.app
              ["HUG_INELIGIBLE"; "HIGH_LTV"; "SENIOR_DEBT"; "ILLEGAL_BUILDING";
               "TRUST_PROPERTY"; "SHORT_OWNERSHIP"; "OLD_BUILDING"] ["NONE"]).
    now apply sublist_inserts_r.
Qed.

(** X6.  Each kind of factor is reported exactly when its own test
    succeeds, whatever the other tests give; the NONE factor is reported
    exactly when no test succeeds, and then it is the whole list. *)
Theorem risk_factors_are_independent
    (features : gmap string Q) (is_hug_safe : bool) :
  let types := map RiskCalculator.type_
                 (RiskCalculator.analyze_risk_factors features is_hug_safe) in
  (In "HUG_INELIGIBLE" types <-> is_hug_safe = false) /\
  (In "HIGH_LTV" types <-> 0.7 < Py.get "jeonse_ratio" 0 features) /\
  (In "SENIOR_DEBT" types <-> 0 < Py.get "real_debt" 0 features) /\
  (In "ILLEGAL_BUILDING" types <-> ~ Py.get "is_illegal" 0 features == 0) /\
  (In "TRUST_PROPERTY" types <-> ~ Py.get "is_trust_owner" 0 features == 0) /\
  (In "SHORT_OWNERSHIP" types <-> 0 < Py.get "short_term_weight" 0 features) /\
  (In "OLD_BUILDING" types <-> 30 < Py.get "building_age" 0 features) /\
  (In "NONE" types <-> types = ["NONE"]) /\
  (types = ["NONE"] <->
   is_hug_safe = true /\
   Py.get "jeonse_ratio" 0 features <= 0.7 /\
   Py.get "real_debt" 0 features <= 0 /\
   Py.get "is_illegal" 0 features == 0 /\
   Py.get "is_trust_owner" 0 features == 0 /\
   Py.get "short_term_weight" 0 features <= 0 /\
   Py.get "building_age" 0 features <= 30).
Proof.
  cbv zeta.
  destruct (analyze_types_shape features is_hug_safe) as (tr & -> & _ & Hin).
  assert (Hnone : ~ In "NONE" tr).
  { rewrite Hin. intros H. decompose [or and] H; discriminate. }
  assert (Hname : forall t, t <> "NONE" ->
            (In t (match tr with [] => ["NONE"] | _ :: _ => tr end)
             <-> In t tr)).
  { intros t Ht. rewrite in_or_sentinel. split; [|tauto].
    intros [H|[_ H]]; [exact H | congruence]. }
  assert (Hnil : match tr with [] => ["NONE"] | _ :: _ => tr end = ["NONE"]
                 <-> tr = []).
  { destruct tr as [|t tr]; [tauto|]. split; [|discriminate].
    intros E. injection E as -> _. exfalso. apply Hnone. now left. }
  assert (Hno : forall t, tr = [] -> ~ In t tr) by (intros t ->; apply in_nil).
  split; [|split; [|split; [|split; [|split; [|split; [|split; [|split]]]]]]].
  - rewrite Hname by discriminate. rewrite Hin. split; [|tauto].
    intros H. decompose [or and] H; first [assumption | discriminate].
  - rewrite Hname by discriminate. rewrite Hin. split; [|tauto].
    intros H. decompose [or and] H; first [assumption | discriminate].
  - rewrite Hname by discriminate. rewrite Hin. split; [|tauto].
    intros H. decompose [or and] H; first [assumption | discriminate].
  - rewrite Hname by discriminate. rewrite Hin. split; [|tauto].
    intros H. decompose [or and] H; first [assumption | discriminate].
  - rewrite Hname by discriminate. rewrite Hin. split; [|tauto].
    intros H. decompose [or and] H; first [assumption | discriminate].
  - rewrite Hname by discriminate. rewrite Hin. split; [|tauto].
    intros H. decompose [or and] H; first [assumption | discriminate].
  - rewrite Hname by discriminate. rewrite Hin. split; [|tauto].
    intros H. decompose [or and] H; first [assumption | discriminate].
  - rewrite in_or_sentinel. split.
    + intros [H|[-> _]]; [contradiction | reflexivity].
    + intros E. apply Hnil in E. tauto.
  - rewrite Hnil. split.
    + intros E. pose proof (fun t => Hno t E) as Hn. clear Hno.
      setoid_rewrite Hin in Hn.
      repeat split.
      * destruct is_hug_safe; [reflexivity|].
        exfalso. apply (Hn "HUG_INELIGIBLE"). tauto.
      * apply Qnot_lt_le. intros H. apply (Hn "HIGH_LTV"). tauto.
      * apply Qnot_lt_le. intros H. apply (Hn "SENIOR_DEBT"). tauto.
      * destruct (Qeq_dec (Py.get "is_illegal" 0 features) 0) as [H|H];
          [exact H|]. exfalso. apply (Hn "ILLEGAL_BUILDING"). tauto.
      * destruct (Qeq_dec (Py.get "is_trust_owner" 0 features) 0) as [H|H];
          [exact H|]. exfalso. apply (Hn "TRUST_PROPERTY"). tauto.
      * apply Qnot_lt_le. intros H. apply (Hn "SHORT_OWNERSHIP"). tauto.
      * apply Qnot_lt_le. intros H. apply (Hn "OLD_BUILDING"). tauto.
    + intros (H1 & H2 & H3 & H4 & H5 & H6 & H7).
      destruct tr as [|t tr]; [reflexivity|]. exfalso.
      assert (Ht : In t (t :: tr)) by now left.
      apply Hin in Ht. subst is_hug_safe.
      decompose [or and] Ht; first [discriminate | contradiction | lra].
Qed.

(** X7.  Severities: a CRITICAL factor can only be the insurance one; the
    jeonse-ratio factor is HIGH above 0.8 and MEDIUM in (0.7, 0.8]; the
    short-ownership factor is HIGH from a weight of 0.3 on and MEDIUM for a
    weight in (0, 0.3). *)
Theorem risk_factor_severities
    (features : gmap string Q) (is_hug_safe : bool) :
  let labels := map factor_label
                  (RiskCalculator.analyze_risk_factors features is_hug_safe) in
  let jeonse := Py.get "jeonse_ratio" 0 features in
  let short := Py.get "short_term_weight" 0 features in
  (forall t, In (t, "CRITICAL") labels -> t = "HUG_INELIGIBLE") /\
  (In ("HIGH_LTV", "HIGH") labels <-> 0.8 < jeonse) /\
  (In ("HIGH_LTV", "MEDIUM") labels <-> 0.7 < jeonse /\ jeonse <= 0.8) /\
  (In ("SHORT_OWNERSHIP", "HIGH") labels <-> 0.3 <= short) /\
  (In ("SHORT_OWNERSHIP", "MEDIUM") labels <-> 0 < short /\ short < 0.3).
Proof.
  cbv zeta.
  destruct (analyze_labels_shape features is_hug_safe) as (tr & -> & Hin).
  assert (Hname : forall l, l <> ("NONE", "LOW") ->
            (In l (match tr with [] => [("NONE", "LOW")] | _ :: _ => tr end)
             <-> In l tr)).
  { intros l Hl. rewrite in_or_sentinel. split; [|tauto].
    intros [H|[_ H]]; [exact H | congruence]. }
  split; [|split; [|split; [|split]]].
  - intros t. rewrite Hname by discriminate. rewrite Hin. intros H.
    decompose [or and] H; clear H;
      match goal with E : (_, _) = (_, _) |- _ =>
        first [discriminate E | now injection E] end.
  - rewrite Hname by discriminate. rewrite Hin. split; [|tauto].
    intros H. decompose [or and] H; first [assumption | discriminate].
  - rewrite Hname by discriminate. rewrite Hin. split; [|tauto].
    intros H. decompose [or and] H; first [tauto | discriminate].
  - rewrite Hname by discriminate. rewrite Hin. split; [|tauto].
    intros H. decompose [or and] H; first [assumption | discriminate].
  - rewrite Hname by discriminate. rewrite Hin. split; [|tauto].
    intros H. decompose [or and] H; first [tauto | discriminate].
Qed.

(** ** More of the two feature dictionaries *)

Section MoreShape.

Variable now : Q.
Variable to_datetime : string -> option Q.

Lemma rc_shape_more (deposit market public : Q)
    (bi : option RiskCalculator.BuildingInfo)
    (ocr : option RiskCalculator.OcrFeatures) :
  let main_use := rc_main_use bi ocr in
  exists F : gmap string Q,
    RiskCalculator.calculate_risk_features now to_datetime
      deposit market public bi ocr =
    one_hot (Py.contains "아파트" main_use) (Py.contains "오피스텔" main_use)
      (Py.contains "다세대" main_use || Py.contains "연립" main_use) ∪ F /\
    dom F = list_to_set
              ["jeonse_ratio"; "hug_risk_ratio"; "total_risk_ratio";
               "estimated_loan_ratio"; "building_age"; "is_illegal";
               "parking_per_household"; "is_micro_complex";
               "is_trust_owner"; "short_term_weight"; "real_debt"] /\
    F !! "parking_per_household" =
      Some (rc_parking_cnt bi / rc_household_cnt bi) /\
    F !! "is_micro_complex" =
      Some (if rc_household_cnt bi <? 100 then 1 else 0) /\
    F !! "short_term_weight" =
      Some (if Qeq_bool (rc_ocr_weight ocr) 0
               && Py.truthy_str (rc_ownership_date bi)
            then
              match to_datetime (default "" (rc_ownership_date bi)) with
              | Some own_date =>
                  if (Py.days (now - own_date) <? 90)%Z then 0.3
                  else if (Py.days (now - own_date) <? 730)%Z then 0.1
                  else rc_ocr_weight ocr
              | None => rc_ocr_weight ocr
              end
            else rc_ocr_weight ocr).
Proof.
  intros main_use.
  unfold RiskCalculator.calculate_risk_features. cbv zeta.
  eexists. split; [reflexivity|].
  split; [|repeat split; reflexivity].
  rewrite dom_list_to_map_L. reflexivity.
Qed.

Lemma fs_shape_more (deposit market debt : Q) (main_use date : option string)
    (is_illegal is_trust_owner short_term_weight parking households : Q) :
  let s := Py.str main_use in
  ~ fs_market_price deposit market == 0 ->
  exists F : gmap string Q,
    FeatureService.calculate_risk_features now to_datetime
      deposit market debt main_use date is_illegal is_trust_owner
      short_term_weight parking households =
    Some (one_hot (Py.contains "아파트" s) (Py.contains "오피스텔" s)
            (Py.any_in ["다세대"; "연립"; "빌라"] s) ∪ F) /\
    dom F = list_to_set
              ["jeonse_ratio"; "hug_risk_ratio"; "total_risk_ratio";
               "estimated_loan_ratio"; "building_age"; "is_illegal";
               "parking_per_household"; "is_micro_complex";
               "is_trust_owner"; "short_term_weight"] /\
    F !! "parking_per_household" =
      Some (if households >? 0 then parking / households else 0) /\
    F !! "is_micro_complex" = Some (if households <? 100 then 1 else 0) /\
    F !! "is_illegal" = Some is_illegal /\
    F !! "is_trust_owner" = Some is_trust_owner /\
    F !! "short_term_weight" = Some short_term_weight.
Proof.
  intros s Hm.
  unfold FeatureService.calculate_risk_features. cbv zeta.
  change (if market <=? 0 then deposit * 1.25 else market)
    with (fs_market_price deposit market).
  rewrite !(div_Some _ (fs_market_price deposit market)) by exact Hm.
  eexists. split; [reflexivity|].
  split; [|repeat split; reflexivity].
  rewrite dom_list_to_map_L. reflexivity.
Qed.

End MoreShape.

Lemma one_hot_dom (b1 b2 b3 : bool) :
  dom (one_hot b1 b2 b3) =
  list_to_set ["type_APT"; "type_OFFICETEL"; "type_VILLA"; "type_ETC"].
Proof.
  unfold one_hot, zeros. destruct b1; [|destruct b2; [|destruct b3]];
    rewrite dom_insert_L, dom_list_to_map_L; cbn; set_solver.
Qed.

(** ** Insurance eligibility and the insurance ratio *)

Lemma hug_eligible_spec (public_price deposit_manwon : Q) :
  fst (fst (PriceService.calculate_hug_eligibility public_price deposit_manwon))
  = true <->
  0 < public_price /\ deposit_manwon <= public_price * 1.26 / 10000.
Proof.
  unfold PriceService.calculate_hug_eligibility. cbv zeta.
  destruct (public_price <=? 0) eqn:Ep.
  - apply leb_le in Ep. simpl. split; [discriminate|]. intros [H _]. lra.
  - apply leb_gt in Ep.
    destruct (deposit_manwon <=? public_price * 1.26 / 10000) eqn:Ed; simpl.
    + apply leb_le in Ed. split; [intros _; split; assumption | reflexivity].
    + apply leb_gt in Ed. split; [discriminate|]. intros [_ H].
      exfalso. exact (Qlt_not_le _ _ Ed H).
Qed.

Lemma hug_limit_pos (public_price : Q) :
  0 < public_price -> 0 < public_price * 1.26 / 10000.
Proof. intros H. apply Qlt_shift_div_l; [qclosed | lra]. Qed.

Lemma div_le_1 (a l : Q) : 0 < l -> (a / l <= 1 <-> a <= l).
Proof.
  intros Hl. split; intros H.
  - apply (Qmult_le_r _ _ (/ l)); [now apply Qinv_lt_0_compat|].
    rewrite Qmult_inv_r by lra. exact H.
  - apply (Qmult_le_r _ _ (/ l)) in H; [|now apply Qinv_lt_0_compat].
    rewrite Qmult_inv_r in H by lra. exact H.
Qed.

(** X8.  With a positive public price, the insurance is available exactly
    when the hug_risk_ratio that the risk calculator returns is at most 1;
    and the limit that the check reports is the one the ratio is taken
    against. *)
Theorem eligible_iff_hug_risk_ratio_at_most_1
    (now : Q) (to_datetime : string -> option Q)
    (deposit market public : Q)
    (bi : option RiskCalculator.BuildingInfo)
    (ocr : option RiskCalculator.OcrFeatures) :
  0 < public ->
  exists h,
    RiskCalculator.calculate_risk_features now to_datetime
      deposit market public bi ocr !! "hug_risk_ratio" = Some h /\
    (fst (fst (PriceService.calculate_hug_eligibility public deposit)) = true
     <-> h <= 1) /\
    h == deposit / snd (fst (PriceService.calculate_hug_eligibility
                               public deposit)).
Proof.
  intros Hp.
  destruct (rc_shape now to_datetime deposit market public bi ocr)
    as (F & x & -> & _ & _ & Hh & _).
  rewrite one_hot_other by not_type_col.
  pose proof (hug_limit_pos public Hp) as Hl.
  apply gtb_lt in Hp as Hb. rewrite Hb in Hh.
  apply gtb_lt in Hl as Hlb. rewrite Hlb in Hh.
  eexists. split; [exact Hh|]. split.
  - rewrite hug_eligible_spec, div_le_1 by exact Hl. tauto.
  - unfold PriceService.calculate_hug_eligibility. cbv zeta.
    apply leb_gt in Hp. rewrite Hp.
    destruct (deposit <=? public * 1.26 / 10000); reflexivity.
Qed.

Lemma eligible_iff_hug_risk_ratio_at_most_1_witness :
  exists h,
    RiskCalculator.calculate_risk_features 0 no_parse
      10000 30000 (20000 * 10000) None None !! "hug_risk_ratio" = Some h /\
    h <= 1.
Proof.
  destruct (eligible_iff_hug_risk_ratio_at_most_1 0 no_parse
              10000 30000 (20000 * 10000) None None) as (h & Hh & Hiff & _).
  - qclosed.
  - exists h. split; [exact Hh|]. apply Hiff. reflexivity.
Defined.

(** ** When the feature service fails, and where the calculators agree *)

(** X9.  The feature service raises (a division by zero) exactly when the
    market price is not positive and the deposit is 0; for every other
    input it returns a record. *)
Theorem feature_service_raises_iff
    (now : Q) (to_datetime : string -> option Q)
    (deposit market debt : Q) (main_use date : option string)
    (is_illegal is_trust_owner short_term_weight parking households : Q) :
  FeatureService.calculate_risk_features now to_datetime
    deposit market debt main_use date is_illegal is_trust_owner
    short_term_weight parking households = None <->
  market <= 0 /\ deposit == 0.
Proof.
  assert (Hz : fs_market_price deposit market == 0 <->
               market <= 0 /\ deposit == 0).
  { unfold fs_market_price. destruct (market <=? 0) eqn:E.
    - apply leb_le in E. split; [intros H; split; lra | intros [_ H]; lra].
    - apply leb_gt in E. split; [intros H; lra | intros [H _]; lra]. }
  rewrite <- Hz. split.
  - intros HN.
    destruct (Qeq_dec (fs_market_price deposit market) 0) as [H|H]; [exact H|].
    destruct (fs_shape now to_datetime deposit market debt main_use date
                is_illegal is_trust_owner short_term_weight parking
                households H) as (F & x & E & _).
    congruence.
  - apply fs_raises.
Qed.

(** X10.  For a positive market price and the same senior debt, the two
    calculators return the same jeonse_ratio and total_risk_ratio; and for
    the same main use without the keyword "빌라" they return the same four
    type columns. *)
Theorem calculators_agree
    (now : Q) (to_datetime : string -> option Q)
    (deposit market public debt : Q)
    (bi : option RiskCalculator.BuildingInfo)
    (ocr : option RiskCalculator.OcrFeatures)
    (main_use date : option string)
    (is_illegal is_trust_owner short_term_weight parking households : Q) :
  0 < market ->
  rc_real_debt ocr = debt ->
  let r := RiskCalculator.calculate_risk_features now to_datetime
             deposit market public bi ocr in
  exists f,
    FeatureService.calculate_risk_features now to_datetime
      deposit market debt main_use date is_illegal is_trust_owner
      short_term_weight parking households = Some f /\
    f !! "jeonse_ratio" = r !! "jeonse_ratio" /\
    f !! "total_risk_ratio" = r !! "total_risk_ratio" /\
    (Py.str main_use = rc_main_use bi ocr ->
     Py.contains "빌라" (Py.str main_use) = false ->
     f !! "type_APT" = r !! "type_APT" /\
     f !! "type_OFFICETEL" = r !! "type_OFFICETEL" /\
     f !! "type_VILLA" = r !! "type_VILLA" /\
     f !! "type_ETC" = r !! "type_ETC").
Proof.
  intros Hm Hdebt r. subst r.
  destruct (rc_shape now to_datetime deposit market public bi ocr)
    as (F & x & -> & Hj & Ht & _).
  destruct (fs_shape now to_datetime deposit market debt main_use date
              is_illegal is_trust_owner short_term_weight parking households)
    as (G & y & E & Gj & Gt & _).
  { rewrite fs_market_price_pos by exact Hm. lra. }
  rewrite fs_market_price_pos in Gj, Gt by exact Hm.
  apply gtb_lt in Hm as Hb. rewrite Hb in Hj, Ht. rewrite Hdebt in Ht.
  eexists. split; [exact E|].
  rewrite !(one_hot_other _ _ _ _ "jeonse_ratio") by not_type_col.
  rewrite !(one_hot_other _ _ _ _ "total_risk_ratio") by not_type_col.
  split; [congruence|]. split; [congruence|].
  intros Hs Hv. rewrite <- Hs.
  assert (Hany : Py.any_in ["다세대"; "연립"; "빌라"] (Py.str main_use) =
                 Py.contains "다세대" (Py.str main_use)
                 || Py.contains "연립" (Py.str main_use)).
  { unfold Py.any_in, existsb. rewrite Hv, !orb_false_r. reflexivity. }
  rewrite Hany.
  pose proof (one_hot_columns (Py.contains "아파트" (Py.str main_use))
                (Py.contains "오피스텔" (Py.str main_use))
                (Py.contains "다세대" (Py.str main_use)
                 || Py.contains "연립" (Py.str main_use)) F) as (A1 & A2 & A3 & A4).
  pose proof (one_hot_columns (Py.contains "아파트" (Py.str main_use))
                (Py.contains "오피스텔" (Py.str main_use))
                (Py.contains "다세대" (Py.str main_use)
                 || Py.contains "연립" (Py.str main_use)) G) as (B1 & B2 & B3 & B4).
  repeat split; congruence.
Qed.

Lemma calculators_agree_witness :
  exists f,
    FeatureService.calculate_risk_features 0 no_parse
      24000 30000 0 (Some "다세대주택") None 0 0 0 0 0 = Some f /\
    f !! "jeonse_ratio" =
    RiskCalculator.calculate_risk_features 0 no_parse
      24000 30000 0 (Some (building_of_use "다세대주택")) None
      !! "jeonse_ratio".
Proof.
  destruct (calculators_agree 0 no_parse 24000 30000 0 0
              (Some (building_of_use "다세대주택")) None
              (Some "다세대주택") None 0 0 0 0 0)
    as (f & E & Hj & _).
  - qclosed.
  - reflexivity.
  - exists f. split; [exact E | exact Hj].
Defined.

(** ** Ownership duration, households, and the set of keys *)

(** X11.  The short-term weight that the risk calculator returns: a weight
    from the OCR features other than 0 is kept whatever the building
    record says; otherwise a parsed ownership date gives 0.3 when it is
    less than 90 days old (or in the future), 0.1 when it is less than 730
    days old, and leaves the weight alone from 730 days on; an absent or
    unparsable date leaves it alone too. *)
Theorem risk_calculator_short_term_weight
    (now : Q) (to_datetime : string -> option Q)
    (deposit market public : Q)
    (bi : option RiskCalculator.BuildingInfo)
    (ocr : option RiskCalculator.OcrFeatures) :
  exists w,
    RiskCalculator.calculate_risk_features now to_datetime
      deposit market public bi ocr !! "short_term_weight" = Some w /\
    (~ rc_ocr_weight ocr == 0 -> w = rc_ocr_weight ocr) /\
    (Py.truthy_str (rc_ownership_date bi) = false -> w = rc_ocr_weight ocr) /\
    (to_datetime (default "" (rc_ownership_date bi)) = None ->
     w = rc_ocr_weight ocr) /\
    (forall own_date,
       rc_ocr_weight ocr == 0 ->
       Py.truthy_str (rc_ownership_date bi) = true ->
       to_datetime (default "" (rc_ownership_date bi)) = Some own_date ->
       (now - own_date < 90 -> w = 0.3) /\
       (90 <= now - own_date -> now - own_date < 730 -> w = 0.1) /\
       (730 <= now - own_date -> w = rc_ocr_weight ocr)).
Proof.
  destruct (rc_shape_more now to_datetime deposit market public bi ocr)
    as (F & -> & _ & _ & _ & Hw).
  rewrite one_hot_other by not_type_col.
  eexists. split; [exact Hw|]. split; [|split; [|split]].
  - intros Hn. destruct (Qeq_bool (rc_ocr_weight ocr) 0) eqn:E; [|reflexivity].
    apply Qeq_bool_iff in E. contradiction.
  - intros ->. now rewrite andb_false_r.
  - intros ->. now destruct (_ && _).
  - intros own_date Hz Ht Hp. apply Qeq_bool_iff in Hz.
    rewrite Hz, Ht, Hp. cbn [andb]. unfold Py.days.
    assert (Hfl : forall (n : Z), (Qfloor (now - own_date) <? n)%Z = true
                                  <-> now - own_date < inject_Z n).
    { intros n. rewrite Z.ltb_lt. split; intros H.
      - apply Qlt_le_trans with (inject_Z (Qfloor (now - own_date) + 1)).
        + apply Qlt_floor.
        + rewrite <- Zle_Qle. lia.
      - apply Z.lt_nge. intros Hge. rewrite Zle_Qle in Hge.
        pose proof (Qfloor_le (now - own_date)). lra. }
    split; [|split].
    + intros H. apply (Hfl 90%Z) in H. now rewrite H.
    + intros H1 H2.
      destruct (Qfloor (now - own_date) <? 90)%Z eqn:E1.
      * apply (Hfl 90%Z) in E1. exfalso. change (inject_Z 90) with 90 in E1. lra.
      * apply (Hfl 730%Z) in H2. now rewrite H2.
    + intros H.
      destruct (Qfloor (now - own_date) <? 90)%Z eqn:E1.
      * apply (Hfl 90%Z) in E1. exfalso. change (inject_Z 90) with 90 in E1. lra.
      * destruct (Qfloor (now - own_date) <? 730)%Z eqn:E2; [|reflexivity].
        apply (Hfl 730%Z) in E2. exfalso.
        change (inject_Z 730) with 730 in E2. lra.
Qed.

(** X12.  The household count is guarded before the division: a count
    that is missing, 0 or below 1 counts as 1, so that
    parking_per_household is the parking count itself and the building is
    flagged as a micro complex; from 1 on, parking_per_household is the
    quotient and the flag is set exactly below 100 households. *)
Theorem risk_calculator_household_guard
    (now : Q) (to_datetime : string -> option Q)
    (deposit market public : Q)
    (bi : option RiskCalculator.BuildingInfo)
    (ocr : option RiskCalculator.OcrFeatures) :
  let households :=
    default 0 (RiskCalculator.bi_household_cnt
                 (default RiskCalculator.no_building_info bi)) in
  let parking :=
    default 0 (RiskCalculator.bi_parking_cnt
                 (default RiskCalculator.no_building_info bi)) in
  exists p m,
    RiskCalculator.calculate_risk_features now to_datetime
      deposit market public bi ocr !! "parking_per_household" = Some p /\
    RiskCalculator.calculate_risk_features now to_datetime
      deposit market public bi ocr !! "is_micro_complex" = Some m /\
    (households < 1 -> p == parking /\ m = 1) /\
    (1 <= households ->
     p == parking / households /\
     (households < 100 -> m = 1) /\ (100 <= households -> m = 0)).
Proof.
  intros households parking.
  destruct (rc_shape_more now to_datetime deposit market public bi ocr)
    as (F & -> & _ & Hp & Hm & _).
  rewrite !one_hot_other by not_type_col.
  eexists. eexists. split; [exact Hp|]. split; [exact Hm|].
  assert (Hpk : rc_parking_cnt bi == parking).
  { unfold rc_parking_cnt, Py.or_num. fold parking.
    destruct (Py.truthy parking) eqn:E; [reflexivity|].
    apply truthy_false in E. now rewrite E. }
  unfold rc_household_cnt, Py.or_num. fold households. cbv zeta.
  split.
  - intros Hh.
    assert (E : (if (if Py.truthy households then households else 1) <? 1
                 then 1 else if Py.truthy households then households else 1)
                = 1).
    { destruct (Py.truthy households) eqn:T; [|reflexivity].
      apply ltb_lt in Hh. now rewrite Hh. }
    rewrite E. split; [|reflexivity].
    rewrite Hpk. field.
  - intros Hh.
    assert (T : Py.truthy households = true) by (apply truthy_true; lra).
    rewrite T. apply ltb_ge in Hh as Hb. rewrite Hb.
    split; [now rewrite Hpk|]. split.
    + intros H. apply ltb_lt in H. now rewrite H.
    + intros H. apply ltb_ge in H. now rewrite H.
Qed.

Lemma risk_calculator_household_guard_witness :
  exists p m,
    RiskCalculator.calculate_risk_features 0 no_parse
      24000 30000 0 None None !! "parking_per_household" = Some p /\
    RiskCalculator.calculate_risk_features 0 no_parse
      24000 30000 0 None None !! "is_micro_complex" = Some m /\
    m = 1.
Proof.
  destruct (risk_calculator_household_guard 0 no_parse 24000 30000 0 None None)
    as (p & m & Hp & Hm & Hlow & _).
  exists p, m. split; [exact Hp|]. split; [exact Hm|].
  apply Hlow. qclosed.
Defined.

Lemma risk_calculator_short_term_weight_witness :
  exists w,
    RiskCalculator.calculate_risk_features 30 (parse_as 0)
      24000 30000 0 (Some (building_of_ownership "2024-01-01")) None
      !! "short_term_weight" = Some w /\
    w = 0.3.
Proof.
  destruct (risk_calculator_short_term_weight 30 (parse_as 0)
              24000 30000 0 (Some (building_of_ownership "2024-01-01")) None)
    as (w & Hw & _ & _ & _ & Hdate).
  exists w. split; [exact Hw|].
  refine (proj1 (Hdate 0 _ eq_refl eq_refl) _); qclosed.
Defined.

(** X13.  The keys of the returned records: the feature service returns
    exactly the fourteen training columns, the risk calculator those and
    real_debt; so [convert_to_model_input] finds every training column in
    either record and fills none with 0. *)
Theorem feature_records_have_the_training_columns
    (now : Q) (to_datetime : string -> option Q) :
  (forall deposit market public bi ocr,
     let r := RiskCalculator.calculate_risk_features now to_datetime
                deposit market public bi ocr in
     dom r = list_to_set FeatureService.TRAIN_FEATURES ∪ {["real_debt"]} /\
     Forall2 (fun col cv => fst cv = col /\ r !! col = Some (snd cv))
       FeatureService.TRAIN_FEATURES
       (FeatureService.convert_to_model_input r)) /\
  (forall deposit market debt main_use date is_illegal is_trust_owner
          short_term_weight parking households f,
     FeatureService.calculate_risk_features now to_datetime
       deposit market debt main_use date is_illegal is_trust_owner
       short_term_weight parking households = Some f ->
     dom f = list_to_set FeatureService.TRAIN_FEATURES /\
     Forall2 (fun col cv => fst cv = col /\ f !! col = Some (snd cv))
       FeatureService.TRAIN_FEATURES
       (FeatureService.convert_to_model_input f)).
Proof.
  assert (Hconv : forall f : gmap string Q,
            (forall col, In col FeatureService.TRAIN_FEATURES ->
                         col ∈ dom f) ->
            Forall2 (fun col cv => fst cv = col /\ f !! col = Some (snd cv))
              FeatureService.TRAIN_FEATURES
              (FeatureService.convert_to_model_input f)).
  { intros f Hf. unfold FeatureService.convert_to_model_input.
    induction FeatureService.TRAIN_FEATURES as [|col cols IH]; simpl.
    - constructor.
    - constructor.
      + split; [reflexivity|]. unfold Py.get.
        assert (Hc : col ∈ dom f) by (apply Hf; now left).
        apply elem_of_dom in Hc as [v Hv]. rewrite Hv. reflexivity.
      + apply IH. intros c Hc. apply Hf. now right. }
  split.
  - intros deposit market public bi ocr r. subst r.
    destruct (rc_shape_more now to_datetime deposit market public bi ocr)
      as (F & -> & HF & _).
    assert (Hd : dom (one_hot
                        (Py.contains "아파트" (rc_main_use bi ocr))
                        (Py.contains "오피스텔" (rc_main_use bi ocr))
                        (Py.contains "다세대" (rc_main_use bi ocr)
                         || Py.contains "연립" (rc_main_use bi ocr)) ∪ F)
                 = list_to_set FeatureService.TRAIN_FEATURES ∪ {["real_debt"]}).
    { rewrite dom_union_L, one_hot_dom, HF.
      unfold FeatureService.TRAIN_FEATURES. cbn. set_solver. }
    split; [exact Hd|].
    apply Hconv. intros col Hcol. rewrite Hd.
    apply elem_of_union_l, elem_of_list_to_set, list_elem_of_In, Hcol.
  - intros deposit market debt main_use date is_illegal is_trust_owner
      short_term_weight parking households f Hf.
    destruct (Qeq_dec (fs_market_price deposit market) 0) as [Hz|Hnz].
    { rewrite fs_raises in Hf by exact Hz. discriminate. }
    destruct (fs_shape_more now to_datetime deposit market debt main_use date
                is_illegal is_trust_owner short_term_weight parking
                households Hnz) as (F & E & HF & _).
    rewrite E in Hf. injection Hf as <-.
    match goal with
    | |- dom ?m = _ /\ _ =>
        assert (Hd : dom m = list_to_set FeatureService.TRAIN_FEATURES)
    end.
    { rewrite dom_union_L, one_hot_dom, HF.
      unfold FeatureService.TRAIN_FEATURES. cbn. set_solver. }
    split; [exact Hd|].
    apply Hconv. intros col Hcol. rewrite Hd.
    apply elem_of_list_to_set, list_elem_of_In, Hcol.
Qed.

Lemma feature_records_have_the_training_columns_witness :
  exists f,
    FeatureService.calculate_risk_features 0 no_parse
      24000 30000 0 (Some "아파트") None 0 0 0 0 0 = Some f /\
    dom f = list_to_set FeatureService.TRAIN_FEATURES.
Proof.
  eexists. split; [reflexivity|].
  exact (proj1 (proj2 (feature_records_have_the_training_columns 0 no_parse)
                  24000 30000 0 (Some "아파트") None 0 0 0 0 0 _ eq_refl)).
Defined.

(** ** Recommendations *)

Lemma level_in_review_list (risk_level : string) :
  existsb (String.eqb risk_level) ["CAUTION"; "RISKY"] = true <->
  risk_level = "CAUTION" \/ risk_level = "RISKY".
Proof.
  simpl. rewrite !orb_true_iff, !String.eqb_eq. intuition discriminate.
Qed.

(** X14.  The list of recommendations starts with the insurance
    recommendation that fits the eligibility, ends with the legal-review
    recommendation, holds the two review recommendations exactly for the
    levels CAUTION and RISKY and the renegotiation recommendation exactly
    for a jeonse ratio above 0.75; so it has between 2 and 5 entries.  With
    the level taken from a probability, the review recommendations are
    given exactly from a probability of 0.4 on. *)
Theorem recommendations_structure
    (risk_level : string) (is_hug_safe : bool) (jeonse_ratio : Q) :
  let recs := RiskCalculator.generate_recommendations
                risk_level is_hug_safe jeonse_ratio in
  (head recs =
     Some (if is_hug_safe then "HUG 보증보험 가입을 권장합니다"
           else "HUG 보증보험 가입이 불가하므로 계약 재검토를 권장합니다") /\
   last recs = Some "계약 전 법무사 자문을 통한 권리 관계 검토 권장" /\
   (In "등기부등본 재확인 권장 (최근 3개월 이내)" recs <->
    risk_level = "CAUTION" \/ risk_level = "RISKY") /\
   (In "임대인의 재정 상태 및 다른 채무 여부 확인 필요" recs <->
    risk_level = "CAUTION" \/ risk_level = "RISKY") /\
   (In "전세가율이 높으므로 월세 전환 또는 보증금 인하 협상 검토" recs <->
    0.75 < jeonse_ratio) /\
   (2 <= length recs <= 5)%nat) /\
  (forall prob,
     In "등기부등본 재확인 권장 (최근 3개월 이내)"
        (RiskCalculator.generate_recommendations
           (RiskCalculator.determine_risk_level prob) is_hug_safe
           jeonse_ratio)
     <-> 0.4 <= prob).
Proof.
  split.
  - cbv zeta. unfold RiskCalculator.generate_recommendations. cbv zeta.
    rewrite <- level_in_review_list, <- gtb_lt.
    destruct is_hug_safe;
      destruct (existsb (String.eqb risk_level) ["CAUTION"; "RISKY"]);
      destruct (jeonse_ratio >? 0.75);
      cbn [Py.append List.app head last In length];
      (split; [reflexivity|]); (split; [reflexivity|]);
      (split; [|split; [|split; [|lia]]]);
      (split; intros H;
       [ first [reflexivity
               | exfalso; decompose [or] H; first [discriminate | contradiction]]
       | first [discriminate H | tauto] ]).
  - intros prob.
    unfold RiskCalculator.generate_recommendations,
      RiskCalculator.determine_risk_level. cbv zeta.
    destruct (prob <? 0.4) eqn:E1; [|destruct (prob <? 0.7) eqn:E2];
      rewrite ?ltb_lt, ?ltb_ge in *;
      destruct is_hug_safe; destruct (jeonse_ratio >? 0.75);
      cbn [Py.append List.app In existsb String.eqb Ascii.eqb Bool.eqb orb andb];
      (split; intros H;
       [ first [assumption | lra
               | exfalso; decompose [or] H; first [discriminate | contradiction]]
       | first [tauto | exfalso; lra] ]).
Qed.

(** ** The cached classifier *)




Example parse_pnu_ex :
  AddressService.parse_pnu "1111010100-3-00010002" =
  Some {| AddressService.sigungu_code := "11110";
          AddressService.bjdong_code := "10100";
          AddressService.land_type := "3";
          AddressService.bonbun := "0001";
          AddressService.bubun := "0002";
          AddressService.full_pnu := "1111010100-3-00010002" |}.
Proof. reflexivity. Qed.
Example raw_ex :
  AddressService.pnu_to_raw_format "1111010100-3-00010002" = "1111010100000010002".
Proof. reflexivity. Qed.
Example key_ex :
  AddressService.create_address_key "2823710100-3-00650124" = "28237-10100-0065-0124".
Proof. reflexivity. Qed.
Example slice_ex : Py.slice 1 3 "가나다라" = "나다" /\ Py.len "가나다라" = 4%nat.
Proof. split; reflexivity. Qed.

Lemma count_char_app (sep : ascii) (a b : string) :
  count_char sep (String.app a b) = (count_char sep a + count_char sep b)%nat.
Proof.
  induction a as [|c a IH]; [reflexivity|]. simpl.
  destruct (Ascii.eqb c sep); simpl; now rewrite IH.
Qed.

Lemma split_length (sep : ascii) (s : string) :
  length (Py.split_char sep s) = S (count_char sep s).
Proof.
  induction s as [|c s IH]; [reflexivity|]. simpl.
  destruct (Ascii.eqb c sep); simpl; [now rewrite IH|].
  destruct (Py.split_char sep s); simpl in *; [discriminate | exact IH].
Qed.

Lemma split_one (sep : ascii) (a : string) :
  count_char sep a = O -> Py.split_char sep a = [a].
Proof.
  induction a as [|c a IH]; [reflexivity|]. simpl.
  destruct (Ascii.eqb c sep); [discriminate|].
  intros H. now rewrite (IH H).
Qed.

Lemma split_app (sep : ascii) (a rest : string) :
  count_char sep a = O ->
  Py.split_char sep (String.app a (String sep rest)) =
  a :: Py.split_char sep rest.
Proof.
  induction a as [|c a IH]; simpl.
  - intros _. now rewrite Ascii.eqb_refl.
  - destruct (Ascii.eqb c sep); [discriminate|].
    intros H. now rewrite (IH H).
Qed.

(** The parts of a split hold no separator. *)
Lemma split_parts (sep : ascii) (s : string) :
  Forall (fun part => count_char sep part = O) (Py.split_char sep s).
Proof.
  induction s as [|c s IH]; simpl.
  - now constructor.
  - destruct (Ascii.eqb c sep) eqn:E; [now constructor|].
    destruct (Py.split_char sep s) as [|part parts].
    + constructor; [|constructor]. simpl. now rewrite E.
    + inversion IH as [|? ? Hp Hps]; subst.
      constructor; [|exact Hps]. simpl. now rewrite E.
Qed.

Lemma item_no_sep (sep : ascii) (i : nat) (parts : list string) :
  Forall (fun part => count_char sep part = O) parts ->
  count_char sep (Py.item i parts) = O.
Proof.
  intros H. unfold Py.item. revert i.
  induction H as [|p parts Hp _ IH]; intros [|i]; simpl; auto.
Qed.

Lemma remove_char_count (sep : ascii) (s : string) :
  count_char sep (Py.remove_char sep s) = O.
Proof.
  induction s as [|c s IH]; [reflexivity|]. simpl.
  destruct (Ascii.eqb c sep) eqn:E; [exact IH|]. simpl. now rewrite E.
Qed.

Lemma remove_char_id (sep : ascii) (s : string) :
  count_char sep s = O -> Py.remove_char sep s = s.
Proof.
  induction s as [|c s IH]; [reflexivity|]. simpl.
  destruct (Ascii.eqb c sep); [discriminate|].
  intros H. now rewrite (IH H).
Qed.

Lemma remove_char_app (sep : ascii) (a b : string) :
  Py.remove_char sep (String.app a b) =
  String.app (Py.remove_char sep a) (Py.remove_char sep b).
Proof.
  induction a as [|c a IH]; [reflexivity|]. simpl.
  destruct (Ascii.eqb c sep); simpl; now rewrite IH.
Qed.

Lemma contains_char (sep : ascii) (s : string) :
  (0 < count_char sep s)%nat -> Py.contains (String sep "") s = true.
Proof.
  induction s as [|c s IH]; simpl count_char; [lia|].
  rewrite contains_cons, orb_true_iff.
  destruct (Ascii.eqb c sep) eqn:E.
  - intros _. left. apply Ascii.eqb_eq in E. subst c.
    apply prefix_app. now exists s.
  - intros H. right. now apply IH.
Qed.

Lemma take_skip_cont (s : string) :
  String.app (Py.take_cont s) (Py.skip_cont s) = s.
Proof.
  induction s as [|c s IH]; [reflexivity|]. simpl.
  destruct (Py.is_cont c); [|reflexivity].
  change (String c (String.app (Py.take_cont s) (Py.skip_cont s)) = String c s).
  now rewrite IH.
Qed.

Lemma app_assoc_s (a b c : string) :
  String.app (String.app a b) c = String.app a (String.app b c).
Proof.
  induction a as [|x a IH]; [reflexivity|].
  change (String x (String.app (String.app a b) c) =
          String x (String.app a (String.app b c))).
  now rewrite IH.
Qed.

(** A string is its first [n] characters followed by the others. *)
Lemma slice_to_from (n : nat) (s : string) :
  String.app (Py.slice_to n s) (Py.slice_from n s) = s.
Proof.
  assert (H : forall m s, (String.length s <= m)%nat ->
            forall n, String.app (Py.slice_to n s) (Py.slice_from n s) = s).
  { clear. induction m as [|m IH]; intros s Hs n.
    - destruct s; [|simpl in Hs; lia]. now destruct n.
    - destruct n as [|n]; [reflexivity|].
      destruct s as [|c s]; [reflexivity|].
      change (String c (String.app
                          (String.app (Py.take_cont s)
                             (Py.slice_to n (Py.skip_cont s)))
                          (Py.slice_from n (Py.skip_cont s))) = String c s).
      rewrite app_assoc_s, IH.
      + now rewrite take_skip_cont.
      + simpl in Hs.
        assert (L : (String.length (Py.skip_cont s) <= String.length s)%nat).
        { clear. induction s as [|c s IH]; [simpl; lia|]. simpl.
          destruct (Py.is_cont c); simpl; lia. }
        lia. }
  exact (H (String.length s) s (Nat.le_refl _) n).
Qed.

Lemma address_key_of (pnu : string) :
  (if Py.truthy_s pnu then AddressService.create_address_key pnu
   else "UNKNOWN") = AddressService.create_address_key pnu.
Proof. now destruct pnu. Qed.

Lemma raw_format_no_hyphen (pnu : string) :
  count_char "-" (AddressService.pnu_to_raw_format pnu) = O.
Proof.
  unfold AddressService.pnu_to_raw_format. cbv zeta.
  destruct (3 <=? length (Py.split_char "-" pnu))%nat.
  - rewrite !count_char_app.
    rewrite !item_no_sep by apply split_parts. reflexivity.
  - apply remove_char_count.
Qed.

(** X16.  A PNU without two hyphens or more cannot be parsed, and these
    are exactly the PNUs to which the address key UNKNOWN is given.  The
    format for the database never holds a hyphen, whatever the PNU looks
    like. *)
Theorem unknown_key_iff_unparsable (pnu : string) :
  (AddressService.parse_pnu pnu = None <-> (count_char "-" pnu < 2)%nat) /\
  (AddressService.create_address_key pnu = "UNKNOWN" <->
   (count_char "-" pnu < 2)%nat) /\
  count_char "-" (AddressService.pnu_to_raw_format pnu) = O.
Proof.
  pose proof (split_length "-" pnu) as Hl.
  split; [|split; [|apply raw_format_no_hyphen]].
  - unfold AddressService.parse_pnu. cbv zeta.
    destruct pnu as [|c pnu]; [simpl; split; [lia | reflexivity]|].
    cbn [Py.truthy_s negb].
    destruct (length (Py.split_char "-" (String c pnu)) <? 3)%nat eqn:E.
    + apply Nat.ltb_lt in E. split; [lia | reflexivity].
    + apply Nat.ltb_ge in E. split; [discriminate | lia].
  - unfold AddressService.create_address_key. cbv zeta.
    destruct (le_lt_dec 2 (count_char "-" pnu)) as [H2|H2].
    + rewrite contains_char by lia.
      assert (Ht : Py.truthy_s pnu = true)
        by (destruct pnu; [simpl in H2; lia | reflexivity]).
      rewrite Ht. cbn [negb orb].
      assert (E : (length (Py.split_char "-" pnu) <? 3)%nat = false)
        by (apply Nat.ltb_ge; lia).
      rewrite E. split; [|lia].
      intros H. apply (f_equal (count_char "-")) in H.
      cbn [Py.join] in H. rewrite !count_char_app in H.
      simpl count_char in H at 2 4 6 8. lia.
    + split; [lia|]. intros _.
      destruct (negb (Py.truthy_s pnu) || negb (Py.contains "-" pnu));
        [reflexivity|].
      assert (E : (length (Py.split_char "-" pnu) <? 3)%nat = true)
        by (apply Nat.ltb_lt; lia).
      now rewrite E.
Qed.

(** X17.  For a PNU made of three parts without hyphens, joined by
    hyphens: the parts are found again by the parser; the format for the
    database is the first part, the digit 0 and the third part; the address
    key is the first part cut after 5 characters and the third part cut
    after 4, and without its hyphens it is the first part followed by the
    third.  Neither the format nor the key depends on the second part,
    the land type. *)
Theorem pnu_of_three_parts (code land bunji : string) :
  count_char "-" code = O -> count_char "-" land = O ->
  count_char "-" bunji = O ->
  let pnu := Py.join "-" [code; land; bunji] in
  AddressService.parse_pnu pnu =
    Some {| AddressService.sigungu_code := Py.slice_to 5 code;
            AddressService.bjdong_code := Py.slice 5 10 code;
            AddressService.land_type := land;
            AddressService.bonbun := Py.slice_to 4 bunji;
            AddressService.bubun :=
              if (8 <=? Py.len bunji)%nat then Py.slice 4 8 bunji else "0000";
            AddressService.full_pnu := pnu |} /\
  AddressService.pnu_to_raw_format pnu =
    String.app code (String.app "0" bunji) /\
  AddressService.create_address_key pnu =
    Py.join "-" [Py.slice_to 5 code; Py.slice_from 5 code;
                 Py.slice_to 4 bunji; Py.slice_from 4 bunji] /\
  Py.remove_char "-" (AddressService.create_address_key pnu) =
    String.app code bunji.
Proof.
  intros Hc Hl Hb pnu.
  assert (Hs : Py.split_char "-" pnu = [code; land; bunji]).
  { unfold pnu. cbn [Py.join].
    change (String.app "-" ?x) with (String "-" x).
    rewrite (split_app "-" code _ Hc).
    change (String.app "-" ?x) with (String "-" x).
    rewrite (split_app "-" land _ Hl), (split_one "-" bunji Hb).
    reflexivity. }
  assert (Hn : (0 < count_char "-" pnu)%nat).
  { pose proof (split_length "-" pnu) as H. rewrite Hs in H. simpl in H. lia. }
  assert (Ht : Py.truthy_s pnu = true)
    by (destruct pnu; [simpl in Hn; lia | reflexivity]).
  assert (Hk : AddressService.create_address_key pnu =
               Py.join "-" [Py.slice_to 5 code; Py.slice_from 5 code;
                            Py.slice_to 4 bunji; Py.slice_from 4 bunji]).
  { unfold AddressService.create_address_key. cbv zeta.
    rewrite Ht, (contains_char "-" pnu Hn), Hs. reflexivity. }
  split; [|split; [|split]].
  - unfold AddressService.parse_pnu. cbv zeta. rewrite Ht, Hs. reflexivity.
  - unfold AddressService.pnu_to_raw_format. cbv zeta. rewrite Hs.
    reflexivity.
  - exact Hk.
  - rewrite Hk. cbn [Py.join].
    assert (Hc' : (count_char "-" (Py.slice_to 5 code)
                   + count_char "-" (Py.slice_from 5 code) = 0)%nat)
      by (rewrite <- count_char_app, slice_to_from; exact Hc).
    assert (Hb' : (count_char "-" (Py.slice_to 4 bunji)
                   + count_char "-" (Py.slice_from 4 bunji) = 0)%nat)
      by (rewrite <- count_char_app, slice_to_from; exact Hb).
    assert (Hnil : forall x, String.app (Py.remove_char "-" "-") x = x)
      by reflexivity.
    rewrite !remove_char_app, !Hnil.
    rewrite (remove_char_id "-" (Py.slice_to 5 code)) by lia.
    rewrite (remove_char_id "-" (Py.slice_from 5 code)) by lia.
    rewrite (remove_char_id "-" (Py.slice_to 4 bunji)) by lia.
    rewrite (remove_char_id "-" (Py.slice_from 4 bunji)) by lia.
    rewrite <- (app_assoc_s (Py.slice_to 5 code)).
    now rewrite (slice_to_from 5 code), (slice_to_from 4 bunji).
Qed.

Lemma pnu_of_three_parts_witness :
  AddressService.pnu_to_raw_format
    (Py.join "-" ["1111010100"; "3"; "00010002"]) =
    String.app "1111010100" (String.app "0" "00010002") /\
  Py.remove_char "-"
    (AddressService.create_address_key
       (Py.join "-" ["1111010100"; "3"; "00010002"])) =
    String.app "1111010100" "00010002".
Proof.
  destruct (pnu_of_three_parts "1111010100" "3" "00010002"
              eq_refl eq_refl eq_refl) as (_ & Hr & _ & Hk).
  split; [exact Hr | exact Hk].
Defined.

(** ** The OCR feature extractor *)

Lemma fold_left_shift {A : Type} (f : Q -> A -> Q) :
  (forall a x, f a x == a + f 0 x) ->
  forall (l : list A) (a b : Q),
    a == b -> fold_left f l a == b + fold_left f l 0.
Proof.
  intros Hf l. induction l as [|x l IH]; intros a b Hab; simpl.
  - lra.
  - rewrite (IH (f a x) (b + f 0 x)).
    + rewrite (IH (f 0 x) (0 + f 0 x)); lra.
    + rewrite Hf, Hab. reflexivity.
Qed.

Section OcrFacts.

Variable now : Q.
Variable re_findall : string -> string -> list string.
Variable float_of : string -> option Q.
Variable strptime : string -> string -> option Q.
Variable lower : string -> string.

Local Abbreviation total_debt :=
  (OcrParserService._calculate_total_debt re_findall float_of lower).
Local Abbreviation extract :=
  (OcrParserService.extract_ocr_features now re_findall float_of strptime
     lower).

(** X18.  The total of the senior debts is additive: the records
    contribute one by one, so the total of two lists put together is the
    sum of their totals, and the empty list gives 0. *)
Theorem total_debt_is_additive (debts1 debts2 : list OcrParserService.Debt) :
  OcrParserService._calculate_total_debt re_findall float_of lower [] = 0 /\
  OcrParserService._calculate_total_debt re_findall float_of lower
    (List.app debts1 debts2) ==
  OcrParserService._calculate_total_debt re_findall float_of lower debts1 +
  OcrParserService._calculate_total_debt re_findall float_of lower debts2.
Proof.
  split; [reflexivity|].
  unfold OcrParserService._calculate_total_debt.
  rewrite fold_left_app.
  apply fold_left_shift; [|reflexivity].
  intros a item. cbv zeta.
  destruct (existsb _ _); [lra|].
  destruct (re_findall _ _); [lra|].
  destruct (float_of _); lra.
Qed.

(** X19.  A record whose status, in lower case, is cancelled, deleted or
    말소 adds nothing to the total, wherever it stands in the list; nor
    does a record whose amount holds no digits or does not convert. *)
Theorem cancelled_debt_is_skipped
    (debts1 debts2 : list OcrParserService.Debt)
    (item : OcrParserService.Debt) :
  In (lower (default "" (OcrParserService.status item)))
     ["cancelled"; "deleted"; "말소"] \/
  re_findall "\d+"
    (Py.remove_char "," (default "0" (OcrParserService.amount item))) = [] \/
  float_of
    (Py.join ""
       (re_findall "\d+"
          (Py.remove_char "," (default "0" (OcrParserService.amount item)))))
  = None ->
  OcrParserService._calculate_total_debt re_findall float_of lower
    (List.app debts1 (item :: debts2)) =
  OcrParserService._calculate_total_debt re_findall float_of lower
    (List.app debts1 debts2).
Proof.
  intros H. unfold OcrParserService._calculate_total_debt.
  rewrite !fold_left_app. cbn [fold_left]. f_equal. cbv zeta.
  destruct H as [H|[H|H]].
  - assert (Hb : existsb
                   (String.eqb
                      (lower (default "" (OcrParserService.status item))))
                   ["cancelled"; "deleted"; "말소"] = true).
    { apply existsb_exists. eexists. split; [exact H|].
      apply String.eqb_refl. }
    now rewrite Hb.
  - rewrite H. now destruct (existsb _ _).
  - rewrite H. destruct (existsb _ _); [reflexivity|].
    now destruct (re_findall _ _).
Qed.

Hypothesis digits_are_non_negative :
  forall s value,
    float_of (Py.join "" (re_findall "\d+" s)) = Some value -> 0 <= value.

Lemma total_debt_nonneg (debts : list OcrParserService.Debt) :
  0 <= total_debt debts.
Proof.
  unfold OcrParserService._calculate_total_debt.
  match goal with
  | |- 0 <= fold_left ?f debts 0 =>
      assert (H : forall q, 0 <= q -> 0 <= fold_left f debts q)
  end.
  { induction debts as [|item debts IH]; intros q Hq; [exact Hq|].
    cbn [fold_left]. apply IH. cbv zeta.
    destruct (existsb _ _); [exact Hq|].
    destruct (re_findall _ _) eqn:En; [exact Hq|].
    destruct (float_of _) eqn:Ef; [|exact Hq].
    rewrite <- En in Ef. apply digits_are_non_negative in Ef. lra. }
  apply H. lra.
Qed.

Lemma extract_real_debt (data : OcrParserService.OcrData) :
  OcrParserService.real_debt_manwon (extract data) =
  total_debt
    (OcrParserService.debts
       (default OcrParserService.no_registry (OcrParserService.registry data)))
  / 10000.
Proof.
  unfold OcrParserService.extract_ocr_features,
    OcrParserService._parse_registry, OcrParserService._parse_building_ledger.
  cbv zeta.
  destruct (if Py.truthy_s _ then _ else _). reflexivity.
Qed.

(** X20.  As digit strings denote numbers that are not negative, the
    senior debt extracted from the registry is never negative; fed to the
    risk calculator with a positive market price, it never lets
    total_risk_ratio fall below jeonse_ratio. *)
Theorem extracted_debt_is_non_negative
    (data : OcrParserService.OcrData)
    (to_datetime : string -> option Q) (deposit market public : Q)
    (bi : option RiskCalculator.BuildingInfo) :
  let features :=
    OcrParserService.extract_ocr_features now re_findall float_of strptime
      lower data in
  let r := RiskCalculator.calculate_risk_features now to_datetime
             deposit market public bi
             (Some (OcrParserService.as_ocr_features features)) in
  0 <= OcrParserService.real_debt_manwon features /\
  (0 < market ->
   exists j t,
     r !! "jeonse_ratio" = Some j /\ r !! "total_risk_ratio" = Some t /\
     j <= t).
Proof.
  cbv zeta.
  assert (Hd : 0 <= OcrParserService.real_debt_manwon (extract data)).
  { rewrite extract_real_debt.
    pose proof (total_debt_nonneg
                  (OcrParserService.debts
                     (default OcrParserService.no_registry
                        (OcrParserService.registry data)))) as H.
    apply Qle_shift_div_l; [qclosed | lra]. }
  split; [exact Hd|].
  intros Hm.
  destruct (rc_shape now to_datetime deposit market public bi
              (Some (OcrParserService.as_ocr_features (extract data))))
    as (F & x & -> & Hj & Ht & _).
  rewrite !one_hot_other by not_type_col.
  apply gtb_lt in Hm as Hb. rewrite Hb in Hj, Ht.
  eexists. eexists. split; [exact Hj|]. split; [exact Ht|].
  apply div_le_mono; [exact Hm|].
  unfold rc_real_debt. cbn [default from_option id
    OcrParserService.as_ocr_features RiskCalculator.ocr_real_debt_manwon].
  unfold id. lra.
Qed.


End OcrFacts.

Lemma cancelled_debt_is_skipped_witness :
  OcrParserService._calculate_total_debt sample_findall sample_float
    sample_lower [sample_active_debt; sample_cancelled_debt] =
  OcrParserService._calculate_total_debt sample_findall sample_float
    sample_lower [sample_active_debt].
Proof.
  apply (cancelled_debt_is_skipped sample_findall sample_float sample_lower
           [sample_active_debt] [] sample_cancelled_debt).
  left. right. right. left. reflexivity.
Defined.

Lemma sample_digits_are_non_negative (s : string) (value : Q) :
  sample_float (Py.join "" (sample_findall "\d+" s)) = Some value ->
  0 <= value.
Proof.
  unfold sample_float. destruct (String.eqb _ _); [|discriminate].
  intros E. injection E as <-. discriminate.
Qed.

Lemma extracted_debt_is_non_negative_witness :
  0 <= OcrParserService.real_debt_manwon
         (OcrParserService.extract_ocr_features 1000 sample_findall
            sample_float sample_strptime sample_lower sample_ocr).
Proof.
  exact (proj1 (extracted_debt_is_non_negative 1000 sample_findall
                  sample_float sample_strptime sample_lower
                  sample_digits_are_non_negative sample_ocr no_parse
                  24000 30000 200000000 None)).
Defined.

(** ** The market price estimate *)

Section PriceFacts.

Import PriceService.

Variable DB : Type.
Variable get_trade_price : DB -> string -> option Q -> Raises (Q * string).
Variable get_public_price : DB -> string -> option Q -> Raises Q.
Variable is_db_available : DB -> bool.
Variable fetch_real_price_from_api : DB -> string -> string -> DB * FetchOutcome.

Local Abbreviation estimate :=
  (estimate_market_price DB get_trade_price get_public_price is_db_available
     fetch_real_price_from_api).

(** What the estimate can return: a positive price, or the price 0 tagged
    Unknown after a public-price lookup that found nothing positive in the
    database as the estimate leaves it. *)
Lemma estimate_cases (db : DB) (pnu : string) (area_size : option Q)
    (fetch_if_missing : bool) (db' : DB) (price : Q) (source : string) :
  estimate db pnu area_size fetch_if_missing = (db', Return (price, source)) ->
  0 < price \/
  (price = 0 /\ source = "Unknown" /\
   exists public_price,
     get_public_price db' pnu area_size = Return public_price /\
     public_price <= 0).
Proof.
  unfold estimate_market_price. cbv zeta.
  assert (Hpub : forall d,
            match get_public_price d pnu area_size with
            | Return public_price =>
                if public_price >? 0
                then (d, Return (public_price / 10000 * 1.26,
                                 "Public_Price_Estimate"))
                else (d, Return (0, "Unknown"))
            | DatabaseConnectionError => (d, DatabaseConnectionError)
            end = (db', Return (price, source)) ->
            0 < price \/
            (price = 0 /\ source = "Unknown" /\
             exists public_price,
               get_public_price db' pnu area_size = Return public_price /\
               public_price <= 0)).
  { intros d. destruct (get_public_price d pnu area_size) as [pp|] eqn:Ep;
      [|discriminate].
    destruct (pp >? 0) eqn:Eb; intros H; injection H as <- <- <-.
    - left. apply gtb_lt in Eb.
      assert (H : 0 < pp / 10000) by (apply Qlt_shift_div_l; [qclosed | lra]).
      lra.
    - right. apply gtb_le in Eb. repeat split. exists pp. now split. }
  destruct (get_trade_price db pnu area_size) as [[tp src]|]; [|discriminate].
  destruct (tp >? 0) eqn:Et.
  { intros H. injection H as <- <- <-. left. now apply gtb_lt. }
  destruct (AddressService.parse_pnu pnu) as [parsed|]; [|apply Hpub].
  destruct (fetch_if_missing && is_db_available db); [|apply Hpub].
  destruct (fetch_real_price_from_api db _ _) as [d [ok| |]];
    [|discriminate|apply Hpub].
  destruct (get_trade_price d pnu area_size) as [[tp2 src2]|]; [|discriminate].
  destruct (tp2 >? 0) eqn:Et2; [|apply Hpub].
  intros H. injection H as <- <- <-. left. now apply gtb_lt.
Qed.

(** X22.  The estimate never returns a negative price, and it returns the
    price 0 only with the tag Unknown: every other result is a positive
    price. *)
Theorem estimate_is_positive_or_unknown (db : DB) (pnu : string)
    (area_size : option Q) (fetch_if_missing : bool)
    (db' : DB) (price : Q) (source : string) :
  estimate_market_price DB get_trade_price get_public_price is_db_available
    fetch_real_price_from_api db pnu area_size fetch_if_missing
  = (db', Return (price, source)) ->
  0 < price \/ (price = 0 /\ source = "Unknown").
Proof.
  intros H. apply estimate_cases in H. tauto.
Qed.

End PriceFacts.

Lemma estimate_is_positive_or_unknown_witness :
  PriceService.estimate_market_price bool sample_trade sample_public
    sample_available sample_fetch false "1111010100-3-00010002" None true
  = (true, PriceService.Return (30000, "DB_Trade")) /\
  (0 < 30000 \/ (30000 = 0 /\ "DB_Trade" = "Unknown")).
Proof.
  split; [reflexivity|].
  exact (estimate_is_positive_or_unknown bool sample_trade sample_public
           sample_available sample_fetch false "1111010100-3-00010002" None
           true true 30000 "DB_Trade" eq_refl).
Defined.

(** ** The OCR-based analysis, end to end *)

Lemma truthy_or_num_0 (a : Q) : Py.truthy (Py.or_num a 0) = Py.truthy a.
Proof.
  unfold Py.or_num. destruct (Py.truthy a) eqn:E; [exact E | reflexivity].
Qed.

(** Membership in the reported types and labels, for every factor but the
    NONE one. *)
Lemma analyze_in_types (features : gmap string Q) (is_hug_safe : bool)
    (t : string) :
  t <> "NONE" ->
  In t (map RiskCalculator.type_
          (RiskCalculator.analyze_risk_factors features is_hug_safe)) <->
  (is_hug_safe = false /\ "HUG_INELIGIBLE" = t) \/
  (0.7 < Py.get "jeonse_ratio" 0 features /\ "HIGH_LTV" = t) \/
  (0 < Py.get "real_debt" 0 features /\ "SENIOR_DEBT" = t) \/
  (~ Py.get "is_illegal" 0 features == 0 /\ "ILLEGAL_BUILDING" = t) \/
  (~ Py.get "is_trust_owner" 0 features == 0 /\ "TRUST_PROPERTY" = t) \/
  (0 < Py.get "short_term_weight" 0 features /\ "SHORT_OWNERSHIP" = t) \/
  (30 < Py.get "building_age" 0 features /\ "OLD_BUILDING" = t).
Proof.
  intros Ht.
  destruct (analyze_types_shape features is_hug_safe) as (tr & -> & _ & Hin).
  rewrite <- Hin, in_or_sentinel. split; [|tauto].
  intros [H|[_ H]]; [exact H | congruence].
Qed.

Lemma analyze_in_high_ltv (features : gmap string Q) (is_hug_safe : bool) :
  In ("HIGH_LTV", "HIGH")
     (map factor_label
        (RiskCalculator.analyze_risk_factors features is_hug_safe)) <->
  0.8 < Py.get "jeonse_ratio" 0 features.
Proof.
  destruct (analyze_labels_shape features is_hug_safe) as (tr & -> & Hin).
  rewrite in_or_sentinel, Hin. split.
  - intros [H|[_ H]]; [|discriminate].
    decompose [or and] H; first [assumption | discriminate].
  - tauto.
Qed.

Lemma recommendations_head (risk_level : string) (is_hug_safe : bool)
    (jeonse_ratio : Q) :
  head (RiskCalculator.generate_recommendations
          risk_level is_hug_safe jeonse_ratio) =
  Some (if is_hug_safe then "HUG 보증보험 가입을 권장합니다"
        else "HUG 보증보험 가입이 불가하므로 계약 재검토를 권장합니다").
Proof.
  unfold RiskCalculator.generate_recommendations. cbv zeta.
  destruct is_hug_safe;
    destruct (existsb (String.eqb risk_level) ["CAUTION"; "RISKY"]);
    destruct (jeonse_ratio >? 0.75); reflexivity.
Qed.

(** What the extractor makes of the two documents. *)
Lemma extract_flags (now : Q) (re_findall : string -> string -> list string)
    (float_of : string -> option Q) (strptime : string -> string -> option Q)
    (lower : string -> string) (data : OcrParserService.OcrData) :
  let features :=
    OcrParserService.extract_ocr_features now re_findall float_of strptime
      lower data in
  let ledger :=
    default OcrParserService.no_ledger (OcrParserService.ledger data) in
  let registry :=
    default OcrParserService.no_registry (OcrParserService.registry data) in
  OcrParserService.is_illegal features =
    (if OcrParserService.is_violator ledger then 1 else 0) /\
  OcrParserService.is_trust_owner features =
    (if Py.contains "신탁" (default "" (OcrParserService.owner registry))
        || Py.contains "신탁"
             (default "" (OcrParserService.trust_content registry))
     then 1 else 0) /\
  OcrParserService.real_debt_manwon features =
    OcrParserService._calculate_total_debt re_findall float_of lower
      (OcrParserService.debts registry) / 10000.
Proof.
  cbv zeta.
  unfold OcrParserService.extract_ocr_features,
    OcrParserService._parse_registry, OcrParserService._parse_building_ledger.
  cbv zeta.
  destruct (if Py.truthy_s _ then _ else _). repeat split; reflexivity.
Qed.

(** The entries of the analysis dictionary that come from the documents. *)
Lemma analysis_features_of_documents (now : Q)
    (to_datetime : string -> option Q) (ocr : OcrParserService.Features)
    (deposit market public : Q) :
  let features := analysis_features now to_datetime ocr deposit market public in
  Py.get "jeonse_ratio" 0 features =
    (if market >? 0 then deposit / market else 0) /\
  Py.get "real_debt" 0 features = OcrParserService.real_debt_manwon ocr /\
  Py.get "is_illegal" 0 features =
    Py.or_num (OcrParserService.is_illegal ocr) 0 /\
  Py.get "is_trust_owner" 0 features =
    Py.or_num (OcrParserService.is_trust_owner ocr) 0 /\
  Py.get "short_term_weight" 0 features =
    OcrParserService.short_term_weight ocr.
Proof.
  cbv zeta. unfold analysis_features, Py.get. cbv zeta.
  assert (H : forall k v (m : gmap string Q),
            k <> "hug_risk_ratio" ->
            (if public >? 0 then <["hug_risk_ratio" := v]> m else m) !! k
            = m !! k).
  { intros k v m Hk. destruct (public >? 0); [|reflexivity].
    now apply lookup_insert_ne. }
  rewrite !H by discriminate. clear H.
  unfold RiskCalculator.calculate_risk_features. cbv zeta.
  match goal with
  | |- context [?T ∪ ?F] =>
      assert (HT : forall k, k ∉ RiskCalculator.USE_COLS ->
                (T ∪ F) !! k = F !! k)
  end.
  { intros k Hk. apply (one_hot_other _ _ _ _ k Hk). }
  rewrite !HT by not_type_col. clear HT.
  repeat split; try reflexivity.
  cbn [Py.truthy_str RiskCalculator.bi_ownership_changed_date
       RiskCalculator.no_building_info default from_option].
  match goal with |- context [Qeq_bool ?w 0 && false] =>
    rewrite (andb_false_r (Qeq_bool w 0)) end.
  reflexivity.
Qed.

Section PredictFacts.

Import PriceService.

Variable now : Q.
Variable re_findall : string -> string -> list string.
Variable float_of : string -> option Q.
Variable strptime : string -> string -> option Q.
Variable lower : string -> string.
Variable to_datetime : string -> option Q.
Variable DB : Type.
Variable get_trade_price : DB -> string -> option Q -> Raises (Q * string).
Variable get_public_price : DB -> string -> option Q -> Raises Q.
Variable is_db_available : DB -> bool.
Variable fetch_real_price_from_api : DB -> string -> string -> DB * FetchOutcome.
Variable get_model : option RiskCalculator.Model.
Variable round : Q -> Z -> Q.
Variable isoformat : Q -> string.

Local Abbreviation predict :=
  (PredictService.predict_risk_with_ocr now re_findall float_of strptime lower
     to_datetime DB get_trade_price get_public_price is_db_available
     fetch_real_price_from_api get_model round isoformat).
Local Abbreviation extract :=
  (OcrParserService.extract_ocr_features now re_findall float_of strptime
     lower).
Local Abbreviation estimate :=
  (estimate_market_price DB get_trade_price get_public_price is_db_available
     fetch_real_price_from_api).

(** With a positive estimate and a public price, the analysis is returned;
    all its parts come from one feature dictionary and one eligibility. *)
Lemma predict_analysis (db : DB) (address : string) (deposit : Q)
    (data : OcrParserService.OcrData) (db' : DB) (price : Q) (source : string)
    (public : Q) :
  estimate db (OcrParserService.unique_number (extract data))
    (OcrParserService.area_size (extract data)) true
  = (db', Return (price, source)) ->
  0 < price ->
  get_public_price db' (OcrParserService.unique_number (extract data))
    (OcrParserService.area_size (extract data)) = Return public ->
  exists d debug,
    let features :=
      analysis_features now to_datetime (extract data) deposit price public in
    let safe := fst (fst (calculate_hug_eligibility public deposit)) in
    let limit := snd (fst (calculate_hug_eligibility public deposit)) in
    let prob := RiskCalculator.predict_with_model get_model features in
    predict db address deposit data =
      (db', Return (PredictService.Analysis (isoformat now) d debug)) /\
    PredictService.market_price d = Py.int (price * 10000) /\
    PredictService.price_source d = source /\
    PredictService.risk_score d = round (prob * 100) 1 /\
    PredictService.risk_level d = RiskCalculator.determine_risk_level prob /\
    PredictService.major_risk_factors d =
      RiskCalculator.analyze_risk_factors features safe /\
    PredictService.recommendations d =
      RiskCalculator.generate_recommendations
        (RiskCalculator.determine_risk_level prob) safe
        (Py.get "jeonse_ratio" 0 features) /\
    PredictService.is_eligible (PredictService.hug_result d) = safe /\
    PredictService.reason (PredictService.hug_result d) =
      (if negb safe then
         if Py.get "jeonse_ratio" 0 features >? 0.8
         then Some (RiskCalculator.Fmt "전세가율 "
                      (Py.get "jeonse_ratio" 0 features * 100)
                      ".1f" "% 초과 (기준: 80%)")
         else Some (RiskCalculator.Text "기타 심사 기준 미달")
       else None) /\
    PredictService.coverage_ratio (PredictService.hug_result d) =
      (if deposit >? 0
       then round (Py.min limit deposit / deposit * 100) 1 else 0) /\
    PredictService.is_illegal_building (PredictService.details d) =
      Py.truthy (OcrParserService.is_illegal (extract data)) /\
    PredictService.is_trust (PredictService.details d) =
      Py.truthy (OcrParserService.is_trust_owner (extract data)) /\
    PredictService.features_used debug =
      delete "parking_per_household" (delete "estimated_loan_ratio" features).
Proof.
  intros Ee Hp Ep.
  unfold PredictService.predict_risk_with_ocr. cbv zeta.
  rewrite Ee, Ep.
  destruct (calculate_hug_eligibility public deposit) as [[safe limit] msg].
  apply leb_gt in Hp as Hb. rewrite Hb. cbn [andb]. rewrite Hb.
  eexists. eexists. split; [reflexivity|].
  cbn [fst snd]. repeat split; reflexivity.
Qed.

(** X23.  The analysis is returned exactly for a positive estimate of the
    market price, and it reports that estimate and its source.  An estimate
    that is not positive gives the response 422: the public price that
    could stand in for it is the one the estimate has just found not
    positive, in the same state of the database. *)
Theorem analysis_iff_positive_estimate (db : DB) (address : string)
    (deposit : Q) (data : OcrParserService.OcrData) (db' : DB) (price : Q)
    (source : string) (public : Q) :
  estimate db (OcrParserService.unique_number (extract data))
    (OcrParserService.area_size (extract data)) true
  = (db', Return (price, source)) ->
  get_public_price db' (OcrParserService.unique_number (extract data))
    (OcrParserService.area_size (extract data)) = Return public ->
  (0 < price ->
   exists d debug,
     predict db address deposit data =
       (db', Return (PredictService.Analysis (isoformat now) d debug)) /\
     PredictService.market_price d = Py.int (price * 10000) /\
     PredictService.price_source d = source) /\
  (price <= 0 ->
   predict db address deposit data =
     (db', Return (PredictService.ErrorResponse 422 "시세 데이터 없음"
                     (isoformat now)
                     "공시지가 또는 실거래가 데이터를 찾을 수 없어 분석할 수 없습니다"))).
Proof.
  intros Ee Ep. split.
  - intros Hp.
    destruct (predict_analysis db address deposit data db' price source public
                Ee Hp Ep) as (d & debug & H).
    cbv zeta in H. exists d, debug. tauto.
  - intros Hp.
    destruct (estimate_cases _ _ _ _ _ _ _ _ _ _ _ _ Ee)
      as [H|(_ & _ & pp & Epp & Hpp)]; [lra|].
    rewrite Ep in Epp. injection Epp as <-.
    unfold PredictService.predict_risk_with_ocr. cbv zeta.
    rewrite Ee, Ep. unfold calculate_hug_eligibility.
    apply leb_le in Hpp. rewrite Hpp. cbv beta iota.
    apply leb_le in Hp. rewrite Hp.
    change (0 >? 0) with false. cbn [andb]. cbv beta iota.
    rewrite Hp. reflexivity.
Qed.

(** X24.  The analysis speaks with one voice about the insurance: the
    flag is_eligible is the verdict of the eligibility rule; a reason is
    given exactly when the flag is false, the HUG_INELIGIBLE factor is
    reported exactly then, and the first recommendation is the one for
    that verdict.  The reason names the jeonse ratio exactly when the
    factor HIGH_LTV is reported with severity HIGH. *)
Theorem insurance_verdict_is_coherent (db : DB) (address : string)
    (deposit : Q) (data : OcrParserService.OcrData) (db' : DB) (price : Q)
    (source : string) (public : Q) :
  estimate db (OcrParserService.unique_number (extract data))
    (OcrParserService.area_size (extract data)) true
  = (db', Return (price, source)) ->
  0 < price ->
  get_public_price db' (OcrParserService.unique_number (extract data))
    (OcrParserService.area_size (extract data)) = Return public ->
  exists d debug,
    predict db address deposit data =
      (db', Return (PredictService.Analysis (isoformat now) d debug)) /\
    let hug := PredictService.hug_result d in
    let eligible := PredictService.is_eligible hug in
    let factors := PredictService.major_risk_factors d in
    (eligible = true <->
     0 < public /\ deposit <= public * 1.26 / 10000) /\
    (PredictService.reason hug = None <-> eligible = true) /\
    (In "HUG_INELIGIBLE" (map RiskCalculator.type_ factors) <->
     eligible = false) /\
    head (PredictService.recommendations d) =
      Some (if eligible then "HUG 보증보험 가입을 권장합니다"
            else "HUG 보증보험 가입이 불가하므로 계약 재검토를 권장합니다") /\
    ((exists pre value spec post,
        PredictService.reason hug =
          Some (RiskCalculator.Fmt pre value spec post)) <->
     eligible = false /\
     In ("HIGH_LTV", "HIGH") (map factor_label factors)).
Proof.
  intros Ee Hp Ep.
  destruct (predict_analysis db address deposit data db' price source public
              Ee Hp Ep)
    as (d & debug & E & _ & _ & _ & _ & Hf & Hr & He & Hre & _).
  cbv zeta in *. exists d, debug. split; [exact E|].
  rewrite Hf, Hr, Hre, He. clear Hf Hr Hre He E.
  set (safe := fst (fst (calculate_hug_eligibility public deposit))).
  split; [apply hug_eligible_spec|].
  split; [|split; [|split]].
  - destruct safe; cbn [negb]; [tauto|].
    destruct (_ >? 0.8); split; discriminate.
  - rewrite analyze_in_types by discriminate. split; [|tauto].
    intros H. decompose [or and] H; first [assumption | discriminate].
  - apply recommendations_head.
  - rewrite analyze_in_high_ltv, <- gtb_lt.
    destruct safe; cbn [negb].
    + split; [intros (? & ? & ? & ? & H); discriminate H|].
      intros [H _]. discriminate H.
    + destruct (_ >? 0.8); split.
      * intros _. now split.
      * intros _. do 4 eexists. reflexivity.
      * intros (? & ? & ? & ? & H). discriminate H.
      * intros [_ H]. discriminate H.
Qed.


(** X26.  For a positive deposit, the coverage ratio is the rounding of a
    percentage between 0 and 100, which is 100 exactly when the insurance
    is available. *)
Theorem coverage_ratio_is_a_percentage (db : DB) (address : string)
    (deposit : Q) (data : OcrParserService.OcrData) (db' : DB) (price : Q)
    (source : string) (public : Q) :
  estimate db (OcrParserService.unique_number (extract data))
    (OcrParserService.area_size (extract data)) true
  = (db', Return (price, source)) ->
  0 < price ->
  get_public_price db' (OcrParserService.unique_number (extract data))
    (OcrParserService.area_size (extract data)) = Return public ->
  0 < deposit ->
  exists d debug percentage,
    predict db address deposit data =
      (db', Return (PredictService.Analysis (isoformat now) d debug)) /\
    PredictService.coverage_ratio (PredictService.hug_result d) =
      round percentage 1 /\
    0 <= percentage <= 100 /\
    (percentage == 100 <->
     PredictService.is_eligible (PredictService.hug_result d) = true).
Proof.
  intros Ee Hp Ep Hd.
  destruct (predict_analysis db address deposit data db' price source public
              Ee Hp Ep)
    as (d & debug & E & _ & _ & _ & _ & _ & _ & He & _ & Hc & _).
  cbv zeta in *. exists d, debug.
  apply gtb_lt in Hd as Hdb. rewrite Hdb in Hc.
  eexists. split; [exact E|]. split; [exact Hc|].
  rewrite He. clear E Hc He.
  assert (Hdiv : forall m, m / deposit * 100 == 100 * m / deposit)
    by (intros m; field; lra).
  assert (Hle : forall m, 0 <= m <= deposit ->
            0 <= 100 * m / deposit <= 100).
  { intros m [H0 H1]. split.
    - apply Qle_shift_div_l; [exact Hd | lra].
    - apply Qle_shift_div_r; [exact Hd | lra]. }
  assert (Heq : forall m, 100 * m / deposit == 100 <-> m == deposit).
  { intros m. split; intros H.
    - assert (H' : 100 * m / deposit * deposit == 100 * deposit)
        by (rewrite H; reflexivity).
      assert (H2 : 100 * m / deposit * deposit == 100 * m) by (field; lra).
      lra.
    - rewrite H. field. lra. }
  rewrite Hdiv, Heq.
  unfold calculate_hug_eligibility. cbv zeta.
  destruct (public <=? 0) eqn:Eb; cbn [fst snd].
  - destruct (min_cases 0 deposit) as [[H1 ->]|[H1 ->]]; [lra|].
    split; [apply Hle; lra|]. split; [lra | discriminate].
  - apply leb_gt in Eb. pose proof (hug_limit_pos public Eb) as Hl.
    destruct (deposit <=? public * 1.26 / 10000) eqn:Es; cbn [fst snd].
    + apply leb_le in Es.
      destruct (min_cases (public * 1.26 / 10000) deposit)
        as [[H1 ->]|[H1 ->]].
      * split; [apply Hle; lra|]. split; [reflexivity|]. intros _. reflexivity.
      * split; [apply Hle; lra|]. split; [reflexivity|]. intros _. lra.
    + apply leb_gt in Es.
      destruct (min_cases (public * 1.26 / 10000) deposit)
        as [[H1 ->]|[H1 ->]]; [lra|].
      split; [apply Hle; lra|]. split; [lra | discriminate].
Qed.

(** X27.  What the two documents say reaches the response unchanged: the
    factor ILLEGAL_BUILDING and the detail is_illegal_building stand for
    the violation flag of the ledger, the factor TRUST_PROPERTY and the
    detail is_trust for the word 신탁 in the owner or in the trust entry of
    the registry, the factor SENIOR_DEBT for a positive total of the
    registered debts, and the factor HIGH_LTV for a deposit above 70% of
    the estimated price. *)
Theorem document_findings_reach_the_analysis (db : DB) (address : string)
    (deposit : Q) (data : OcrParserService.OcrData) (db' : DB) (price : Q)
    (source : string) (public : Q) :
  estimate db (OcrParserService.unique_number (extract data))
    (OcrParserService.area_size (extract data)) true
  = (db', Return (price, source)) ->
  0 < price ->
  get_public_price db' (OcrParserService.unique_number (extract data))
    (OcrParserService.area_size (extract data)) = Return public ->
  exists d debug,
    predict db address deposit data =
      (db', Return (PredictService.Analysis (isoformat now) d debug)) /\
    let types :=
      map RiskCalculator.type_ (PredictService.major_risk_factors d) in
    let ledger :=
      default OcrParserService.no_ledger (OcrParserService.ledger data) in
    let registry :=
      default OcrParserService.no_registry (OcrParserService.registry data) in
    let trust :=
      Py.contains "신탁" (default "" (OcrParserService.owner registry))
      || Py.contains "신탁"
           (default "" (OcrParserService.trust_content registry)) in
    (In "ILLEGAL_BUILDING" types <->
     OcrParserService.is_violator ledger = true) /\
    PredictService.is_illegal_building (PredictService.details d) =
      OcrParserService.is_violator ledger /\
    (In "TRUST_PROPERTY" types <-> trust = true) /\
    PredictService.is_trust (PredictService.details d) = trust /\
    (In "SENIOR_DEBT" types <->
     0 < OcrParserService._calculate_total_debt re_findall float_of lower
           (OcrParserService.debts registry)) /\
    (In "HIGH_LTV" types <-> 0.7 < deposit / price).
Proof.
  intros Ee Hp Ep.
  destruct (predict_analysis db address deposit data db' price source public
              Ee Hp Ep)
    as (d & debug & E & _ & _ & _ & _ & Hf & _ & _ & _ & _ & Hi & Ht & _).
  cbv zeta in *. exists d, debug. split; [exact E|].
  rewrite Hf, Hi, Ht. clear E Hf Hi Ht.
  destruct (analysis_features_of_documents now to_datetime (extract data)
              deposit price public) as (Gj & Gd & Gi & Gt & _).
  destruct (extract_flags now re_findall float_of strptime lower data)
    as (Fi & Ft & Fd).
  cbv zeta in *.
  rewrite !analyze_in_types by discriminate.
  rewrite Gj, Gd, Gi, Gt, Fi, Ft, Fd.
  rewrite <- !truthy_true, !truthy_or_num_0.
  apply gtb_lt in Hp as Hb. rewrite Hb.
  set (total := OcrParserService._calculate_total_debt _ _ _ _).
  assert (Hone : forall b : bool, Py.truthy (if b then 1 else 0) = b)
    by (intros []; reflexivity).
  rewrite !Hone.
  assert (Htot : 0 < total / 10000 <-> 0 < total).
  { split; intros H.
    - assert (H2 : total / 10000 * 10000 == total) by field. lra.
    - apply Qlt_shift_div_l; [qclosed | lra]. }
  repeat split; try reflexivity;
    try (intros H; decompose [or and] H; clear H;
         first [assumption | discriminate | tauto]);
    try (intros H; tauto).
Qed.

End PredictFacts.

Lemma sample_estimate :
  PriceService.estimate_market_price bool sample_trade sample_public
    sample_available sample_fetch false
    (OcrParserService.unique_number
       (OcrParserService.extract_ocr_features 1000 sample_findall
          sample_float sample_strptime sample_lower sample_ocr))
    (OcrParserService.area_size
       (OcrParserService.extract_ocr_features 1000 sample_findall
          sample_float sample_strptime sample_lower sample_ocr))
    true
  = (true, PriceService.Return (30000, "DB_Trade")).
Proof. reflexivity. Qed.

Lemma analysis_iff_positive_estimate_witness :
  exists d debug,
    sample_service false "서울특별시 종로구 청운동 1-2" 24000 sample_ocr =
      (true,
       PriceService.Return
         (PredictService.Analysis (sample_isoformat 1000) d debug)) /\
    PredictService.market_price d = Py.int (30000 * 10000) /\
    PredictService.price_source d = "DB_Trade".
Proof.
  refine (proj1 (analysis_iff_positive_estimate 1000 sample_findall
                   sample_float sample_strptime sample_lower no_parse bool
                   sample_trade sample_public sample_available sample_fetch
                   None sample_round sample_isoformat false
                   "서울특별시 종로구 청운동 1-2" 24000 sample_ocr true 30000
                   "DB_Trade" 200000000 sample_estimate eq_refl) _).
  reflexivity.
Defined.

Lemma insurance_verdict_is_coherent_witness :
  exists d debug,
    sample_service false "서울특별시 종로구 청운동 1-2" 24000 sample_ocr =
      (true,
       PriceService.Return
         (PredictService.Analysis (sample_isoformat 1000) d debug)) /\
    (PredictService.reason (PredictService.hug_result d) = None <->
     PredictService.is_eligible (PredictService.hug_result d) = true).
Proof.
  destruct (insurance_verdict_is_coherent 1000 sample_findall
              sample_float sample_strptime sample_lower no_parse bool
              sample_trade sample_public sample_available sample_fetch
              None sample_round sample_isoformat false
              "서울특별시 종로구 청운동 1-2" 24000 sample_ocr true 30000
              "DB_Trade" 200000000 sample_estimate eq_refl eq_refl)
    as (d & debug & E & _ & H & _).
  exists d, debug. split; [exact E | exact H].
Defined.


Lemma coverage_ratio_is_a_percentage_witness :
  exists d debug percentage,
    sample_service false "서울특별시 종로구 청운동 1-2" 24000 sample_ocr =
      (true,
       PriceService.Return
         (PredictService.Analysis (sample_isoformat 1000) d debug)) /\
    PredictService.coverage_ratio (PredictService.hug_result d) =
      sample_round percentage 1 /\
    0 <= percentage <= 100.
Proof.
  destruct (coverage_ratio_is_a_percentage 1000 sample_findall
              sample_float sample_strptime sample_lower no_parse bool
              sample_trade sample_public sample_available sample_fetch
              None sample_round sample_isoformat false
              "서울특별시 종로구 청운동 1-2" 24000 sample_ocr true 30000
              "DB_Trade" 200000000 sample_estimate eq_refl eq_refl eq_refl)
    as (d & debug & percentage & E & Hc & Hb & _).
  exists d, debug, percentage. split; [exact E|]. split; [exact Hc | exact Hb].
Defined.

Lemma document_findings_reach_the_analysis_witness :
  exists d debug,
    sample_service false "서울특별시 종로구 청운동 1-2" 24000 sample_ocr =
      (true,
       PriceService.Return
         (PredictService.Analysis (sample_isoformat 1000) d debug)) /\
    PredictService.is_illegal_building (PredictService.details d) = true /\
    PredictService.is_trust (PredictService.details d) = true.
Proof.
  destruct (document_findings_reach_the_analysis 1000 sample_findall
              sample_float sample_strptime sample_lower no_parse bool
              sample_trade sample_public sample_available sample_fetch
              None sample_round sample_isoformat false
              "서울특별시 종로구 청운동 1-2" 24000 sample_ocr true 30000
              "DB_Trade" 200000000 sample_estimate eq_refl eq_refl)
    as (d & debug & E & _ & Hi & _ & Ht & _).
  exists d, debug. split; [exact E|]. split; [exact Hi | exact Ht].
Defined.

(** ** The table of saved results *)

Lemma filter_idem {A : Type} (P : A -> Prop) `{!forall x, Decision (P x)}
    (l : list A) :
  filter P (filter P l) = filter P l.
Proof.
  induction l as [|x l IH]; [reflexivity|].
  rewrite filter_cons. destruct (decide (P x)) as [Hx|Hx]; [|exact IH].
  rewrite filter_cons_True by exact Hx. now rewrite IH.
Qed.

Lemma filter_none {A : Type} (P R : A -> Prop) `{!forall x, Decision (P x)}
    `{!forall x, Decision (R x)} (l : list A) :
  (forall x, R x -> ~ P x) -> filter R (filter P l) = [].
Proof.
  intros Hdis. induction l as [|x l IH]; [reflexivity|].
  rewrite filter_cons. destruct (decide (P x)) as [Hx|Hx]; [|exact IH].
  rewrite filter_cons_False; [exact IH|]. intros Hr. exact (Hdis x Hr Hx).
Qed.

Section ResultFacts.

Variable sql_eq : string -> string -> bool.
Variable sql_now : Q.
Hypothesis sql_eq_refl : forall k, sql_eq k k = true.

Local Abbreviation save :=
  (ResultService.save_prediction_result sql_eq sql_now).

(** X28.  A save that fails changes nothing.  After a save that goes
    through, the table ends with the saved row, whose key is the address
    key of the PNU; this row is the only one with that key, and the rows
    with other keys are the ones from before, in their order. *)
Theorem saved_row_is_the_only_one_of_its_key
    (table : list ResultService.Row) (pnu : string) (building_info_id : Z)
    (deposit market : Q) (features : gmap string Q) (risk_level : string)
    (risk_score ai_prob : Q) :
  ResultService.save_prediction_result sql_eq sql_now table true pnu
    building_info_id deposit market features risk_level risk_score ai_prob
  = (table, false) /\
  exists row,
    let key := ResultService.address_key row in
    let saved :=
      ResultService.save_prediction_result sql_eq sql_now table false pnu
        building_info_id deposit market features risk_level risk_score
        ai_prob in
    snd saved = true /\
    last (fst saved) = Some row /\
    key = AddressService.create_address_key pnu /\
    filter (fun r => sql_eq (ResultService.address_key r) key) (fst saved)
    = [row] /\
    filter (fun r => negb (sql_eq (ResultService.address_key r) key))
      (fst saved)
    = filter (fun r => negb (sql_eq (ResultService.address_key r) key)) table.
Proof.
  split; [reflexivity|].
  unfold ResultService.save_prediction_result. cbv zeta.
  rewrite address_key_of. eexists. cbn [fst snd ResultService.address_key].
  split; [reflexivity|]. unfold Py.append.
  split; [apply last_snoc|]. split; [reflexivity|].
  rewrite !filter_app. split.
  - rewrite filter_none.
    + rewrite filter_cons_True; [reflexivity|].
      cbn [ResultService.address_key]. rewrite sql_eq_refl. exact I.
    + intros x Hx Hn. destruct (sql_eq _ _); [exact Hn | exact Hx].
  - rewrite filter_idem, filter_cons_False; [apply app_nil_r|].
    cbn [ResultService.address_key]. rewrite sql_eq_refl. exact id.
Qed.

(** X29.  The last save under an address key wins: a save after a save
    under the same key leaves the table that the second save alone would
    leave.  The PNUs need not be the same for that. *)
Theorem last_save_under_a_key_wins
    (table : list ResultService.Row) (pnu1 pnu2 : string) (id1 id2 : Z)
    (deposit1 market1 deposit2 market2 : Q) (features1 features2 : gmap string Q)
    (level1 level2 : string) (score1 prob1 score2 prob2 : Q) :
  AddressService.create_address_key pnu1 =
  AddressService.create_address_key pnu2 ->
  fst (ResultService.save_prediction_result sql_eq sql_now
         (fst (ResultService.save_prediction_result sql_eq sql_now table
                 false pnu1 id1 deposit1 market1 features1 level1 score1
                 prob1))
         false pnu2 id2 deposit2 market2 features2 level2 score2 prob2)
  = fst (ResultService.save_prediction_result sql_eq sql_now table
           false pnu2 id2 deposit2 market2 features2 level2 score2 prob2).
Proof.
  intros Hk.
  unfold ResultService.save_prediction_result. cbv zeta.
  rewrite !address_key_of, Hk. cbn [fst]. unfold Py.append.
  rewrite filter_app, filter_idem, filter_cons_False.
  - now rewrite app_nil_r.
  - cbn [ResultService.address_key]. rewrite sql_eq_refl. exact id.
Qed.

End ResultFacts.

Section ResultLimit.

Variable sql_eq : string -> string -> bool.
Variable sql_now : Q.
Variable now : Q.
Variable to_datetime : string -> option Q.


End ResultLimit.

Lemma saved_row_is_the_only_one_of_its_key_witness :
  exists row,
    last (fst (ResultService.save_prediction_result String.eqb 0 [] false
                 "2823710100-3-00650124" 1 24000 30000 ∅ "SAFE" 10 0.1))
    = Some row /\
    ResultService.address_key row =
    AddressService.create_address_key "2823710100-3-00650124".
Proof.
  destruct (saved_row_is_the_only_one_of_its_key String.eqb 0
              String.eqb_refl [] "2823710100-3-00650124" 1 24000 30000 ∅
              "SAFE" 10 0.1) as (_ & row & _ & Hl & Hk & _).
  exists row. split; [exact Hl | exact Hk].
Defined.

Lemma last_save_under_a_key_wins_witness :
  fst (ResultService.save_prediction_result String.eqb 0
         (fst (ResultService.save_prediction_result String.eqb 0 []
                 false "1111010100" 1 24000 30000 ∅ "SAFE" 10 0.1))
         false "2222020200" 2 50000 40000 ∅ "RISKY" 90 0.9)
  = fst (ResultService.save_prediction_result String.eqb 0 []
           false "2222020200" 2 50000 40000 ∅ "RISKY" 90 0.9).
Proof.
  exact (last_save_under_a_key_wins String.eqb 0 String.eqb_refl []
           "1111010100" "2222020200" 1 2 24000 30000 50000 40000 ∅ ∅
           "SAFE" "RISKY" 10 0.1 90 0.9 eq_refl).
Defined.

